(** * tanbo sensor unit: one measurement cycle of the ESP32 firmware

    The firmware wakes from deep sleep, reads its sensors, appends one CSV
    record to /data.csv on the SD card, chooses the next sleep interval and
    goes back to deep sleep.  This file embeds that cycle: the C++ [float]
    and [double] values are IEEE 754 binary32 and binary64 numbers written
    with the Standard Library's [SpecFloat]; the globals, the SD card and the
    serial port are fields of an explicit state; the hardware answers are
    fields of an environment record. *)

From Stdlib Require Import ZArith Lia List Bool String Ascii QArith Qabs Qpower.
From Stdlib Require Import Floats.SpecFloat.
From Stdlib Require Import DecimalString DecimalPos DecimalN.
Import ListNotations.

Local Open Scope Z_scope.

(** ** IEEE 754 arithmetic of the target *)

Module IEEE.

(** C++ [float]: binary32. *)
Definition fprec : Z := 24.
Definition femax : Z := 128.
(** C++ [double]: binary64. *)
Definition dprec : Z := 53.
Definition demax : Z := 1024.

Definition float := spec_float.
Definition double := spec_float.

(** Implicit conversion [float] -> [double] (exact). *)
Definition double_of_float (x : float) : double :=
  match x with
  | S754_finite s m e => binary_round dprec demax s m e
  | _ => x
  end.

(** Conversion [double] -> [float] on assignment (round to nearest even). *)
Definition float_of_double (x : double) : float :=
  match x with
  | S754_finite s m e => binary_round fprec femax s m e
  | _ => x
  end.

(** Conversions from [int]. *)
Definition double_of_int (n : Z) : double := binary_normalize dprec demax n 0 false.
Definition float_of_int (n : Z) : float := binary_normalize fprec femax n 0 false.

(** The [double] literal with digits [n] and [k] decimals, the double
    nearest to [n / 10^k]: the correctly rounded quotient of two exactly
    representable integers. *)
Definition dlit (n : Z) (k : nat) : double :=
  SFdiv dprec demax (double_of_int n) (double_of_int (10 ^ Z.of_nat k)).

Definition dmul := SFmul dprec demax.
Definition ddiv := SFdiv dprec demax.
Definition dsub := SFsub dprec demax.

(** C comparison operators; every comparison with a NaN is false. *)
Definition lt (x y : spec_float) : bool := SFltb x y.
Definition le (x y : spec_float) : bool := SFleb x y.
Definition gt (x y : spec_float) : bool := SFltb y x.
Definition ge (x y : spec_float) : bool := SFleb y x.
Definition eq (x y : spec_float) : bool := SFeqb x y.

Definition is_nan (x : spec_float) : bool :=
  match x with S754_nan => true | _ => false end.

Definition is_finite (x : spec_float) : bool :=
  match x with S754_zero _ | S754_finite _ _ _ => true | _ => false end.

(** The rational number a finite value denotes (0 for the others). *)
Definition to_Q (x : spec_float) : Q :=
  match x with
  | S754_finite s m e => (inject_Z (cond_Zopp s (Zpos m)) * 2 ^ e)%Q
  | _ => 0%Q
  end.

(** A machine [float] is a specification float in canonical form. *)
Definition is_float (x : spec_float) : bool := valid_binary fprec femax x.

End IEEE.

(** ** Configuration constants (lines 24-43 of the sketch) *)

Definition INTERVAL_NORMAL : Z := 1800.
Definition INTERVAL_HIGH_RISK : Z := 600.
Definition INTERVAL_NIGHT : Z := 3600.

(** The literals 20.0, 28.0 and 85.0. *)
Definition BLAST_TEMP_MIN : IEEE.double := IEEE.dlit 200 1.
Definition BLAST_TEMP_MAX : IEEE.double := IEEE.dlit 280 1.
Definition BLAST_HUMIDITY : IEEE.double := IEEE.dlit 850 1.

(** ** Calibration transform *)

(** [adcToWaterLevel], lines 143-152.  The arithmetic is done in [double]
    (the literals are doubles) and rounded to [float] at each assignment;
    [dlit 33 1] is the literal 3.3, [dlit 40950 1] is 4095.0, [dlit 5 1] is
    0.5 and [dlit 200 1] is 20.0. *)
Definition adcToWaterLevel (rawAdc : Z) : IEEE.float :=
  (* float voltage = rawAdc * 3.3 / 4095.0; *)
  let voltage : IEEE.float :=
    IEEE.float_of_double
      (IEEE.ddiv (IEEE.dmul (IEEE.double_of_int rawAdc) (IEEE.dlit 33 1))
                 (IEEE.dlit 40950 1)) in
  (* float level = (voltage - 0.5) * 20.0 / (3.3 - 0.5); *)
  let level : IEEE.float :=
    IEEE.float_of_double
      (IEEE.ddiv
         (IEEE.dmul (IEEE.dsub (IEEE.double_of_float voltage) (IEEE.dlit 5 1))
                    (IEEE.dlit 200 1))
         (IEEE.dsub (IEEE.dlit 33 1) (IEEE.dlit 5 1))) in
  (* if (level < 0) level = 0; *)
  let level := if IEEE.lt level (IEEE.float_of_int 0) then IEEE.float_of_int 0 else level in
  (* if (level > 20) level = 20; *)
  let level := if IEEE.gt level (IEEE.float_of_int 20) then IEEE.float_of_int 20 else level in
  level.

(** ** Text formatting done by the C library *)

Local Open Scope string_scope.

Module Fmt.

Definition CR : string := String (ascii_of_nat 13) "".
Definition LF : string := String (ascii_of_nat 10) "".

(** Decimal digits of a natural number. *)
Definition dec (n : N) : string := NilEmpty.string_of_uint (N.to_uint n).

Fixpoint zeros (k : nat) : string :=
  match k with
  | O => ""
  | S k' => String "0" (zeros k')
  end.

(** printf conversions [%d] and [%0wd]. *)
Definition d (z : Z) : string :=
  if (z <? 0)%Z then "-" ++ dec (Z.abs_N z) else dec (Z.abs_N z).

Definition d0 (w : nat) (z : Z) : string :=
  let digits := dec (Z.abs_N z) in
  if (z <? 0)%Z
  then "-" ++ zeros (w - 1 - String.length digits) ++ digits
  else zeros (w - String.length digits) ++ digits.

(** Nearest integer to [num / den], ties to even ([0 <= num], [0 < den]). *)
Definition div_nearest_even (num den : Z) : Z :=
  let q := num / den in
  let r := num mod den in
  match (2 * r ?= den)%Z with
  | Lt => q
  | Eq => if Z.even q then q else q + 1
  | Gt => q + 1
  end.

(** [|m * 2^e| * 10] rounded to an integer: the digits [%.1f] prints. *)
Definition tenths (m : positive) (e : Z) : Z :=
  if (0 <=? e)%Z
  then Zpos m * 2 ^ e * 10
  else div_nearest_even (Zpos m * 10) (2 ^ (- e)).

Definition sign (s : bool) : string := if s then "-" else "".

(** printf conversion [%.1f] of a [double] (a [float] argument is promoted
    by the caller). *)
Definition f1 (x : IEEE.double) : string :=
  match x with
  | S754_nan => "nan"
  | S754_infinity s => sign s ++ "inf"
  | S754_zero s => sign s ++ "0.0"
  | S754_finite s m e =>
      let n := tenths m e in
      sign s ++ dec (Z.to_N (n / 10)) ++ "." ++ dec (Z.to_N (n mod 10))
  end.

End Fmt.

(** ** Machine integers *)

(** [int] arithmetic wraps to 32 bits, two's complement. *)
Definition wrap32 (z : Z) : Z := (z + 2 ^ 31) mod 2 ^ 32 - 2 ^ 31.

(** [(uint64_t) z]. *)
Definition to_uint64 (z : Z) : Z := z mod 2 ^ 64.

(** ** Broken-down time *)

Record tm := mk_tm {
  tm_sec : Z;
  tm_min : Z;
  tm_hour : Z;
  tm_mday : Z;
  tm_mon : Z;
  tm_year : Z
}.

(** The text [strftime] produces for ["%Y-%m-%dT%H:%M:%S+09:00"]. *)
Definition iso8601 (t : tm) : string :=
  Fmt.d (wrap32 (tm_year t + 1900)) ++ "-" ++
  Fmt.d0 2 (wrap32 (tm_mon t + 1)) ++ "-" ++
  Fmt.d0 2 (tm_mday t) ++ "T" ++
  Fmt.d0 2 (tm_hour t) ++ ":" ++
  Fmt.d0 2 (tm_min t) ++ ":" ++
  Fmt.d0 2 (tm_sec t) ++ "+09:00".

(** [strftime(buf, maxsize, ...)]: the text when it fits with its
    terminator, otherwise 0 is returned and [buf] is indeterminate. *)
Definition strftime (maxsize : nat) (t : tm) : option string :=
  let s := iso8601 t in
  if (String.length s <? maxsize)%nat then Some s else None.

(** ** What the sketch gets from outside *)

Record Env := mk_Env {
  (** build configuration: is [WIFI_SSID] defined? *)
  WIFI_SSID_defined : bool;
  (** DallasTemperature.h: the reading reported for a missing probe *)
  DEVICE_DISCONNECTED_C : Z;
  (** [bme.begin(0x76)] *)
  bme_begin : bool;
  bme_readTemperature : IEEE.float;
  bme_readHumidity : IEEE.float;
  bme_readPressure : IEEE.float;
  (** [ds18b20.getTempCByIndex(0)] *)
  ds18b20_getTempCByIndex : IEEE.float;
  (** [analogRead(WATER_LEVEL_PIN)] *)
  analogRead : Z;
  (** [SD.begin(SD_CS_PIN)] *)
  SD_begin : bool;
  (** does [SD.open("/data.csv", FILE_WRITE)] give a usable [File]? *)
  SD_open_write : bool;
  (** does [SD.open("/data.csv", FILE_APPEND)] give a usable [File]? *)
  SD_open_append : bool;
  (** the answer of the k-th call of [getLocalTime] in this cycle *)
  getLocalTime : nat -> option tm;
  (** is [WiFi.status() == WL_CONNECTED] at the k-th poll of this cycle? *)
  WiFi_connected : nat -> bool;
  (** contents of an uninitialised [buf] after a failed [strftime] *)
  stale_buf : string
}.

(** ** State of the device during one cycle *)

Record State := mk_State {
  airTemp : IEEE.float;
  humidity : IEEE.float;
  pressure : IEEE.float;
  waterTemp : IEEE.float;
  waterLevel : IEEE.float;
  (** contents of /data.csv on the card; [None]: the file does not exist *)
  data_csv : option string;
  (** everything written to the serial port *)
  serial : string;
  (** argument of [esp_sleep_enable_timer_wakeup], in microseconds *)
  wake_timer : option Z;
  (** calls of [getLocalTime] so far *)
  time_calls : nat;
  (** polls of [WiFi.status] so far *)
  wifi_polls : nat
}.

(** Globals are zero-initialised at every cold boot (lines 54-58); only the
    card keeps its contents. *)
Definition boot (card : option string) : State :=
  {| airTemp := IEEE.float_of_int 0;
     humidity := IEEE.float_of_int 0;
     pressure := IEEE.float_of_int 0;
     waterTemp := IEEE.float_of_int 0;
     waterLevel := IEEE.float_of_int 0;
     data_csv := card;
     serial := "";
     wake_timer := None;
     time_calls := O;
     wifi_polls := O |}.

Definition set_airTemp (v : IEEE.float) (s : State) : State :=
  mk_State v (humidity s) (pressure s) (waterTemp s) (waterLevel s)
           (data_csv s) (serial s) (wake_timer s) (time_calls s) (wifi_polls s).
Definition set_humidity (v : IEEE.float) (s : State) : State :=
  mk_State (airTemp s) v (pressure s) (waterTemp s) (waterLevel s)
           (data_csv s) (serial s) (wake_timer s) (time_calls s) (wifi_polls s).
Definition set_pressure (v : IEEE.float) (s : State) : State :=
  mk_State (airTemp s) (humidity s) v (waterTemp s) (waterLevel s)
           (data_csv s) (serial s) (wake_timer s) (time_calls s) (wifi_polls s).
Definition set_waterTemp (v : IEEE.float) (s : State) : State :=
  mk_State (airTemp s) (humidity s) (pressure s) v (waterLevel s)
           (data_csv s) (serial s) (wake_timer s) (time_calls s) (wifi_polls s).
Definition set_waterLevel (v : IEEE.float) (s : State) : State :=
  mk_State (airTemp s) (humidity s) (pressure s) (waterTemp s) v
           (data_csv s) (serial s) (wake_timer s) (time_calls s) (wifi_polls s).
Definition set_data_csv (v : option string) (s : State) : State :=
  mk_State (airTemp s) (humidity s) (pressure s) (waterTemp s) (waterLevel s)
           v (serial s) (wake_timer s) (time_calls s) (wifi_polls s).
Definition set_serial (v : string) (s : State) : State :=
  mk_State (airTemp s) (humidity s) (pressure s) (waterTemp s) (waterLevel s)
           (data_csv s) v (wake_timer s) (time_calls s) (wifi_polls s).
Definition set_wake_timer (v : option Z) (s : State) : State :=
  mk_State (airTemp s) (humidity s) (pressure s) (waterTemp s) (waterLevel s)
           (data_csv s) (serial s) v (time_calls s) (wifi_polls s).
Definition set_time_calls (v : nat) (s : State) : State :=
  mk_State (airTemp s) (humidity s) (pressure s) (waterTemp s) (waterLevel s)
           (data_csv s) (serial s) (wake_timer s) v (wifi_polls s).
Definition set_wifi_polls (v : nat) (s : State) : State :=
  mk_State (airTemp s) (humidity s) (pressure s) (waterTemp s) (waterLevel s)
           (data_csv s) (serial s) (wake_timer s) (time_calls s) v.

(** ** Computations that may end in deep sleep *)

(** A call either returns a value in a new state, or the chip has entered
    deep sleep and nothing after it runs ([esp_deep_sleep_start] does not
    return). *)
Inductive Outcome (A : Type) : Type :=
| Returned (a : A) (s : State)
| Asleep (s : State).
Arguments Returned {A} a s.
Arguments Asleep {A} s.

Definition M (A : Type) : Type := State -> Outcome A.

Definition ret {A : Type} (a : A) : M A := fun s => Returned a s.

Definition bind {A B : Type} (c : M A) (k : A -> M B) : M B :=
  fun s =>
    match c s with
    | Returned a s' => k a s'
    | Asleep s' => Asleep s'
    end.

Notation "x <- c ;; k" := (bind c (fun x => k))
  (at level 61, c at next level, right associativity).
Notation "c ;; k" := (bind c (fun _ => k))
  (at level 61, right associativity).

Definition gets {A : Type} (f : State -> A) : M A := fun s => Returned (f s) s.
Definition modify (f : State -> State) : M unit := fun s => Returned tt (f s).

Definition final_state {A : Type} (o : Outcome A) : State :=
  match o with
  | Returned _ s => s
  | Asleep s => s
  end.

(** ** The sketch *)

Definition CSV_HEADER : string :=
  "timestamp,air_temp,humidity,pressure,water_temp,water_level".

Definition FALLBACK_TIMESTAMP : string := "1970-01-01T00:00:00+09:00".

Section Sketch.

Variable env : Env.

(** *** Library calls *)

Definition Serial_print (t : string) : M unit :=
  modify (fun s => set_serial (serial s ++ t) s).

(** [println] ends the line with CR LF. *)
Definition Serial_println (t : string) : M unit :=
  Serial_print (t ++ Fmt.CR ++ Fmt.LF).

Definition call_getLocalTime : M (option tm) :=
  fun s => Returned (getLocalTime env (time_calls s))
                    (set_time_calls (S (time_calls s)) s).

Definition WiFi_status_is_connected : M bool :=
  fun s => Returned (WiFi_connected env (wifi_polls s))
                    (set_wifi_polls (S (wifi_polls s)) s).

Definition SD_exists_data_csv : M bool :=
  gets (fun s => match data_csv s with Some _ => true | None => false end).

(** [SD.open("/data.csv", FILE_WRITE)]: creates or truncates the file.
    The result tells whether the [File] is usable. *)
Definition SD_open_FILE_WRITE : M bool :=
  if SD_open_write env
  then modify (set_data_csv (Some "")) ;; ret true
  else ret false.

(** [SD.open("/data.csv", FILE_APPEND)]: creates the file when absent. *)
Definition SD_open_FILE_APPEND : M bool :=
  if SD_open_append env
  then modify (fun s => match data_csv s with
                        | Some _ => s
                        | None => set_data_csv (Some "") s
                        end) ;; ret true
  else ret false.

(** Writing through an open [File] on /data.csv. *)
Definition File_print (t : string) : M unit :=
  modify (fun s => match data_csv s with
                   | Some c => set_data_csv (Some (c ++ t)) s
                   | None => set_data_csv (Some t) s
                   end).

Definition File_println (t : string) : M unit :=
  File_print (t ++ Fmt.CR ++ Fmt.LF).

Definition esp_sleep_enable_timer_wakeup (us : Z) : M unit :=
  modify (set_wake_timer (Some us)).

Definition esp_deep_sleep_start : M unit := fun s => Asleep s.

(** *** [goToSleep], lines 209-214 *)
Definition goToSleep (seconds : Z) : M unit :=
  esp_sleep_enable_timer_wakeup (to_uint64 (to_uint64 seconds * 1000000)) ;;
  Serial_println "Entering deep sleep..." ;;
  (* Serial.flush(); *)
  esp_deep_sleep_start.

(** *** [getTimestamp], lines 172-181 *)
Definition getTimestamp : M string :=
  timeinfo <- call_getLocalTime ;;
  match timeinfo with
  | Some t =>
      match strftime 30 t with
      | Some buf => ret buf
      | None => ret (stale_buf env)
      end
  | None => ret FALLBACK_TIMESTAMP
  end.

(** *** [writeCSV], lines 156-170 *)
(** The text [f.printf] writes for ["%s,%.1f,%.1f,%.1f,%.1f,%.1f\n"]: the
    record, then the newline. *)
Definition csv_record (timestamp : string) (s : State) : string :=
  timestamp ++ "," ++
  Fmt.f1 (IEEE.double_of_float (airTemp s)) ++ "," ++
  Fmt.f1 (IEEE.double_of_float (humidity s)) ++ "," ++
  Fmt.f1 (IEEE.double_of_float (pressure s)) ++ "," ++
  Fmt.f1 (IEEE.double_of_float (waterTemp s)) ++ "," ++
  Fmt.f1 (IEEE.double_of_float (waterLevel s)).

Definition csv_line (timestamp : string) (s : State) : string :=
  csv_record timestamp s ++ Fmt.LF.

Definition writeCSV : M unit :=
  timestamp <- getTimestamp ;;
  f <- SD_open_FILE_APPEND ;;
  if negb f then
    Serial_println "ERROR: Cannot open CSV file" ;;
    ret tt
  else
    line <- gets (csv_line timestamp) ;;
    File_print line ;;
    (* f.close(); *)
    Serial_println "Data written to SD card".

(** *** [readSensors], lines 122-141 *)
Definition readSensors : M unit :=
  modify (set_airTemp (bme_readTemperature env)) ;;
  modify (set_humidity (bme_readHumidity env)) ;;
  modify (set_pressure
            (IEEE.float_of_double
               (IEEE.ddiv (IEEE.double_of_float (bme_readPressure env))
                          (IEEE.dlit 1000 1)))) ;;
  (* ds18b20.requestTemperatures(); *)
  modify (set_waterTemp (ds18b20_getTempCByIndex env)) ;;
  wt <- gets waterTemp ;;
  (if IEEE.eq wt (IEEE.float_of_int (DEVICE_DISCONNECTED_C env))
   then modify (set_waterTemp (IEEE.float_of_int (-999)))
   else ret tt) ;;
  let rawAdc := analogRead env in
  modify (set_waterLevel (adcToWaterLevel rawAdc)) ;;
  s <- gets (fun s => s) ;;
  Serial_print ("Air: " ++ Fmt.f1 (IEEE.double_of_float (airTemp s)) ++
                " C, Hum: " ++ Fmt.f1 (IEEE.double_of_float (humidity s)) ++
                " %, Press: " ++ Fmt.f1 (IEEE.double_of_float (pressure s)) ++
                " hPa" ++ Fmt.LF) ;;
  Serial_print ("Water: " ++ Fmt.f1 (IEEE.double_of_float (waterTemp s)) ++
                " C, Level: " ++ Fmt.f1 (IEEE.double_of_float (waterLevel s)) ++
                " cm" ++ Fmt.LF).

(** *** [calcSleepInterval], lines 185-205 *)
Definition calcSleepInterval : M Z :=
  timeinfo <- call_getLocalTime ;;
  let hour := 12%Z in
  let hour := match timeinfo with
              | Some t => tm_hour t
              | None => hour
              end in
  if (hour >=? 22)%Z || (hour <? 5)%Z then ret INTERVAL_NIGHT
  else
    airTemp <- gets airTemp ;;
    humidity <- gets humidity ;;
    if IEEE.ge (IEEE.double_of_float airTemp) BLAST_TEMP_MIN
       && IEEE.le (IEEE.double_of_float airTemp) BLAST_TEMP_MAX
       && IEEE.gt (IEEE.double_of_float humidity) BLAST_HUMIDITY
    then ret INTERVAL_HIGH_RISK
    else ret INTERVAL_NORMAL.

(** *** [syncTime], lines 219-240 (compiled only when [WIFI_SSID] is
    defined) *)

(** The wait loop of lines 222-225, with [remaining = 20 - retries]. *)
Fixpoint syncTime_wait (remaining : nat) : M unit :=
  connected <- WiFi_status_is_connected ;;
  if connected then ret tt
  else match remaining with
       | O => ret tt
       | S r => (* delay(500); retries++; *) syncTime_wait r
       end.

Definition syncTime : M unit :=
  (* WiFi.begin(WIFI_SSID, WIFI_PASS); *)
  syncTime_wait 20 ;;
  connected <- WiFi_status_is_connected ;;
  if connected then
    (* configTime(JST_OFFSET, 0, NTP_SERVER); *)
    timeinfo <- call_getLocalTime ;;
    match timeinfo with
    | Some t =>
        Serial_print ("NTP synced: " ++
                      Fmt.d0 4 (wrap32 (tm_year t + 1900)) ++ "-" ++
                      Fmt.d0 2 (wrap32 (tm_mon t + 1)) ++ "-" ++
                      Fmt.d0 2 (tm_mday t) ++ " " ++
                      Fmt.d0 2 (tm_hour t) ++ ":" ++
                      Fmt.d0 2 (tm_min t) ++ ":" ++
                      Fmt.d0 2 (tm_sec t) ++ Fmt.LF)
    | None => ret tt
    end
    (* WiFi.disconnect(true); WiFi.mode(WIFI_OFF); *)
  else
    Serial_println "WiFi connection failed, skipping NTP sync".

(** *** [setup], lines 60-114 *)

(** Lines 93-100: write the CSV header when the file does not exist. *)
Definition ensureHeader : M unit :=
  present <- SD_exists_data_csv ;;
  if negb present then
    f <- SD_open_FILE_WRITE ;;
    if f then File_println CSV_HEADER (* f.close(); *) else ret tt
  else ret tt.

Definition setup : M unit :=
  (* Serial.begin(115200); delay(100); *)
  Serial_println "=== tanbo-adviser sensor unit ===" ;;
  (* Wire.begin(BME_SDA, BME_SCL); *)
  (if negb (bme_begin env)
   then Serial_println "ERROR: BME280 not found!"
   else ret tt) ;;
  (* ds18b20.begin(); analogSetAttenuation(ADC_11db);
     pinMode(WATER_LEVEL_PIN, INPUT); *)
  if negb (SD_begin env) then
    Serial_println "ERROR: SD card init failed!" ;;
    goToSleep INTERVAL_NORMAL ;;
    ret tt
  else
    (if WIFI_SSID_defined env then syncTime else ret tt) ;;
    ensureHeader ;;
    readSensors ;;
    writeCSV ;;
    sleepSec <- calcSleepInterval ;;
    Serial_print ("Next wake in " ++ Fmt.d sleepSec ++ " seconds" ++ Fmt.LF) ;;
    goToSleep sleepSec.

End Sketch.

(** The text [getTimestamp] returns for a given answer of [getLocalTime]. *)
Definition timestamp_text (env : Env) (timeinfo : option tm) : string :=
  match timeinfo with
  | Some t =>
      match strftime 30 t with
      | Some buf => buf
      | None => stale_buf env
      end
  | None => FALLBACK_TIMESTAMP
  end.

(** One cold-boot cycle: the card contents after [setup] has run. *)
Definition cycle (card : option string) (env : Env) : option string :=
  data_csv (final_state (setup env (boot card))).

(** Successive cycles, one environment per wake-up. *)
Definition run_cycles (envs : list Env) (card : option string) : option string :=
  fold_left cycle envs card.


(** ** Reading floating-point values as numbers *)

(** The extended real a floating-point datum stands for. *)
Inductive xreal : Type :=
| XNaN
| XNegInf
| XNum (q : Q)
| XPosInf.

Definition value_of (x : spec_float) : xreal :=
  match x with
  | S754_nan => XNaN
  | S754_infinity true => XNegInf
  | S754_infinity false => XPosInf
  | S754_zero _ => XNum 0
  | S754_finite _ _ _ => XNum (IEEE.to_Q x)
  end.

(** Order of the extended reals; a NaN compares with nothing. *)
Definition xcompare (a b : xreal) : option comparison :=
  match a, b with
  | XNaN, _ | _, XNaN => None
  | XNegInf, XNegInf => Some Eq
  | XNegInf, _ => Some Lt
  | _, XNegInf => Some Gt
  | XPosInf, XPosInf => Some Eq
  | XPosInf, _ => Some Gt
  | _, XPosInf => Some Lt
  | XNum p, XNum q => Some (p ?= q)%Q
  end.

Definition xle (a b : xreal) : bool :=
  match xcompare a b with
  | Some Lt | Some Eq => true
  | _ => false
  end.

Definition xlt (a b : xreal) : bool :=
  match xcompare a b with
  | Some Lt => true
  | _ => false
  end.

(** Equality of extended reals, up to the representation of rationals. *)
Definition xeq (a b : xreal) : Prop :=
  match a, b with
  | XNum p, XNum q => (p == q)%Q
  | XNaN, XNaN | XNegInf, XNegInf | XPosInf, XPosInf => True
  | _, _ => False
  end.

(** A datum whose mantissa, if it has one, uses all 53 bits. *)
Definition full_mantissa (x : spec_float) : bool :=
  match x with
  | S754_finite _ m _ => (Zpos (digits2_pos m) =? 53)%Z
  | _ => true
  end.

(** A finite machine [float]. *)
Definition finite_float (x : IEEE.float) : Prop :=
  IEEE.is_float x = true /\ IEEE.is_finite x = true.

(** All five sensor globals hold finite values. *)
Definition finite_reading (s : State) : Prop :=
  finite_float (airTemp s) /\ finite_float (humidity s) /\
  finite_float (pressure s) /\ finite_float (waterTemp s) /\
  finite_float (waterLevel s).

(** ** The scheduling policy of the specification *)

(** The night window [22,24) u [0,5) of the hour of day. *)
Definition in_night_window (hour : Z) : Prop :=
  (22 <= hour < 24 \/ 0 <= hour < 5)%Z.

(** An hour of the day that is outside the night window. *)
Definition day_hour (hour : Z) : Prop :=
  (0 <= hour < 24)%Z /\ ~ in_night_window hour.

(** The disease-risk predicate, on values: air temperature within 20..28
    degrees (both ends included) and relative humidity above 85 percent. *)
Definition in_risk_band (airTemp : IEEE.float) : bool :=
  xle (XNum 20) (value_of airTemp) && xle (value_of airTemp) (XNum 28).

Definition exceeds_risk_humidity (humidity : IEEE.float) : bool :=
  xlt (XNum 85) (value_of humidity).

Definition blast_risk (airTemp humidity : IEEE.float) : bool :=
  in_risk_band airTemp && exceeds_risk_humidity humidity.

(** ** The calibration contract of the specification *)

(** [clamp x lo hi] on floating-point data. *)
Definition fclamp (x lo hi : spec_float) : spec_float :=
  if IEEE.lt x lo then lo else if IEEE.gt x hi then hi else x.

(** The contract [level(rawADC, vref, fullScale, v0, lMax)] evaluated in the
    arithmetic of the target: [voltage] and [level] are [float] quantities,
    the calibration endpoints are [double] constants. *)
Definition level_ieee (rawADC : Z) (vref fullScale v0 lMax : IEEE.double) : IEEE.float :=
  let voltage :=
    IEEE.float_of_double
      (IEEE.ddiv (IEEE.dmul (IEEE.double_of_int rawADC) vref) fullScale) in
  let level :=
    IEEE.float_of_double
      (IEEE.ddiv (IEEE.dmul (IEEE.dsub (IEEE.double_of_float voltage) v0) lMax)
                 (IEEE.dsub vref v0)) in
  fclamp level (IEEE.float_of_int 0) (IEEE.float_of_double lMax).

Definition Qclamp (x lo hi : Q) : Q :=
  if Qle_bool x lo then lo else if Qle_bool hi x then hi else x.

(** The same contract over the rational numbers, without any rounding. *)
Definition level_exact (rawADC : Z) (vref fullScale v0 lMax : Q) : Q :=
  let voltage := (inject_Z rawADC * vref / fullScale)%Q in
  Qclamp ((voltage - v0) * lMax / (vref - v0))%Q 0 lMax.

(** What is checked of [adcToWaterLevel] at one ADC count: a finite [float]
    in 0..20 within [2e-6] of the exact value. *)
Definition calibration_ok (rawAdc : Z) : bool :=
  let r := adcToWaterLevel rawAdc in
  IEEE.is_float r && IEEE.is_finite r
  && Qle_bool 0 (IEEE.to_Q r) && Qle_bool (IEEE.to_Q r) 20
  && Qle_bool (Qabs (IEEE.to_Q r - level_exact rawAdc (33 # 10) 4095 (1 # 2) 20))
              (1 # 500000).

(** Every ADC count of the 12-bit converter. *)
Definition adc_counts : list Z := map Z.of_nat (seq 0 4096).

(** ** Effects of one cycle on the card *)

(** The globals as [readSensors] leaves them. *)
Definition measurement (env : Env) : State :=
  final_state (readSensors env (boot None)).

(** The card after the header step of lines 93-100. *)
Definition header_ensured (env : Env) (card : option string) : option string :=
  match card with
  | Some c => Some c
  | None => if SD_open_write env then Some (CSV_HEADER ++ Fmt.CR ++ Fmt.LF) else None
  end.

(** The card after [writeCSV], when the call of [getLocalTime] it makes is
    the k-th of the cycle. *)
Definition record_appended (env : Env) (k : nat) (card : option string) : option string :=
  if SD_open_append env
  then Some (match card with Some c => c | None => "" end
             ++ csv_line (timestamp_text env (getLocalTime env k)) (measurement env))
  else card.

(** Two states with the same sensor globals. *)
Definition same_reading (s s' : State) : Prop :=
  airTemp s' = airTemp s /\ humidity s' = humidity s /\ pressure s' = pressure s /\
  waterTemp s' = waterTemp s /\ waterLevel s' = waterLevel s.

(** [r] is the record the cycle in [env] writes. *)
Definition record_of (env : Env) (r : string) : Prop :=
  exists k : nat,
    r = csv_record (timestamp_text env (getLocalTime env k)) (measurement env).

(** ** Conditions on the environment of a cycle *)

(** The card works: it initialises and both ways of opening the file
    succeed. *)
Definition storage_ok (env : Env) : Prop :=
  SD_begin env = true /\ SD_open_write env = true /\ SD_open_append env = true.

(** Every time the clock delivers fits the 30-byte buffer of
    [getTimestamp]. *)
Definition clock_fits (env : Env) : Prop :=
  forall (k : nat) (t : tm),
    getLocalTime env k = Some t -> (String.length (iso8601 t) < 30)%nat.

(** A calendar date and time of day as [localtime_r] delivers them, in the
    years 1900..9999. *)
Definition tm_plausible (t : tm) : Prop :=
  (0 <= tm_year t <= 8099 /\ 0 <= tm_mon t <= 11 /\ 1 <= tm_mday t <= 31 /\
   0 <= tm_hour t <= 23 /\ 0 <= tm_min t <= 59 /\ 0 <= tm_sec t <= 60)%Z.

(** The clock of a unit that only delivers calendar times. *)
Definition clock_plausible (env : Env) : Prop :=
  forall (k : nat) (t : tm), getLocalTime env k = Some t -> tm_plausible t.

(** ** Reading the file back: the documented column format *)

(** The pieces of a text between occurrences of a separator. *)
Fixpoint split_on (sep : ascii) (s : string) : list string :=
  match s with
  | EmptyString => [EmptyString]
  | String c rest =>
      if Ascii.eqb c sep then EmptyString :: split_on sep rest
      else match split_on sep rest with
           | [] => [String c EmptyString]
           | piece :: pieces => String c piece :: pieces
           end
  end.

(** A line without the CR that may precede its LF. *)
Fixpoint chomp_CR (line : string) : string :=
  match line with
  | EmptyString => EmptyString
  | String c rest =>
      match rest with
      | EmptyString => if Ascii.eqb c (ascii_of_nat 13) then EmptyString else line
      | String _ _ => String c (chomp_CR rest)
      end
  end.

(** The lines of a text: each is ended by LF; what follows the last LF is
    not a line. *)
Definition text_lines (content : string) : list string :=
  map chomp_CR (removelast (split_on (ascii_of_nat 10) content)).

Definition store_lines (card : option string) : list string :=
  match card with
  | Some content => text_lines content
  | None => []
  end.

(** A text made of the given lines, each ended by LF. *)
Fixpoint join_lines (lines : list string) : string :=
  match lines with
  | [] => EmptyString
  | l :: rest => l ++ Fmt.LF ++ join_lines rest
  end.

(** A non-empty run of decimal digits. *)
Definition parse_digits (s : string) : option N :=
  match s with
  | EmptyString => None
  | String _ _ => option_map N.of_uint (NilEmpty.uint_of_string s)
  end.

(** An integer part, a point and a fractional part. *)
Definition parse_decimal (s : string) : option Q :=
  match split_on "." s with
  | [int_part; frac_part] =>
      match parse_digits int_part, parse_digits frac_part with
      | Some a, Some b =>
          Some (inject_Z (Z.of_N a)
                + inject_Z (Z.of_N b) / inject_Z (10 ^ Z.of_nat (String.length frac_part)))%Q
      | _, _ => None
      end
  | _ => None
  end.

(** A numeric field: an optional minus sign and a decimal number. *)
Definition parse_number (s : string) : option Q :=
  match s with
  | String "-" rest => option_map Qopp (parse_decimal rest)
  | _ => parse_decimal s
  end.

Record Reading := mk_Reading {
  r_timestamp : string;
  r_air_temp : Q;
  r_humidity : Q;
  r_pressure : Q;
  r_water_temp : Q;
  r_water_level : Q
}.

(** A data line:
    timestamp,air_temp,humidity,pressure,water_temp,water_level *)
Definition parse_record (line : string) : option Reading :=
  match split_on "," line with
  | [ts; f1; f2; f3; f4; f5] =>
      match parse_number f1, parse_number f2, parse_number f3,
            parse_number f4, parse_number f5 with
      | Some a, Some h, Some p, Some wt, Some wl => Some (mk_Reading ts a h p wt wl)
      | _, _, _, _, _ => None
      end
  | _ => None
  end.

(** [q] is [x] rounded to one decimal place: a multiple of 1/10 at distance
    at most 1/20. *)
Definition rounded_to_tenth (x q : Q) : Prop :=
  (exists n : Z, q == inject_Z n / 10)%Q /\ (Qabs (q - x) <= 1 # 20)%Q.

(** ** Character classes *)

Fixpoint forall_chars (p : ascii -> bool) (s : string) : bool :=
  match s with
  | EmptyString => true
  | String c rest => p c && forall_chars p rest
  end.

Definition free_of (sep : ascii) (s : string) : bool :=
  forall_chars (fun c => negb (Ascii.eqb c sep)) s.

Definition is_digit (c : ascii) : bool :=
  (48 <=? nat_of_ascii c)%nat && (nat_of_ascii c <=? 57)%nat.

(** The characters of timestamps and of numeric fields. *)
Definition is_field_char (c : ascii) : bool :=
  is_digit c ||
  existsb (Ascii.eqb c) (list_ascii_of_string "-+.:Tnaif").

(** ** Sample inputs *)

(** 15 August 2026 at the given hour. *)
Definition sample_time (hour : Z) : tm :=
  {| tm_sec := 0; tm_min := 0; tm_hour := hour; tm_mday := 15; tm_mon := 7; tm_year := 126 |}.

(** A healthy unit whose clock answers [clock] at every call. *)
Definition sample_env (clock : option tm) : Env :=
  {| WIFI_SSID_defined := false;
     DEVICE_DISCONNECTED_C := -127;
     bme_begin := true;
     bme_readTemperature := IEEE.float_of_int 24;
     bme_readHumidity := IEEE.float_of_int 90;
     bme_readPressure := IEEE.float_of_int 101325;
     ds18b20_getTempCByIndex := IEEE.float_of_int 22;
     analogRead := 1000;
     SD_begin := true;
     SD_open_write := true;
     SD_open_append := true;
     getLocalTime := fun _ => clock;
     WiFi_connected := fun _ => false;
     stale_buf := "" |}.

(** The state right after boot with the given air temperature and humidity
    already in the globals. *)
Definition sample_state (t h : IEEE.float) : State :=
  set_humidity h (set_airTemp t (boot None)).

(** The same unit with the water-temperature probe unplugged and no clock. *)
Definition unplugged_env : Env :=
  {| WIFI_SSID_defined := false;
     DEVICE_DISCONNECTED_C := -127;
     bme_begin := true;
     bme_readTemperature := IEEE.float_of_int 24;
     bme_readHumidity := IEEE.float_of_int 90;
     bme_readPressure := IEEE.float_of_int 101325;
     ds18b20_getTempCByIndex := IEEE.float_of_int (-127);
     analogRead := 1000;
     SD_begin := true;
     SD_open_write := true;
     SD_open_append := true;
     getLocalTime := fun _ => None;
     WiFi_connected := fun _ => false;
     stale_buf := "" |}.

(** A unit whose SD card does not initialise. *)
Definition unplugged_env_no_card : Env :=
  {| WIFI_SSID_defined := false;
     DEVICE_DISCONNECTED_C := -127;
     bme_begin := true;
     bme_readTemperature := IEEE.float_of_int 24;
     bme_readHumidity := IEEE.float_of_int 90;
     bme_readPressure := IEEE.float_of_int 101325;
     ds18b20_getTempCByIndex := IEEE.float_of_int (-127);
     analogRead := 1000;
     SD_begin := false;
     SD_open_write := true;
     SD_open_append := true;
     getLocalTime := fun _ => None;
     WiFi_connected := fun _ => false;
     stale_buf := "" |}.

(** A unit whose card opens the file for append but not for writing. *)
Definition headerless_env : Env :=
  {| WIFI_SSID_defined := false;
     DEVICE_DISCONNECTED_C := -127;
     bme_begin := true;
     bme_readTemperature := IEEE.float_of_int 24;
     bme_readHumidity := IEEE.float_of_int 90;
     bme_readPressure := IEEE.float_of_int 101325;
     ds18b20_getTempCByIndex := IEEE.float_of_int 22;
     analogRead := 1000;
     SD_begin := true;
     SD_open_write := false;
     SD_open_append := true;
     getLocalTime := fun _ => None;
     WiFi_connected := fun _ => false;
     stale_buf := "" |}.

(** ** Further notions used to describe the sketch *)

(** [f] is first true, counting from [k], at position [k + j]. *)
Definition first_true_at (f : nat -> bool) (k j : nat) : Prop :=
  (forall i : nat, (i < j)%nat -> f (k + i)%nat = false) /\ f (k + j)%nat = true.

(** A cycle in which a record reaches the card: the card initialises and the
    file opens for append. *)
Definition cycle_writes (env : Env) : bool :=
  SD_begin env && SD_open_append env.

(** A cycle that cannot create the file: the card does not initialise, or
    neither way of opening the file works. *)
Definition cycle_dead (env : Env) : Prop :=
  SD_begin env = false \/ (SD_open_write env = false /\ SD_open_append env = false).

(** Two states that agree on what a cold boot keeps or resets identically:
    the card and the two call counters; with [globals] also on the five
    sensor globals. *)
Definition same_start (globals : bool) (s1 s2 : State) : Prop :=
  data_csv s1 = data_csv s2 /\ time_calls s1 = time_calls s2 /\
  wifi_polls s1 = wifi_polls s2 /\
  (globals = true -> same_reading s1 s2).

(** The same computation run from two states ends the same way, with equal
    results, in states related by [Q] (returning) or [Z] (asleep). *)
Definition in_step {A : Type} (P : State -> State -> Prop) (c : M A)
           (Q Zz : State -> State -> Prop) : Prop :=
  forall s1 s2 : State,
    P s1 s2 ->
    match c s1, c s2 with
    | Returned a1 t1, Returned a2 t2 => a1 = a2 /\ Q t1 t2
    | Asleep t1, Asleep t2 => Zz t1 t2
    | _, _ => False
    end.

(** The card and the wake timer agree. *)
Definition same_sleep (s1 s2 : State) : Prop :=
  data_csv s1 = data_csv s2 /\ wake_timer s1 = wake_timer s2 /\
  time_calls s1 = time_calls s2 /\ wifi_polls s1 = wifi_polls s2.

(** Reading a timestamp back: four digits of year, two each of month, day,
    hour, minute and second at their fixed places, and the +09:00 suffix. *)
Definition parse_timestamp (ts : string) : option tm :=
  if negb (String.eqb (substring 4 1 ts) "-") then None
  else if negb (String.eqb (substring 7 1 ts) "-") then None
  else if negb (String.eqb (substring 10 1 ts) "T") then None
  else if negb (String.eqb (substring 13 1 ts) ":") then None
  else if negb (String.eqb (substring 16 1 ts) ":") then None
  else if negb (String.eqb (substring 19 7 ts) "+09:00") then None
  else
    match parse_digits (substring 0 4 ts), parse_digits (substring 5 2 ts),
          parse_digits (substring 8 2 ts), parse_digits (substring 11 2 ts),
          parse_digits (substring 14 2 ts), parse_digits (substring 17 2 ts) with
    | Some y, Some mo, Some d, Some h, Some mi, Some sec =>
        Some {| tm_sec := Z.of_N sec; tm_min := Z.of_N mi; tm_hour := Z.of_N h;
                tm_mday := Z.of_N d; tm_mon := Z.of_N mo - 1;
                tm_year := Z.of_N y - 1900 |}
    | _, _, _, _, _, _ => None
    end.

(** 1 January 1970, 00:00:00. *)
Definition epoch_start : tm :=
  {| tm_sec := 0; tm_min := 0; tm_hour := 0; tm_mday := 1; tm_mon := 0; tm_year := 70 |}.

(** The water level as a rational number. *)
Definition level_Q (rawAdc : Z) : Q := IEEE.to_Q (adcToWaterLevel rawAdc).

(** What is checked of [adcToWaterLevel] between one ADC count and the next:
    both levels are zero below count 620, and the level grows from there. *)
Definition level_step_ok (rawAdc : Z) : bool :=
  if (rawAdc <? 620)%Z
  then Qeq_bool (level_Q rawAdc) 0 && Qeq_bool (level_Q (rawAdc + 1)) 0
  else negb (Qle_bool (level_Q (rawAdc + 1)) (level_Q rawAdc)).
(** ** Facts about the IEEE operations *)

Section IEEE_facts.

Local Open Scope Z_scope.

Lemma digits2_pos_iter_xO (m d : positive) :
  digits2_pos (Pos.iter xO m d) = (digits2_pos m + d)%positive.
Proof.
  induction d as [|d IH] using Pos.peano_ind.
  - simpl. lia.
  - rewrite Pos.iter_succ. simpl. rewrite IH. lia.
Qed.

Lemma Zpos_iter_xO (m d : positive) :
  Zpos (Pos.iter xO m d) = Zpos m * 2 ^ Zpos d.
Proof.
  induction d as [|d IH] using Pos.peano_ind.
  - simpl. lia.
  - rewrite Pos.iter_succ, Pos2Z.inj_xO, IH, Pos2Z.inj_succ, Z.pow_succ_r by lia. ring.
Qed.

Lemma digits2_pos_bounds (m : positive) :
  2 ^ (Zpos (digits2_pos m) - 1) <= Zpos m < 2 ^ Zpos (digits2_pos m).
Proof.
  induction m as [m IH|m IH|]; simpl digits2_pos.
  - rewrite Pos2Z.inj_succ, (Pos2Z.inj_xI m).
    replace (Z.succ (Zpos (digits2_pos m)) - 1) with (Z.succ (Zpos (digits2_pos m) - 1)) by lia.
    rewrite !Z.pow_succ_r by lia. lia.
  - rewrite Pos2Z.inj_succ, (Pos2Z.inj_xO m).
    replace (Z.succ (Zpos (digits2_pos m)) - 1) with (Z.succ (Zpos (digits2_pos m) - 1)) by lia.
    rewrite !Z.pow_succ_r by lia. lia.
  - simpl. lia.
Qed.

(** What canonical form means for a binary32 mantissa and exponent. *)
Lemma is_float_finite_inv (s : bool) (m : positive) (e : Z) :
  IEEE.is_float (S754_finite s m e) = true ->
  Zpos (digits2_pos m) <= 24 /\ -149 <= e <= 104 /\
  (e = -149 \/ Zpos (digits2_pos m) = 24).
Proof.
  unfold IEEE.is_float, valid_binary, bounded, canonical_mantissa, fexp, emin,
    IEEE.fprec, IEEE.femax.
  intros H. apply andb_true_iff in H. destruct H as [H1 H2].
  apply Z.eqb_eq in H1. apply Z.leb_le in H2. lia.
Qed.

(** Rounding a mantissa that is already canonical changes nothing. *)
Lemma binary_round_aux_canonical (prec emax : Z) (s : bool) (m : positive) (e : Z) :
  fexp prec emax (Zpos (digits2_pos m) + e) = e ->
  e <= emax - prec ->
  binary_round_aux prec emax s (Zpos m) e loc_Exact = S754_finite s m e.
Proof.
  intros Hc He.
  unfold binary_round_aux, shr_fexp.
  cbn [Zdigits2]. rewrite Hc, Z.sub_diag.
  cbn [shr shr_record_of_loc shr_m loc_of_shr_record round_nearest_even Zdigits2].
  rewrite Hc, Z.sub_diag.
  cbn [shr shr_record_of_loc shr_m].
  apply Z.leb_le in He. rewrite He. reflexivity.
Qed.

(** Promotion of a [float] keeps sign and value and yields a 53-bit
    mantissa. *)
Lemma double_of_float_finite (s : bool) (m : positive) (e : Z) :
  IEEE.is_float (S754_finite s m e) = true ->
  IEEE.double_of_float (S754_finite s m e) =
  S754_finite s (Pos.iter xO m (Z.to_pos (53 - Zpos (digits2_pos m))))
              (e + Zpos (digits2_pos m) - 53).
Proof.
  intros H. apply is_float_finite_inv in H. destruct H as (Hd & He & _).
  unfold IEEE.double_of_float, binary_round, shl_align.
  assert (Hf : fexp IEEE.dprec IEEE.demax (Zpos (digits2_pos m) + e)
               = e + Zpos (digits2_pos m) - 53).
  { unfold fexp, emin, IEEE.dprec, IEEE.demax. lia. }
  rewrite Hf.
  destruct (e + Zpos (digits2_pos m) - 53 - e) as [|p|p] eqn:Hp; try lia.
  assert (Hp' : 53 - Zpos (digits2_pos m) = Zpos p) by lia.
  rewrite Hp'. change (Z.to_pos (Zpos p)) with p.
  apply binary_round_aux_canonical.
  - rewrite digits2_pos_iter_xO.
    unfold fexp, emin, IEEE.dprec, IEEE.demax. lia.
  - unfold IEEE.dprec, IEEE.demax. lia.
Qed.

Lemma two_not_zero : ~ (2 == 0)%Q.
Proof. discriminate. Qed.

Lemma Qpow2_pos (e : Z) : (0 < 2 ^ e)%Q.
Proof. apply Qpower_0_lt. reflexivity. Qed.

(** Moving a power of two between mantissa and exponent. *)
Lemma dyadic_rescale (m e k : Z) :
  k <= e ->
  (inject_Z m * 2 ^ e == inject_Z (m * 2 ^ (e - k)) * 2 ^ k)%Q.
Proof.
  intros Hk.
  rewrite inject_Z_mult, Zpower_Qpower by lia.
  change (inject_Z 2) with 2%Q.
  rewrite <- Qmult_assoc, <- Qpower_plus by apply two_not_zero.
  replace (e - k + k) with e by lia. reflexivity.
Qed.

Lemma to_Q_double_of_float (x : spec_float) :
  IEEE.is_float x = true ->
  (IEEE.to_Q (IEEE.double_of_float x) == IEEE.to_Q x)%Q.
Proof.
  destruct x as [s|s| |s m e]; try reflexivity.
  intros H. rewrite double_of_float_finite by exact H.
  apply is_float_finite_inv in H. destruct H as (Hd & He & _).
  unfold IEEE.to_Q.
  assert (Hp : exists p, 53 - Zpos (digits2_pos m) = Zpos p).
  { destruct (53 - Zpos (digits2_pos m)) as [|p|p] eqn:E; try lia. now exists p. }
  destruct Hp as [p Hp]. rewrite Hp. change (Z.to_pos (Zpos p)) with p.
  rewrite (dyadic_rescale (cond_Zopp s (Zpos m)) e (e + Zpos (digits2_pos m) - 53)) by lia.
  replace (e - (e + Zpos (digits2_pos m) - 53)) with (Zpos p) by lia.
  rewrite Zpos_iter_xO.
  replace (cond_Zopp s (Zpos m * 2 ^ Zpos p))
    with (cond_Zopp s (Zpos m) * 2 ^ Zpos p)
    by (destruct s; unfold cond_Zopp; ring).
  reflexivity.
Qed.

Lemma full_mantissa_double_of_float (x : spec_float) :
  IEEE.is_float x = true -> full_mantissa (IEEE.double_of_float x) = true.
Proof.
  destruct x as [s|s| |s m e]; try reflexivity.
  intros H. rewrite double_of_float_finite by exact H.
  apply is_float_finite_inv in H. destruct H as (Hd & He & _).
  unfold full_mantissa. apply Z.eqb_eq.
  destruct (53 - Zpos (digits2_pos m)) as [|p|p] eqn:E; try lia.
  change (Z.to_pos (Zpos p)) with p.
  rewrite digits2_pos_iter_xO. lia.
Qed.

Lemma value_of_double_of_float (x : spec_float) :
  IEEE.is_float x = true ->
  xeq (value_of (IEEE.double_of_float x)) (value_of x).
Proof.
  intros H. pose proof (to_Q_double_of_float x H) as HQ.
  destruct x as [s|[|]| |s m e]; try exact I; try reflexivity.
  rewrite double_of_float_finite in HQ |- * by exact H.
  cbn [value_of]. exact HQ.
Qed.

(** Order of two positive dyadic numbers with 53-bit mantissas: first by
    exponent, then by mantissa. *)
Lemma dyadic_order (m1 m2 : positive) (e1 e2 : Z) :
  Zpos (digits2_pos m1) = 53 -> Zpos (digits2_pos m2) = 53 ->
  match (match e1 ?= e2 with
         | Lt => Lt
         | Gt => Gt
         | Eq => Pos.compare_cont Eq m1 m2
         end) with
  | Lt => (inject_Z (Zpos m1) * 2 ^ e1 < inject_Z (Zpos m2) * 2 ^ e2)%Q
  | Eq => (inject_Z (Zpos m1) * 2 ^ e1 == inject_Z (Zpos m2) * 2 ^ e2)%Q
  | Gt => (inject_Z (Zpos m2) * 2 ^ e2 < inject_Z (Zpos m1) * 2 ^ e1)%Q
  end.
Proof.
  intros H1 H2.
  pose proof (digits2_pos_bounds m1) as B1. rewrite H1 in B1.
  pose proof (digits2_pos_bounds m2) as B2. rewrite H2 in B2.
  change (2 ^ (53 - 1)) with 4503599627370496 in *.
  change (2 ^ 53) with 9007199254740992 in *.
  destruct (Z.compare_spec e1 e2) as [E|E|E].
  - subst e2. fold (Pos.compare m1 m2).
    destruct (Pos.compare_spec m1 m2) as [F|F|F].
    + subst. reflexivity.
    + apply Qmult_lt_r; [apply Qpow2_pos|]. rewrite <- Zlt_Qlt. lia.
    + apply Qmult_lt_r; [apply Qpow2_pos|]. rewrite <- Zlt_Qlt. lia.
  - rewrite (dyadic_rescale (Zpos m2) e2 e1) by lia.
    apply Qmult_lt_r; [apply Qpow2_pos|]. rewrite <- Zlt_Qlt.
    assert (2 ^ 1 <= 2 ^ (e2 - e1)) by (apply Z.pow_le_mono_r; lia).
    change (2 ^ 1) with 2 in *. nia.
  - rewrite (dyadic_rescale (Zpos m1) e1 e2) by lia.
    apply Qmult_lt_r; [apply Qpow2_pos|]. rewrite <- Zlt_Qlt.
    assert (2 ^ 1 <= 2 ^ (e1 - e2)) by (apply Z.pow_le_mono_r; lia).
    change (2 ^ 1) with 2 in *. nia.
Qed.

Lemma Qcompare_of_order (c : comparison) (a b : Q) :
  match c with
  | Lt => (a < b)%Q
  | Eq => (a == b)%Q
  | Gt => (b < a)%Q
  end ->
  (a ?= b)%Q = c.
Proof.
  destruct c; intros H.
  - now apply Qeq_alt.
  - now apply Qlt_alt.
  - now apply Qgt_alt.
Qed.

Lemma to_Q_positive (m : positive) (e : Z) :
  (0 < IEEE.to_Q (S754_finite false m e))%Q.
Proof.
  unfold IEEE.to_Q, cond_Zopp.
  apply Qmult_lt_0_compat; [|apply Qpow2_pos].
  change 0%Q with (inject_Z 0). rewrite <- Zlt_Qlt. lia.
Qed.

Lemma to_Q_negative (m : positive) (e : Z) :
  (IEEE.to_Q (S754_finite true m e) == - IEEE.to_Q (S754_finite false m e))%Q.
Proof.
  unfold IEEE.to_Q.
  change (cond_Zopp true (Zpos m)) with (- cond_Zopp false (Zpos m)).
  rewrite inject_Z_opp. ring.
Qed.

(** On data in 53-bit normal form the IEEE comparison is the comparison of
    the values. *)
Lemma SFcompare_value (x y : spec_float) :
  full_mantissa x = true -> full_mantissa y = true ->
  SFcompare x y = xcompare (value_of x) (value_of y).
Proof.
  destruct x as [sx|[|]| |sx mx ex], y as [sy|[|]| |sy my ey];
    try reflexivity; intros Hx Hy; cbn [SFcompare value_of xcompare]; f_equal;
    symmetry; apply Qcompare_of_order.
  - (* zero, finite *)
    destruct sy.
    + rewrite to_Q_negative. pose proof (to_Q_positive my ey) as P.
      apply Qopp_lt_compat in P. exact P.
    + apply to_Q_positive.
  - (* finite, zero *)
    destruct sx.
    + rewrite to_Q_negative. pose proof (to_Q_positive mx ex) as P.
      apply Qopp_lt_compat in P. exact P.
    + apply to_Q_positive.
  - (* finite, finite *)
    cbn [full_mantissa] in Hx, Hy. apply Z.eqb_eq in Hx, Hy.
    pose proof (dyadic_order mx my ex ey Hx Hy) as O.
    pose proof (to_Q_positive mx ex) as Px.
    pose proof (to_Q_positive my ey) as Py.
    destruct sx, sy.
    + change (inject_Z (Zpos mx) * 2 ^ ex)%Q
        with (IEEE.to_Q (S754_finite false mx ex)) in O.
      change (inject_Z (Zpos my) * 2 ^ ey)%Q
        with (IEEE.to_Q (S754_finite false my ey)) in O.
      destruct (ex ?= ey); [destruct (Pos.compare_cont Eq mx my)| |];
        cbn [CompOpp]; rewrite !to_Q_negative.
      * rewrite O. reflexivity.
      * now apply Qopp_lt_compat.
      * now apply Qopp_lt_compat.
      * now apply Qopp_lt_compat.
      * now apply Qopp_lt_compat.
    + rewrite (to_Q_negative mx ex).
      apply Qopp_lt_compat in Px. eapply Qlt_trans; [exact Px|exact Py].
    + rewrite (to_Q_negative my ey).
      apply Qopp_lt_compat in Py. eapply Qlt_trans; [exact Py|exact Px].
    + exact O.
Qed.

Lemma xcompare_compat (a a' b b' : xreal) :
  xeq a a' -> xeq b b' -> xcompare a b = xcompare a' b'.
Proof.
  destruct a, a', b, b'; cbn [xeq xcompare]; intros Ha Hb;
    try contradiction; try reflexivity.
  f_equal. rewrite Ha, Hb. reflexivity.
Qed.

(** A comparison of a promoted [float] with a [double] constant decides
    the order of the values. *)
Lemma compare_threshold (c x : spec_float) (q : Q) :
  full_mantissa c = true -> xeq (value_of c) (XNum q) ->
  IEEE.is_float x = true ->
  SFcompare c (IEEE.double_of_float x) = xcompare (XNum q) (value_of x) /\
  SFcompare (IEEE.double_of_float x) c = xcompare (value_of x) (XNum q).
Proof.
  intros Hc Hq Hx.
  pose proof (full_mantissa_double_of_float x Hx) as Hm.
  pose proof (value_of_double_of_float x Hx) as Hv.
  split; rewrite SFcompare_value by assumption; apply xcompare_compat; assumption.
Qed.

Lemma BLAST_TEMP_MIN_value :
  full_mantissa BLAST_TEMP_MIN = true /\ xeq (value_of BLAST_TEMP_MIN) (XNum 20).
Proof. split; reflexivity. Qed.

Lemma BLAST_TEMP_MAX_value :
  full_mantissa BLAST_TEMP_MAX = true /\ xeq (value_of BLAST_TEMP_MAX) (XNum 28).
Proof. split; reflexivity. Qed.

Lemma BLAST_HUMIDITY_value :
  full_mantissa BLAST_HUMIDITY = true /\ xeq (value_of BLAST_HUMIDITY) (XNum 85).
Proof. split; reflexivity. Qed.

(** The condition of line 199 is the risk predicate on values. *)
Lemma risk_condition_value (t h : IEEE.float) :
  IEEE.is_float t = true -> IEEE.is_float h = true ->
  IEEE.ge (IEEE.double_of_float t) BLAST_TEMP_MIN
  && IEEE.le (IEEE.double_of_float t) BLAST_TEMP_MAX
  && IEEE.gt (IEEE.double_of_float h) BLAST_HUMIDITY
  = blast_risk t h.
Proof.
  intros Ht Hh.
  destruct BLAST_TEMP_MIN_value as [M1 M2].
  destruct BLAST_TEMP_MAX_value as [X1 X2].
  destruct BLAST_HUMIDITY_value as [U1 U2].
  destruct (compare_threshold _ t _ M1 M2 Ht) as [Ea _].
  destruct (compare_threshold _ t _ X1 X2 Ht) as [_ Eb].
  destruct (compare_threshold _ h _ U1 U2 Hh) as [Ec _].
  unfold IEEE.ge, IEEE.le, IEEE.gt, SFleb, SFltb.
  rewrite Ea, Eb, Ec. reflexivity.
Qed.

End IEEE_facts.

(** ** The scheduler *)

Section Scheduler.

Local Open Scope Z_scope.

Variable env : Env.

Ltac run_calcSleepInterval H :=
  unfold calcSleepInterval, bind, call_getLocalTime, gets, ret;
  rewrite H; cbv zeta.

Lemma outside_night_window (hour : Z) :
  5 <= hour < 22 -> (hour >=? 22) || (hour <? 5) = false.
Proof.
  intros H. rewrite Z.geb_leb. apply orb_false_iff.
  split; [apply Z.leb_gt | apply Z.ltb_ge]; lia.
Qed.

Lemma inside_night_window (hour : Z) :
  in_night_window hour -> (hour >=? 22) || (hour <? 5) = true.
Proof.
  rewrite Z.geb_leb.
  intros [H|H]; apply orb_true_iff; [left; apply Z.leb_le | right; apply Z.ltb_lt]; lia.
Qed.

(** The decision taken by [calcSleepInterval] once the hour is known to be
    outside the night window. *)
Lemma calcSleepInterval_day (s : State) (t : tm) :
  getLocalTime env (time_calls s) = Some t ->
  5 <= tm_hour t < 22 ->
  calcSleepInterval env s =
  Returned (if IEEE.ge (IEEE.double_of_float (airTemp s)) BLAST_TEMP_MIN
               && IEEE.le (IEEE.double_of_float (airTemp s)) BLAST_TEMP_MAX
               && IEEE.gt (IEEE.double_of_float (humidity s)) BLAST_HUMIDITY
            then INTERVAL_HIGH_RISK else INTERVAL_NORMAL)
           (set_time_calls (S (time_calls s)) s).
Proof.
  intros Hc Hh. run_calcSleepInterval Hc.
  rewrite (outside_night_window _ Hh).
  destruct s; cbn.
  match goal with |- context [if ?c then _ else _] => destruct c end; reflexivity.
Qed.

End Scheduler.

Section Scheduler_claims.

Local Open Scope Z_scope.

Lemma day_hour_bounds (hour : Z) : day_hour hour -> 5 <= hour < 22.
Proof. unfold day_hour, in_night_window. lia. Qed.

Lemma xle_compat (a a' b b' : xreal) :
  xeq a a' -> xeq b b' -> xle a b = xle a' b'.
Proof. intros Ha Hb. unfold xle. now rewrite (xcompare_compat a a' b b'). Qed.

Lemma xlt_compat (a a' b b' : xreal) :
  xeq a a' -> xeq b b' -> xlt a b = xlt a' b'.
Proof. intros Ha Hb. unfold xlt. now rewrite (xcompare_compat a a' b b'). Qed.

Lemma xeq_refl_num (q : Q) : xeq (XNum q) (XNum q).
Proof. simpl. reflexivity. Qed.

(** C2. At every hour of the night window [22,24) u [0,5) the scheduler
    returns the night interval whatever the air temperature and the
    humidity are, also when they satisfy the risk predicate: the night
    rule is tested first.  Hours 23 and 3 with 24 degrees and 90 percent
    are instances. *)
Theorem night_rule_takes_precedence :
  (forall (env : Env) (s : State) (t : tm),
      getLocalTime env (time_calls s) = Some t ->
      in_night_window (tm_hour t) ->
      calcSleepInterval env s =
      Returned INTERVAL_NIGHT (set_time_calls (S (time_calls s)) s)) /\
  (forall hour : Z,
      hour = 23 \/ hour = 3 ->
      let s := sample_state (IEEE.float_of_int 24) (IEEE.float_of_int 90) in
      blast_risk (airTemp s) (humidity s) = true /\
      calcSleepInterval (sample_env (Some (sample_time hour))) s =
      Returned INTERVAL_NIGHT (set_time_calls (S (time_calls s)) s)).
Proof.
  assert (G : forall (env : Env) (s : State) (t : tm),
             getLocalTime env (time_calls s) = Some t ->
             in_night_window (tm_hour t) ->
             calcSleepInterval env s =
             Returned INTERVAL_NIGHT (set_time_calls (S (time_calls s)) s)).
  { intros env s t Hc Hn.
    unfold calcSleepInterval, bind, call_getLocalTime, gets, ret.
    rewrite Hc. cbv zeta. rewrite (inside_night_window _ Hn). reflexivity. }
  split; [exact G|].
  intros hour Hn s. split; [reflexivity|].
  apply (G _ s (sample_time hour)); [reflexivity|].
  unfold in_night_window. cbn [sample_time tm_hour]. lia.
Qed.

Lemma night_rule_takes_precedence_witness :
  in_night_window (tm_hour (sample_time 23)) /\
  calcSleepInterval (sample_env (Some (sample_time 23)))
                    (sample_state (IEEE.float_of_int 24) (IEEE.float_of_int 90)) =
  Returned INTERVAL_NIGHT
           (set_time_calls 1 (sample_state (IEEE.float_of_int 24) (IEEE.float_of_int 90))).
Proof.
  assert (N : in_night_window (tm_hour (sample_time 23)))
    by (unfold in_night_window; simpl; lia).
  split; [exact N|].
  exact (proj1 night_rule_takes_precedence
               (sample_env (Some (sample_time 23)))
               (sample_state (IEEE.float_of_int 24) (IEEE.float_of_int 90))
               (sample_time 23) eq_refl N).
Defined.

(** C3. At every hour of the day outside the night window the scheduler
    returns the high-risk interval exactly when the air temperature lies in
    the band 20..28 and the humidity exceeds 85, and the normal interval
    otherwise.  At hour 14, 24 degrees with 90 percent gives the high-risk
    interval and 24 degrees with 50 percent the normal one. *)
Theorem risk_rule_outside_night :
  (forall (env : Env) (s : State) (t : tm),
      getLocalTime env (time_calls s) = Some t ->
      day_hour (tm_hour t) ->
      IEEE.is_float (airTemp s) = true ->
      IEEE.is_float (humidity s) = true ->
      calcSleepInterval env s =
      Returned (if blast_risk (airTemp s) (humidity s)
                then INTERVAL_HIGH_RISK else INTERVAL_NORMAL)
               (set_time_calls (S (time_calls s)) s)) /\
  (let s := sample_state (IEEE.float_of_int 24) (IEEE.float_of_int 90) in
   calcSleepInterval (sample_env (Some (sample_time 14))) s =
   Returned INTERVAL_HIGH_RISK (set_time_calls (S (time_calls s)) s)) /\
  (let s := sample_state (IEEE.float_of_int 24) (IEEE.float_of_int 50) in
   calcSleepInterval (sample_env (Some (sample_time 14))) s =
   Returned INTERVAL_NORMAL (set_time_calls (S (time_calls s)) s)).
Proof.
  split; [|split; reflexivity].
  intros env s t Hc Hh Ha Hu.
  rewrite (calcSleepInterval_day env s t Hc (day_hour_bounds _ Hh)).
  rewrite (risk_condition_value _ _ Ha Hu). reflexivity.
Qed.

Lemma risk_rule_outside_night_witness :
  day_hour (tm_hour (sample_time 14)) /\
  calcSleepInterval (sample_env (Some (sample_time 14)))
                    (sample_state (IEEE.float_of_int 24) (IEEE.float_of_int 90)) =
  Returned INTERVAL_HIGH_RISK
           (set_time_calls 1 (sample_state (IEEE.float_of_int 24) (IEEE.float_of_int 90))).
Proof.
  assert (D : day_hour (tm_hour (sample_time 14)))
    by (unfold day_hour, in_night_window; simpl; lia).
  split; [exact D|].
  exact (proj1 risk_rule_outside_night
               (sample_env (Some (sample_time 14)))
               (sample_state (IEEE.float_of_int 24) (IEEE.float_of_int 90))
               (sample_time 14) eq_refl D eq_refl eq_refl).
Defined.

(** C4. A NaN air temperature or a NaN humidity never satisfies the risk
    condition: at every hour of the day outside the night window the
    scheduler then returns the normal interval.  Hour 14 with a NaN
    temperature and 90 percent is an instance. *)
Theorem nan_reading_is_not_risk :
  (forall (env : Env) (s : State) (t : tm),
      getLocalTime env (time_calls s) = Some t ->
      day_hour (tm_hour t) ->
      IEEE.is_nan (airTemp s) = true \/ IEEE.is_nan (humidity s) = true ->
      calcSleepInterval env s =
      Returned INTERVAL_NORMAL (set_time_calls (S (time_calls s)) s)) /\
  (let s := sample_state S754_nan (IEEE.float_of_int 90) in
   calcSleepInterval (sample_env (Some (sample_time 14))) s =
   Returned INTERVAL_NORMAL (set_time_calls (S (time_calls s)) s)).
Proof.
  split; [|reflexivity].
  intros env s t Hc Hh Hn.
  rewrite (calcSleepInterval_day env s t Hc (day_hour_bounds _ Hh)).
  destruct Hn as [Hn|Hn].
  - destruct (airTemp s); try discriminate Hn. reflexivity.
  - destruct (humidity s); try discriminate Hn.
    cbn [IEEE.double_of_float].
    replace (IEEE.gt S754_nan BLAST_HUMIDITY) with false by reflexivity.
    rewrite andb_false_r. reflexivity.
Qed.

Lemma nan_reading_is_not_risk_witness :
  day_hour (tm_hour (sample_time 14)) /\
  calcSleepInterval (sample_env (Some (sample_time 14)))
                    (sample_state S754_nan (IEEE.float_of_int 90)) =
  Returned INTERVAL_NORMAL
           (set_time_calls 1 (sample_state S754_nan (IEEE.float_of_int 90))).
Proof.
  assert (D : day_hour (tm_hour (sample_time 14)))
    by (unfold day_hour, in_night_window; simpl; lia).
  split; [exact D|].
  exact (proj1 nan_reading_is_not_risk
               (sample_env (Some (sample_time 14)))
               (sample_state S754_nan (IEEE.float_of_int 90))
               (sample_time 14) eq_refl D (or_introl eq_refl)).
Defined.

(** C10. The temperature band includes both of its ends and the humidity
    threshold is strict: at every hour of the day outside the night window
    an air temperature of exactly 20 or exactly 28 with a humidity above 85
    selects the high-risk interval, and a humidity of exactly 85 selects the
    normal interval whatever the temperature is. *)
Theorem band_closed_threshold_strict
        (env : Env) (s : State) (t : tm)
        (Hclock : getLocalTime env (time_calls s) = Some t)
        (Hhour : day_hour (tm_hour t))
        (Htemp : IEEE.is_float (airTemp s) = true)
        (Hhum : IEEE.is_float (humidity s) = true) :
  (xeq (value_of (airTemp s)) (XNum 20) \/ xeq (value_of (airTemp s)) (XNum 28) ->
   xlt (XNum 85) (value_of (humidity s)) = true ->
   calcSleepInterval env s =
   Returned INTERVAL_HIGH_RISK (set_time_calls (S (time_calls s)) s)) /\
  (xeq (value_of (humidity s)) (XNum 85) ->
   calcSleepInterval env s =
   Returned INTERVAL_NORMAL (set_time_calls (S (time_calls s)) s)).
Proof.
  rewrite (calcSleepInterval_day env s t Hclock (day_hour_bounds _ Hhour)).
  rewrite (risk_condition_value _ _ Htemp Hhum).
  unfold blast_risk, in_risk_band, exceeds_risk_humidity.
  split.
  - intros [E|E] Hgt; rewrite Hgt.
    + rewrite (xle_compat _ _ _ _ (xeq_refl_num 20) E).
      rewrite (xle_compat _ _ _ _ E (xeq_refl_num 28)). reflexivity.
    + rewrite (xle_compat _ _ _ _ (xeq_refl_num 20) E).
      rewrite (xle_compat _ _ _ _ E (xeq_refl_num 28)). reflexivity.
  - intros E.
    rewrite (xlt_compat _ _ _ _ (xeq_refl_num 85) E).
    replace (xlt (XNum 85) (XNum 85)) with false by reflexivity.
    rewrite andb_false_r. reflexivity.
Qed.

Lemma band_closed_threshold_strict_witness :
  day_hour (tm_hour (sample_time 14)) /\
  calcSleepInterval (sample_env (Some (sample_time 14)))
                    (sample_state (IEEE.float_of_int 28) (IEEE.float_of_int 86)) =
  Returned INTERVAL_HIGH_RISK
           (set_time_calls 1 (sample_state (IEEE.float_of_int 28) (IEEE.float_of_int 86))).
Proof.
  assert (D : day_hour (tm_hour (sample_time 14)))
    by (unfold day_hour, in_night_window; simpl; lia).
  split; [exact D|].
  exact (proj1 (band_closed_threshold_strict
                  (sample_env (Some (sample_time 14)))
                  (sample_state (IEEE.float_of_int 28) (IEEE.float_of_int 86))
                  (sample_time 14) eq_refl D eq_refl eq_refl)
               (or_intror eq_refl) eq_refl).
Defined.

End Scheduler_claims.

(** ** The calibration transform *)

Section Calibration.

Local Open Scope Z_scope.

Lemma adc_counts_complete (z : Z) : 0 <= z <= 4095 -> In z adc_counts.
Proof.
  intros H. unfold adc_counts. apply in_map_iff.
  exists (Z.to_nat z). split; [lia|]. apply in_seq. lia.
Qed.

Lemma calibration_checked : forallb calibration_ok adc_counts = true.
Proof. vm_compute. reflexivity. Qed.

Lemma adcToWaterLevel_is_contract (rawAdc : Z) :
  adcToWaterLevel rawAdc =
  level_ieee rawAdc (IEEE.dlit 33 1) (IEEE.dlit 40950 1) (IEEE.dlit 5 1) (IEEE.dlit 200 1).
Proof.
  unfold adcToWaterLevel, level_ieee, fclamp.
  replace (IEEE.float_of_double (IEEE.dlit 200 1)) with (IEEE.float_of_int 20)
    by (vm_compute; reflexivity).
  match goal with |- context [IEEE.lt ?l (IEEE.float_of_int 0)] =>
    destruct (IEEE.lt l (IEEE.float_of_int 0)) end.
  - reflexivity.
  - reflexivity.
Qed.

(** C6. For every ADC count in 0..4095 the calibration transform returns the
    contract clamp((rawADC * vref / fullScale - v0) * lMax / (vref - v0), 0,
    lMax) at vref = 3.3, fullScale = 4095, v0 = 0.5, lMax = 20, evaluated in
    the arithmetic of the target; the result is a finite [float] (never a
    NaN or an infinity), lies in 0..20, is within 2e-6 of the contract
    evaluated without rounding, and the clamp is reached at both ends: counts
    up to 620 give 0 and count 4095 gives 20. *)
Theorem adcToWaterLevel_clamped (rawAdc : Z) (Hrange : 0 <= rawAdc <= 4095) :
  let r := adcToWaterLevel rawAdc in
  r = level_ieee rawAdc (IEEE.dlit 33 1) (IEEE.dlit 40950 1) (IEEE.dlit 5 1)
                 (IEEE.dlit 200 1) /\
  IEEE.is_float r = true /\
  IEEE.is_finite r = true /\
  (0 <= IEEE.to_Q r)%Q /\ (IEEE.to_Q r <= 20)%Q /\
  (Qabs (IEEE.to_Q r - level_exact rawAdc (33 # 10) 4095 (1 # 2) 20) <= 1 # 500000)%Q /\
  (rawAdc <= 620 -> r = S754_zero false) /\
  (rawAdc = 4095 -> r = IEEE.float_of_int 20).
Proof.
  intros r.
  pose proof calibration_checked as C.
  rewrite forallb_forall in C.
  specialize (C rawAdc (adc_counts_complete rawAdc Hrange)).
  unfold calibration_ok in C. fold r in C.
  repeat (apply andb_true_iff in C; destruct C as [C ?]).
  split; [apply adcToWaterLevel_is_contract|].
  split; [assumption|]. split; [assumption|].
  split; [now apply Qle_bool_iff|]. split; [now apply Qle_bool_iff|].
  split; [now apply Qle_bool_iff|].
  split.
  - intros Hlow.
    assert (L : forallb (fun z => match adcToWaterLevel z with
                                  | S754_zero false => true
                                  | _ => false
                                  end) (map Z.of_nat (seq 0 621)) = true)
      by (vm_compute; reflexivity).
    rewrite forallb_forall in L.
    assert (I : In rawAdc (map Z.of_nat (seq 0 621))).
    { apply in_map_iff. exists (Z.to_nat rawAdc). split; [lia|]. apply in_seq. lia. }
    specialize (L rawAdc I). fold r in L.
    destruct r as [[|]| | |]; try discriminate L. reflexivity.
  - intros ->. vm_compute. reflexivity.
Qed.

Lemma adcToWaterLevel_clamped_witness :
  0 <= 1000 <= 4095 /\
  IEEE.is_finite (adcToWaterLevel 1000) = true /\
  (IEEE.to_Q (adcToWaterLevel 1000) <= 20)%Q.
Proof.
  assert (H : 0 <= 1000 <= 4095) by lia.
  split; [exact H|].
  pose proof (adcToWaterLevel_clamped 1000 H) as W.
  split; [exact (proj1 (proj2 (proj2 W))) | exact (proj1 (proj2 (proj2 (proj2 (proj2 W)))))].
Defined.

End Calibration.

(** ** Texts, separators and lines *)

Section Text.

Lemma append_assoc (a b c : string) : (a ++ b) ++ c = a ++ (b ++ c).
Proof. induction a as [|x a IH]; cbn; [reflexivity|now rewrite IH]. Qed.

Lemma append_nil_r (a : string) : a ++ "" = a.
Proof. induction a as [|x a IH]; cbn; [reflexivity|now rewrite IH]. Qed.

Lemma forall_chars_app (p : ascii -> bool) (a b : string) :
  forall_chars p (a ++ b) = forall_chars p a && forall_chars p b.
Proof.
  induction a as [|x a IH]; cbn; [reflexivity|].
  rewrite IH. apply andb_assoc.
Qed.

Lemma forall_chars_weaken (p q : ascii -> bool) (s : string) :
  (forall c, p c = true -> q c = true) ->
  forall_chars p s = true -> forall_chars q s = true.
Proof.
  intros Hpq. induction s as [|x s IH]; cbn; [reflexivity|].
  intros H. apply andb_true_iff in H. destruct H as [Hx Hs].
  apply andb_true_iff. split; [apply Hpq, Hx|apply IH, Hs].
Qed.

Lemma split_on_free (sep : ascii) (s : string) :
  free_of sep s = true -> split_on sep s = [s].
Proof.
  unfold free_of. induction s as [|x s IH]; cbn; [reflexivity|].
  intros H. apply andb_true_iff in H. destruct H as [Hx Hs].
  apply negb_true_iff in Hx. rewrite Hx, (IH Hs). reflexivity.
Qed.

Lemma split_on_cons (sep : ascii) (a b : string) :
  free_of sep a = true ->
  split_on sep (a ++ String sep b) = a :: split_on sep b.
Proof.
  unfold free_of. induction a as [|x a IH]; cbn.
  - intros _. rewrite Ascii.eqb_refl. reflexivity.
  - intros H. apply andb_true_iff in H. destruct H as [Hx Hs].
    apply negb_true_iff in Hx. rewrite Hx, (IH Hs). reflexivity.
Qed.

Lemma chomp_CR_free (s : string) :
  free_of (ascii_of_nat 13) s = true -> chomp_CR s = s.
Proof.
  unfold free_of. induction s as [|x s IH]; [reflexivity|].
  intros H. cbn [forall_chars] in H. apply andb_true_iff in H. destruct H as [Hx Hs].
  apply negb_true_iff in Hx.
  cbn [chomp_CR]. destruct s as [|y s].
  - rewrite Hx. reflexivity.
  - rewrite (IH Hs). reflexivity.
Qed.

Lemma split_join_lines (lines : list string) :
  Forall (fun l => free_of (ascii_of_nat 10) l = true) lines ->
  split_on (ascii_of_nat 10) (join_lines lines) = (lines ++ [""])%list.
Proof.
  induction 1 as [|l rest Hl _ IH]; [reflexivity|].
  cbn [join_lines]. change (Fmt.LF ++ join_lines rest)
    with (String (ascii_of_nat 10) (join_lines rest)).
  rewrite (split_on_cons _ _ _ Hl), IH. reflexivity.
Qed.

Lemma text_lines_join (lines : list string) :
  Forall (fun l => free_of (ascii_of_nat 10) l = true) lines ->
  text_lines (join_lines lines) = map chomp_CR lines.
Proof.
  intros H. unfold text_lines. rewrite (split_join_lines _ H), removelast_last.
  reflexivity.
Qed.

(** *** Characters of the formatted fields *)

Lemma is_field_char_separates (sep : ascii) :
  is_field_char sep = false ->
  forall c, is_field_char c = true -> negb (Ascii.eqb c sep) = true.
Proof.
  intros Hsep c Hc. apply negb_true_iff.
  destruct (Ascii.eqb_spec c sep) as [->|]; [congruence|reflexivity].
Qed.

Lemma field_chars_free (sep : ascii) (s : string) :
  is_field_char sep = false ->
  forall_chars is_field_char s = true -> free_of sep s = true.
Proof.
  intros Hsep. apply forall_chars_weaken, is_field_char_separates, Hsep.
Qed.

Lemma digit_is_field_char (c : ascii) : is_digit c = true -> is_field_char c = true.
Proof. intros H. unfold is_field_char. rewrite H. reflexivity. Qed.

Lemma uint_digits (d : Decimal.uint) :
  forall_chars is_digit (NilEmpty.string_of_uint d) = true.
Proof. induction d; cbn; try reflexivity; exact IHd. Qed.

Lemma dec_digits (n : N) : forall_chars is_digit (Fmt.dec n) = true.
Proof. apply uint_digits. Qed.

Lemma dec_nonempty (n : N) : exists c rest, Fmt.dec n = String c rest.
Proof.
  unfold Fmt.dec. destruct n as [|p]; [now exists "0"%char, ""|].
  cbn [N.to_uint]. pose proof (DecimalPos.Unsigned.to_uint_nonnil p) as H.
  destruct (Pos.to_uint p); [congruence| | | | | | | | | |]; cbn; eauto.
Qed.

Lemma zeros_digits (k : nat) : forall_chars is_digit (Fmt.zeros k) = true.
Proof. induction k as [|k IH]; [reflexivity|exact IH]. Qed.

Lemma dec_field_chars (n : N) : forall_chars is_field_char (Fmt.dec n) = true.
Proof. exact (forall_chars_weaken _ _ _ digit_is_field_char (dec_digits n)). Qed.

Lemma zeros_field_chars (k : nat) : forall_chars is_field_char (Fmt.zeros k) = true.
Proof. exact (forall_chars_weaken _ _ _ digit_is_field_char (zeros_digits k)). Qed.

Lemma d_field_chars (z : Z) : forall_chars is_field_char (Fmt.d z) = true.
Proof.
  unfold Fmt.d. destruct (z <? 0)%Z; rewrite ?forall_chars_app, dec_field_chars; reflexivity.
Qed.

Lemma d0_field_chars (w : nat) (z : Z) : forall_chars is_field_char (Fmt.d0 w z) = true.
Proof.
  unfold Fmt.d0. destruct (z <? 0)%Z;
    rewrite ?forall_chars_app, zeros_field_chars, dec_field_chars; reflexivity.
Qed.

Lemma iso8601_field_chars (t : tm) : forall_chars is_field_char (iso8601 t) = true.
Proof.
  unfold iso8601.
  rewrite !forall_chars_app, d_field_chars, !d0_field_chars. reflexivity.
Qed.

Lemma f1_field_chars (x : spec_float) : forall_chars is_field_char (Fmt.f1 x) = true.
Proof.
  destruct x as [[|]|[|]| |s m e]; try reflexivity.
  unfold Fmt.f1. rewrite !forall_chars_app, !dec_field_chars.
  destruct s; reflexivity.
Qed.

Lemma length_append (a b : string) :
  String.length (a ++ b) = (String.length a + String.length b)%nat.
Proof. induction a as [|x a IH]; cbn; [reflexivity|now rewrite IH]. Qed.

Lemma d_four_digits (z : Z) :
  (1000 <= z <= 9999)%Z -> String.length (Fmt.d z) = 4%nat.
Proof.
  intros H.
  assert (C : forallb (fun n => (String.length (Fmt.d (Z.of_nat n)) =? 4)%nat)
                      (seq (Z.to_nat 1000) (Z.to_nat 9000)) = true)
    by (vm_compute; reflexivity).
  rewrite forallb_forall in C.
  specialize (C (Z.to_nat z)). rewrite Z2Nat.id in C by lia.
  apply Nat.eqb_eq, C, in_seq. lia.
Qed.

Lemma d0_two_digits (z : Z) :
  (0 <= z <= 99)%Z -> String.length (Fmt.d0 2 z) = 2%nat.
Proof.
  intros H.
  assert (C : forallb (fun n => (String.length (Fmt.d0 2 (Z.of_nat n)) =? 2)%nat)
                      (seq 0 100) = true) by (vm_compute; reflexivity).
  rewrite forallb_forall in C.
  specialize (C (Z.to_nat z)). rewrite Z2Nat.id in C by lia.
  apply Nat.eqb_eq, C, in_seq. lia.
Qed.

Lemma wrap32_small (z : Z) : (- 2 ^ 31 <= z < 2 ^ 31)%Z -> wrap32 z = z.
Proof. intros H. unfold wrap32. rewrite Z.mod_small; lia. Qed.

(** A calendar time takes 25 characters. *)
Lemma iso8601_length (t : tm) : tm_plausible t -> String.length (iso8601 t) = 25%nat.
Proof.
  intros (Hy & Hm & Hd & Hh & Hmi & Hs). unfold iso8601.
  rewrite !wrap32_small by lia.
  rewrite !length_append, d_four_digits, !d0_two_digits by lia. reflexivity.
Qed.

Lemma clock_plausible_fits (env : Env) : clock_plausible env -> clock_fits env.
Proof.
  intros H k t E. rewrite (iso8601_length t (H k t E)). repeat constructor.
Qed.

Lemma timestamp_text_field_chars (env : Env) (k : nat) :
  clock_fits env ->
  forall_chars is_field_char (timestamp_text env (getLocalTime env k)) = true.
Proof.
  intros Hfit. unfold timestamp_text, strftime.
  destruct (getLocalTime env k) as [t|] eqn:E; [|reflexivity].
  specialize (Hfit k t E). apply Nat.ltb_lt in Hfit. rewrite Hfit.
  apply iso8601_field_chars.
Qed.

End Text.

(** ** Running the parts of the sketch *)

Section Runs.

Variable env : Env.

Lemma Serial_print_run (t : string) (s : State) :
  Serial_print t s = Returned tt (set_serial (serial s ++ t) s).
Proof. reflexivity. Qed.

Lemma Serial_println_run (t : string) (s : State) :
  Serial_println t s =
  Returned tt (set_serial (serial s ++ t ++ Fmt.CR ++ Fmt.LF) s).
Proof. reflexivity. Qed.

Lemma bind_run {A B : Type} (c : M A) (k : A -> M B) (s s' : State) (a : A) :
  c s = Returned a s' -> bind c k s = k a s'.
Proof. intros H. unfold bind. rewrite H. reflexivity. Qed.

Lemma goToSleep_run (seconds : Z) (s : State) :
  goToSleep seconds s =
  Asleep (set_serial (serial s ++ "Entering deep sleep..." ++ Fmt.CR ++ Fmt.LF)
            (set_wake_timer (Some (to_uint64 (to_uint64 seconds * 1000000))) s)).
Proof. reflexivity. Qed.

Lemma syncTime_wait_run (n : nat) (s : State) :
  exists s', syncTime_wait env n s = Returned tt s' /\
             data_csv s' = data_csv s /\ time_calls s' = time_calls s.
Proof.
  revert s. induction n as [|n IH]; intros s; cbn [syncTime_wait];
    unfold bind, WiFi_status_is_connected, ret;
    destruct (WiFi_connected env (wifi_polls s)).
  - eexists; split; [reflexivity|]. split; reflexivity.
  - eexists; split; [reflexivity|]. split; reflexivity.
  - eexists; split; [reflexivity|]. split; reflexivity.
  - destruct (IH (set_wifi_polls (S (wifi_polls s)) s)) as (s' & E & C & T).
    exists s'. split; [exact E|]. split; [exact C|exact T].
Qed.

Lemma syncTime_run (s : State) :
  exists s', syncTime env s = Returned tt s' /\ data_csv s' = data_csv s.
Proof.
  unfold syncTime.
  destruct (syncTime_wait_run 20 s) as (s1 & E1 & C1 & _).
  rewrite (bind_run _ _ _ _ _ E1).
  unfold bind, WiFi_status_is_connected, call_getLocalTime, ret.
  destruct (WiFi_connected env (wifi_polls s1)).
  - destruct (getLocalTime env _) as [t|].
    + rewrite Serial_print_run. eexists; split; [reflexivity|exact C1].
    + eexists; split; [reflexivity|exact C1].
  - rewrite Serial_println_run. eexists; split; [reflexivity|exact C1].
Qed.

Lemma ensureHeader_run (s : State) :
  exists s', ensureHeader env s = Returned tt s' /\
             data_csv s' = header_ensured env (data_csv s) /\
             time_calls s' = time_calls s.
Proof.
  unfold ensureHeader, header_ensured, bind, SD_exists_data_csv, gets,
    SD_open_FILE_WRITE, File_println, File_print, modify, ret, bind.
  destruct (data_csv s) as [c|] eqn:E; cbn [negb].
  - eexists; split; [reflexivity|]. split; [exact E|reflexivity].
  - destruct (SD_open_write env).
    + eexists; split; [reflexivity|]. split; reflexivity.
    + eexists; split; [reflexivity|]. split; [exact E|reflexivity].
Qed.

Lemma readSensors_run (s : State) :
  exists s', readSensors env s = Returned tt s' /\
             data_csv s' = data_csv s /\ time_calls s' = time_calls s /\
             airTemp s' = bme_readTemperature env /\
             humidity s' = bme_readHumidity env /\
             pressure s' = IEEE.float_of_double
                             (IEEE.ddiv (IEEE.double_of_float (bme_readPressure env))
                                        (IEEE.dlit 1000 1)) /\
             waterTemp s' = (if IEEE.eq (ds18b20_getTempCByIndex env)
                                        (IEEE.float_of_int (DEVICE_DISCONNECTED_C env))
                             then IEEE.float_of_int (-999)
                             else ds18b20_getTempCByIndex env) /\
             waterLevel s' = adcToWaterLevel (analogRead env).
Proof.
  unfold readSensors, bind, modify, gets, ret, Serial_print.
  cbn [waterTemp set_waterTemp].
  destruct (IEEE.eq (ds18b20_getTempCByIndex env)
                    (IEEE.float_of_int (DEVICE_DISCONNECTED_C env)));
    (eexists; split; [reflexivity|]; repeat split; reflexivity).
Qed.

Lemma same_reading_measurement (s s' : State) :
  readSensors env s = Returned tt s' -> same_reading (measurement env) s'.
Proof.
  intros E.
  destruct (readSensors_run s) as (s1 & E1 & _ & _ & A & B & C & D & F).
  rewrite E in E1. injection E1 as <-.
  unfold measurement.
  destruct (readSensors_run (boot None)) as (s2 & E2 & _ & _ & A2 & B2 & C2 & D2 & F2).
  rewrite E2. cbn [final_state]. unfold same_reading.
  rewrite A, B, C, D, F, A2, B2, C2, D2, F2. repeat split; reflexivity.
Qed.

Lemma csv_record_same_reading (ts : string) (s s' : State) :
  same_reading s s' -> csv_record ts s' = csv_record ts s.
Proof.
  intros (A & B & C & D & F). unfold csv_record. rewrite A, B, C, D, F. reflexivity.
Qed.

Lemma getTimestamp_run (s : State) :
  getTimestamp env s =
  Returned (timestamp_text env (getLocalTime env (time_calls s)))
           (set_time_calls (S (time_calls s)) s).
Proof.
  unfold getTimestamp, bind, call_getLocalTime, timestamp_text, ret.
  destruct (getLocalTime env (time_calls s)) as [t|]; [|reflexivity].
  destruct (strftime 30 t); reflexivity.
Qed.

Lemma writeCSV_run (s : State) :
  exists s', writeCSV env s = Returned tt s' /\
             data_csv s' =
             (if SD_open_append env
              then Some (match data_csv s with Some c => c | None => "" end
                         ++ csv_line (timestamp_text env (getLocalTime env (time_calls s))) s)
              else data_csv s) /\
             time_calls s' = S (time_calls s) /\
             same_reading s s'.
Proof.
  unfold writeCSV.
  rewrite (bind_run _ _ _ _ _ (getTimestamp_run s)).
  unfold bind, SD_open_FILE_APPEND, modify, gets, ret, File_print, Serial_println,
    Serial_print, same_reading.
  destruct (SD_open_append env); cbn [negb].
  - destruct s as [a h p wt wl [c|] se wk tc wp]; cbn;
      (eexists; split; [reflexivity|]; repeat split; reflexivity).
  - eexists; split; [reflexivity|]. repeat split; reflexivity.
Qed.

Lemma calcSleepInterval_run (s : State) :
  exists v, calcSleepInterval env s = Returned v (set_time_calls (S (time_calls s)) s) /\
            (v = INTERVAL_NIGHT \/ v = INTERVAL_HIGH_RISK \/ v = INTERVAL_NORMAL).
Proof.
  unfold calcSleepInterval, bind, call_getLocalTime, gets, ret. cbv zeta.
  match goal with |- context [if ?c then _ else _] => destruct c end.
  - eexists; split; [reflexivity|]. left; reflexivity.
  - match goal with |- context [if ?c then _ else _] => destruct c end.
    + eexists; split; [reflexivity|]. right; left; reflexivity.
    + eexists; split; [reflexivity|]. right; right; reflexivity.
Qed.

End Runs.

(** ** One whole cycle *)

Section Cycle.

Local Open Scope Z_scope.

Variable env : Env.

Lemma wake_timer_of_interval (v : Z) :
  v = INTERVAL_NIGHT \/ v = INTERVAL_HIGH_RISK \/ v = INTERVAL_NORMAL ->
  to_uint64 (to_uint64 v * 1000000) = v * 1000000 /\ 0 < v.
Proof. intros [H | [H | H]]; subst v; split; reflexivity. Qed.

(** [setup] always ends in deep sleep; the final state is described by the
    parts it ran. *)
Lemma setup_run (s : State) :
  exists (s' : State) (v : Z),
    setup env s = Asleep s' /\
    wake_timer s' = Some (v * 1000000) /\
    (v = INTERVAL_NIGHT \/ v = INTERVAL_HIGH_RISK \/ v = INTERVAL_NORMAL) /\
    (SD_begin env = false -> v = INTERVAL_NORMAL /\ data_csv s' = data_csv s) /\
    (SD_begin env = true ->
     exists (k : nat) (s5 : State),
       data_csv s' = record_appended env k (header_ensured env (data_csv s)) /\
       same_reading (measurement env) s' /\
       calcSleepInterval env s5 = Returned v (set_time_calls (S (time_calls s5)) s5)).
Proof.
  unfold setup.
  rewrite (bind_run _ _ _ _ _ (Serial_println_run _ s)).
  set (s0 := set_serial _ s).
  assert (B : exists s1, (if negb (bme_begin env)
                          then Serial_println "ERROR: BME280 not found!"
                          else ret tt) s0 = Returned tt s1 /\ data_csv s1 = data_csv s).
  { destruct (bme_begin env); cbn [negb]; eexists; split; reflexivity. }
  destruct B as (s1 & E1 & C1).
  rewrite (bind_run _ _ _ _ _ E1).
  destruct (SD_begin env); cbn [negb].
  - (* the card is there *)
    assert (W : exists s2, (if WIFI_SSID_defined env then syncTime env else ret tt) s1
                           = Returned tt s2 /\ data_csv s2 = data_csv s).
    { destruct (WIFI_SSID_defined env).
      - destruct (syncTime_run env s1) as (s2 & E2 & C2).
        exists s2. split; [exact E2|congruence].
      - exists s1. split; [reflexivity|exact C1]. }
    destruct W as (s2 & E2 & C2).
    rewrite (bind_run _ _ _ _ _ E2).
    destruct (ensureHeader_run env s2) as (s3 & E3 & C3 & T3).
    rewrite (bind_run _ _ _ _ _ E3).
    destruct (readSensors_run env s3) as (s4 & E4 & C4 & T4 & _).
    pose proof (same_reading_measurement env s3 s4 E4) as R4.
    rewrite (bind_run _ _ _ _ _ E4).
    destruct (writeCSV_run env s4) as (s5 & E5 & C5 & T5 & R5).
    rewrite (bind_run _ _ _ _ _ E5).
    destruct (calcSleepInterval_run env s5) as (v & E6 & Hv).
    rewrite (bind_run _ _ _ _ _ E6).
    rewrite (bind_run _ _ _ _ _ (Serial_print_run _ _)).
    rewrite goToSleep_run.
    destruct (wake_timer_of_interval v Hv) as [Hw Hpos].
    eexists; exists v. split; [reflexivity|].
    split; [cbn; rewrite Hw; reflexivity|].
    split; [exact Hv|].
    split; [discriminate|].
    intros _. exists (time_calls s4), s5. cbn.
    split; [|split; [|exact E6]].
    + rewrite C5, C4, C3, C2. unfold record_appended.
      destruct (SD_open_append env); [|reflexivity].
      unfold csv_line. rewrite (csv_record_same_reading _ _ _ R4). reflexivity.
    + destruct R4 as (a1 & a2 & a3 & a4 & a5).
      destruct R5 as (b1 & b2 & b3 & b4 & b5).
      unfold same_reading. cbn. repeat split; congruence.
  - (* SD card init failed *)
    rewrite (bind_run _ _ _ _ _ (Serial_println_run _ s1)).
    unfold bind. rewrite goToSleep_run.
    eexists; exists INTERVAL_NORMAL. split; [reflexivity|].
    split; [reflexivity|].
    split; [right; right; reflexivity|].
    split; [|discriminate].
    intros _. split; [reflexivity|exact C1].
Qed.

End Cycle.

(** ** Conversions from [int] are never NaN *)

Section Not_NaN.

Local Open Scope Z_scope.

Lemma shr_1_nonneg (mrs : shr_record) : 0 <= shr_m mrs -> 0 <= shr_m (shr_1 mrs).
Proof.
  destruct mrs as [m r s]. cbn [shr_m].
  destruct m as [|p|p]; [| |lia]; intros _.
  - reflexivity.
  - destruct p; cbn; lia.
Qed.

Lemma iter_shr_1_nonneg (p : positive) (mrs : shr_record) :
  0 <= shr_m mrs -> 0 <= shr_m (iter_pos shr_1 p mrs).
Proof.
  revert mrs. induction p as [p IH|p IH|]; intros mrs H; cbn [iter_pos].
  - apply IH, IH, shr_1_nonneg, H.
  - apply IH, IH, H.
  - apply shr_1_nonneg, H.
Qed.

Lemma shr_fexp_nonneg (prec emax m e : Z) (l : location) :
  0 <= m -> 0 <= shr_m (fst (shr_fexp prec emax m e l)).
Proof.
  intros H. unfold shr_fexp, shr.
  assert (H0 : 0 <= shr_m (shr_record_of_loc m l)).
  { destruct l as [|[| |]]; exact H. }
  destruct (fexp prec emax (Zdigits2 m + e) - e) as [|p|p]; cbn [fst]; try exact H0.
  apply iter_shr_1_nonneg, H0.
Qed.

Lemma round_nearest_even_nonneg (m : Z) (l : location) :
  0 <= m -> 0 <= round_nearest_even m l.
Proof.
  intros H. unfold round_nearest_even.
  destruct l as [|[| |]]; try lia. destruct (Z.even m); lia.
Qed.

Lemma binary_round_aux_not_nan (prec emax : Z) (s : bool) (m e : Z) (l : location) :
  0 <= m -> IEEE.is_nan (binary_round_aux prec emax s m e l) = false.
Proof.
  intros H. unfold binary_round_aux.
  pose proof (shr_fexp_nonneg prec emax m e l H) as H1.
  destruct (shr_fexp prec emax m e l) as [mrs' e']. cbn [fst] in H1.
  pose proof (shr_fexp_nonneg prec emax _ e' loc_Exact
                (round_nearest_even_nonneg _ (loc_of_shr_record mrs') H1)) as H2.
  destruct (shr_fexp prec emax _ e' loc_Exact) as [mrs'' e'']. cbn [fst] in H2.
  destruct (shr_m mrs'') as [|p|p]; [reflexivity| |lia].
  destruct (e'' <=? emax - prec); reflexivity.
Qed.

Lemma float_of_int_not_nan (n : Z) : IEEE.is_nan (IEEE.float_of_int n) = false.
Proof.
  unfold IEEE.float_of_int, binary_normalize.
  destruct n as [|p|p]; [reflexivity| |]; unfold binary_round;
    destruct (shl_align _ _ _) as [mz ez]; apply binary_round_aux_not_nan; lia.
Qed.

(** A value that is not a NaN equals itself. *)
Lemma eq_self (x : spec_float) : IEEE.is_nan x = false -> IEEE.eq x x = true.
Proof.
  unfold IEEE.eq, SFeqb.
  destruct x as [s|s| |s m e]; try discriminate; intros _; cbn [SFcompare].
  - reflexivity.
  - destruct s; reflexivity.
  - rewrite Z.compare_refl. fold (Pos.compare m m). rewrite Pos.compare_refl.
    destruct s; reflexivity.
Qed.

End Not_NaN.

(** ** Claims about the cycle *)

Section Cycle_claims.

Local Open Scope Z_scope.

(** C1. Every path through one cycle ends in [goToSleep]: [setup] never
    returns, the wake timer is armed with a strictly positive number of
    seconds (one of the three configured intervals, in microseconds), also
    when the record cannot be appended, and when the SD card cannot be
    initialised the interval is the default [INTERVAL_NORMAL]. *)
Theorem every_path_arms_the_wake_timer (env : Env) (s : State) :
  exists (s' : State) (seconds : Z),
    setup env s = Asleep s' /\
    0 < seconds /\
    wake_timer s' = Some (seconds * 1000000) /\
    (seconds = INTERVAL_NIGHT \/ seconds = INTERVAL_HIGH_RISK \/ seconds = INTERVAL_NORMAL) /\
    (SD_begin env = false -> seconds = INTERVAL_NORMAL).
Proof.
  destruct (setup_run env s) as (s' & v & E & W & Hv & Hsd & _).
  exists s', v. split; [exact E|].
  split; [apply (wake_timer_of_interval v Hv)|].
  split; [exact W|]. split; [exact Hv|].
  intros F. apply (Hsd F).
Qed.

Lemma no_clock_no_night (env : Env) (s s' : State) (v : Z) :
  getLocalTime env (time_calls s) = None ->
  calcSleepInterval env s = Returned v s' -> v <> INTERVAL_NIGHT.
Proof.
  intros Hclock.
  unfold calcSleepInterval, bind, call_getLocalTime, gets, ret.
  rewrite Hclock. cbv zeta.
  change ((12 >=? 22) || (12 <? 5)) with false. cbv iota beta.
  match goal with |- context [if ?c then _ else _] => destruct c end;
    intros E; injection E as <- _; discriminate.
Qed.

(** C7. When [getLocalTime] fails, the record carries the fixed fallback
    timestamp and the scheduler works with hour 12, which is outside the
    night window: it decides as it does at noon and never returns the night
    interval.  A whole cycle without a clock never sleeps for the night
    interval. *)
Theorem clock_unavailable_is_safe (env : Env) (s : State)
        (Hclock : getLocalTime env (time_calls s) = None) :
  getTimestamp env s =
    Returned FALLBACK_TIMESTAMP (set_time_calls (S (time_calls s)) s) /\
  (SD_open_append env = true ->
   data_csv (final_state (writeCSV env s)) =
   Some (match data_csv s with Some c => c | None => "" end
         ++ csv_line FALLBACK_TIMESTAMP s)) /\
  ~ in_night_window 12 /\
  (forall (env' : Env) (t : tm),
      getLocalTime env' (time_calls s) = Some t -> tm_hour t = 12 ->
      calcSleepInterval env s = calcSleepInterval env' s) /\
  (exists v, calcSleepInterval env s = Returned v (set_time_calls (S (time_calls s)) s) /\
             v <> INTERVAL_NIGHT) /\
  ((forall k, getLocalTime env k = None) ->
   forall s0,
     wake_timer (final_state (setup env s0)) <> Some (INTERVAL_NIGHT * 1000000)).
Proof.
  split; [|split; [|split; [|split; [|split]]]].
  - rewrite getTimestamp_run, Hclock. reflexivity.
  - intros Ha.
    destruct (writeCSV_run env s) as (s' & E & C & _).
    rewrite E. cbn [final_state]. rewrite C, Ha, Hclock. reflexivity.
  - unfold in_night_window. lia.
  - intros env' t Ht H12.
    unfold calcSleepInterval, bind, call_getLocalTime, gets, ret.
    rewrite Hclock, Ht, H12. reflexivity.
  - destruct (calcSleepInterval_run env s) as (v & E & _).
    exists v. split; [exact E|]. exact (no_clock_no_night env s _ v Hclock E).
  - intros Hnever s0.
    destruct (setup_run env s0) as (s' & v & E & W & _ & Hfail & Hok).
    rewrite E. cbn [final_state]. rewrite W.
    intros Heq. injection Heq as Heq.
    assert (Hv : v = INTERVAL_NIGHT) by (unfold INTERVAL_NIGHT in *; lia).
    destruct (SD_begin env) eqn:Hsd.
    + destruct (Hok eq_refl) as (k & s5 & _ & _ & E5).
      exact (no_clock_no_night env s5 _ v (Hnever _) E5 Hv).
    + destruct (Hfail eq_refl) as [Hn _]. rewrite Hn in Hv. discriminate Hv.
Qed.

Lemma clock_unavailable_is_safe_witness :
  getLocalTime (sample_env None) (time_calls (boot None)) = None /\
  getTimestamp (sample_env None) (boot None) =
    Returned FALLBACK_TIMESTAMP (set_time_calls 1 (boot None)).
Proof.
  split; [reflexivity|].
  apply (clock_unavailable_is_safe (sample_env None) (boot None)). reflexivity.
Defined.

(** C8. When the water-temperature driver reports its disconnected value,
    [readSensors] stores the sentinel -999 in [waterTemp] instead, and the
    cycle goes on to the persistence step: with a working card the record it
    appends has -999.0 as its water-temperature field. *)
Theorem disconnected_probe_gives_sentinel (env : Env) (s : State)
        (Hprobe : ds18b20_getTempCByIndex env =
                  IEEE.float_of_int (DEVICE_DISCONNECTED_C env)) :
  (exists s', readSensors env s = Returned tt s' /\
              waterTemp s' = IEEE.float_of_int (-999)) /\
  (SD_begin env = true -> SD_open_append env = true ->
   exists (s' : State) (before timestamp air hum press level : string),
     setup env s = Asleep s' /\
     waterTemp s' = IEEE.float_of_int (-999) /\
     data_csv s' =
     Some (before ++ timestamp ++ "," ++ air ++ "," ++ hum ++ "," ++ press
           ++ "," ++ "-999.0" ++ "," ++ level ++ Fmt.LF)).
Proof.
  assert (R : forall s0, exists s', readSensors env s0 = Returned tt s' /\
                                    waterTemp s' = IEEE.float_of_int (-999)).
  { intros s0.
    destruct (readSensors_run env s0) as (s' & E & _ & _ & _ & _ & _ & Wt & _).
    exists s'. split; [exact E|].
    rewrite Wt, Hprobe, (eq_self _ (float_of_int_not_nan _)). reflexivity. }
  split; [apply R|].
  intros Hsd Ha.
  destruct (setup_run env s) as (s' & v & E & _ & _ & _ & Hok).
  destruct (Hok Hsd) as (k & s5 & C & Rd & _).
  assert (Wm : waterTemp (measurement env) = IEEE.float_of_int (-999)).
  { unfold measurement. destruct (R (boot None)) as (s1 & E1 & W1).
    rewrite E1. exact W1. }
  exists s'.
  exists (match header_ensured env (data_csv s) with Some c => c | None => "" end).
  exists (timestamp_text env (getLocalTime env k)).
  exists (Fmt.f1 (IEEE.double_of_float (airTemp (measurement env)))).
  exists (Fmt.f1 (IEEE.double_of_float (humidity (measurement env)))).
  exists (Fmt.f1 (IEEE.double_of_float (pressure (measurement env)))).
  exists (Fmt.f1 (IEEE.double_of_float (waterLevel (measurement env)))).
  split; [exact E|]. split.
  - destruct Rd as (_ & _ & _ & Rw & _). rewrite Rw. exact Wm.
  - rewrite C. unfold record_appended. rewrite Ha.
    unfold csv_line, csv_record. rewrite Wm.
    change (Fmt.f1 (IEEE.double_of_float (IEEE.float_of_int (-999)))) with "-999.0".
    rewrite !append_assoc. reflexivity.
Qed.

Lemma disconnected_probe_gives_sentinel_witness :
  ds18b20_getTempCByIndex unplugged_env =
  IEEE.float_of_int (DEVICE_DISCONNECTED_C unplugged_env) /\
  exists s', readSensors unplugged_env (boot None) = Returned tt s' /\
             waterTemp s' = IEEE.float_of_int (-999).
Proof.
  split; [reflexivity|].
  apply (disconnected_probe_gives_sentinel unplugged_env (boot None)).
  reflexivity.
Defined.

End Cycle_claims.


(** ** The file over successive cycles *)

Section Persistence.

Lemma record_of_free (env : Env) (r : string) (sep : ascii) :
  clock_fits env -> is_field_char sep = false -> Ascii.eqb sep "," = false ->
  record_of env r -> free_of sep r = true.
Proof.
  intros Hfit Hsep Hcomma [k ->].
  unfold csv_record, free_of.
  rewrite !forall_chars_app.
  fold (free_of sep (timestamp_text env (getLocalTime env k))).
  rewrite (field_chars_free sep _ Hsep (timestamp_text_field_chars env k Hfit)).
  repeat match goal with
         | |- context [forall_chars _ (Fmt.f1 ?x)] =>
             change (forall_chars (fun c => negb (Ascii.eqb c sep)) (Fmt.f1 x))
               with (free_of sep (Fmt.f1 x));
             rewrite (field_chars_free sep _ Hsep (f1_field_chars x))
         end.
  cbn [forall_chars]. rewrite (Ascii.eqb_sym _ sep), Hcomma. reflexivity.
Qed.

Lemma record_of_not_header (env : Env) (r : string) :
  clock_fits env -> record_of env r -> r <> CSV_HEADER.
Proof.
  intros Hfit [k ->] E.
  pose proof (timestamp_text_field_chars env k Hfit) as Hts.
  unfold csv_record in E.
  destruct (timestamp_text env (getLocalTime env k)) as [|c ts].
  - discriminate E.
  - cbn in E, Hts. injection E as Ec _. subst c. discriminate Hts.
Qed.

Lemma cycle_storage_ok (env : Env) (card : option string) :
  storage_ok env ->
  exists r, record_of env r /\
            cycle card env =
            Some (match card with
                  | Some c => c
                  | None => CSV_HEADER ++ Fmt.CR ++ Fmt.LF
                  end ++ r ++ Fmt.LF).
Proof.
  intros (Hsd & Hw & Ha). unfold cycle.
  destruct (setup_run env (boot card)) as (s' & v & E & _ & _ & _ & Hok).
  destruct (Hok Hsd) as (k & s5 & C & _).
  exists (csv_record (timestamp_text env (getLocalTime env k)) (measurement env)).
  split; [now exists k|].
  rewrite E. cbn [final_state]. rewrite C.
  unfold record_appended, header_ensured. rewrite Ha.
  change (data_csv (boot card)) with card.
  destruct card as [c|]; [reflexivity|]. rewrite Hw. reflexivity.
Qed.

Lemma run_cycles_existing (envs : list Env) (c : string) :
  Forall storage_ok envs ->
  exists records, Forall2 record_of envs records /\
                  run_cycles envs (Some c) = Some (c ++ join_lines records).
Proof.
  intros H. revert c. induction H as [|env envs Hok _ IH]; intros c.
  - exists []. split; [constructor|]. cbn. now rewrite append_nil_r.
  - destruct (cycle_storage_ok env (Some c) Hok) as (r & Hr & E).
    destruct (IH (c ++ r ++ Fmt.LF)) as (records & Hrs & Es).
    exists (r :: records). split; [now constructor|].
    unfold run_cycles in *. cbn [fold_left]. rewrite E, Es.
    cbn [join_lines]. now rewrite !append_assoc.
Qed.

Lemma run_cycles_fresh (env : Env) (envs : list Env) :
  Forall storage_ok (env :: envs) ->
  exists records, Forall2 record_of (env :: envs) records /\
                  run_cycles (env :: envs) None =
                  Some (join_lines ((CSV_HEADER ++ Fmt.CR) :: records)).
Proof.
  intros H. inversion H as [|? ? Hok Hrest]; subst.
  destruct (cycle_storage_ok env None Hok) as (r & Hr & E).
  destruct (run_cycles_existing envs ((CSV_HEADER ++ Fmt.CR ++ Fmt.LF) ++ r ++ Fmt.LF) Hrest)
    as (records & Hrs & Es).
  exists (r :: records). split; [now constructor|].
  unfold run_cycles in *. cbn [fold_left]. rewrite E, Es.
  cbn [join_lines]. now rewrite !append_assoc.
Qed.

Lemma records_are_lines (envs : list Env) (records : list string) :
  Forall clock_fits envs -> Forall2 record_of envs records ->
  Forall (fun l => free_of (ascii_of_nat 10) l = true) records /\
  map chomp_CR records = records /\
  ~ In CSV_HEADER records.
Proof.
  intros Hfit H. revert Hfit.
  induction H as [|env r envs records Hr _ IH]; intros Hfit.
  - repeat split; [constructor|intros []].
  - inversion Hfit as [|? ? Hf Hfs]; subst.
    destruct (IH Hfs) as (F & C & N).
    repeat split.
    + constructor; [|exact F].
      apply (record_of_free env r _ Hf); [reflexivity|reflexivity|exact Hr].
    + cbn [map]. rewrite C. f_equal. apply chomp_CR_free.
      apply (record_of_free env r _ Hf); [reflexivity|reflexivity|exact Hr].
    + intros [E|I]; [|exact (N I)].
      exact (record_of_not_header env r Hf Hr E).
Qed.

(** C5 (as amended). From a fresh card, N >= 1 cycles in which the card
    works leave exactly the header line followed by the N records, in the
    order of the cycles; the header occurs once, before all records.  A header
    step on an existing file changes nothing, and running the step twice is
    the same as running it once. *)
Theorem header_written_once :
  run_cycles [] None = None /\
  (forall envs : list Env,
      envs <> [] -> Forall storage_ok envs -> Forall clock_fits envs ->
      exists records : list string,
        Forall2 record_of envs records /\
        List.length records = List.length envs /\
        run_cycles envs None = Some (join_lines ((CSV_HEADER ++ Fmt.CR) :: records)) /\
        store_lines (run_cycles envs None) = CSV_HEADER :: records /\
        ~ In CSV_HEADER records) /\
  (forall (env : Env) (s : State) (c : string),
      data_csv s = Some c ->
      exists s', ensureHeader env s = Returned tt s' /\ data_csv s' = Some c) /\
  (forall (env : Env) (s : State),
      exists s1 s2, ensureHeader env s = Returned tt s1 /\
                    ensureHeader env s1 = Returned tt s2 /\
                    data_csv s2 = data_csv s1).
Proof.
  split; [reflexivity|]. split; [|split].
  - intros [|env envs] Hne Hok Hfit; [congruence|].
    destruct (run_cycles_fresh env envs Hok) as (records & Hrs & E).
    destruct (records_are_lines _ _ Hfit Hrs) as (F & C & N).
    exists records. split; [exact Hrs|].
    split; [symmetry; apply (Forall2_length Hrs)|].
    split; [exact E|]. split; [|exact N].
    rewrite E. cbn [store_lines].
    rewrite text_lines_join by (constructor; [reflexivity|exact F]).
    cbn [map]. rewrite C. reflexivity.
  - intros env s c Hc.
    destruct (ensureHeader_run env s) as (s' & E & C & _).
    exists s'. split; [exact E|]. rewrite C, Hc. reflexivity.
  - intros env s.
    destruct (ensureHeader_run env s) as (s1 & E1 & C1 & _).
    destruct (ensureHeader_run env s1) as (s2 & E2 & C2 & _).
    exists s1, s2. split; [exact E1|]. split; [exact E2|].
    rewrite C2, C1. unfold header_ensured.
    destruct (data_csv s); [reflexivity|]. destruct (SD_open_write env); reflexivity.
Qed.

Lemma sample_env_clock_fits (clock : option tm) :
  match clock with
  | Some t => (String.length (iso8601 t) <? 30)%nat = true
  | None => True
  end ->
  clock_fits (sample_env clock).
Proof.
  intros H k t E. cbn in E. subst clock. now apply Nat.ltb_lt.
Qed.

Lemma header_written_once_witness :
  exists records : list string,
    store_lines (run_cycles [sample_env (Some (sample_time 14)); sample_env None] None) =
    CSV_HEADER :: records /\ List.length records = 2%nat.
Proof.
  destruct (proj1 (proj2 header_written_once)
                  [sample_env (Some (sample_time 14)); sample_env None])
    as (records & _ & L & _ & S & _).
  - discriminate.
  - repeat constructor.
  - constructor; [|constructor; [|constructor]];
      apply sample_env_clock_fits; [vm_compute; reflexivity|exact I].
  - exists records. split; [exact S|exact L].
Defined.

(** C5 as stated, with N = 0 included, fails: after zero cycles the fresh
    card still has no file, hence no header line. *)
Lemma no_cycle_no_header :
  ~ (forall envs : list Env,
        Forall storage_ok envs -> Forall clock_fits envs ->
        exists records : list string,
          List.length records = List.length envs /\
          store_lines (run_cycles envs None) = CSV_HEADER :: records).
Proof.
  intros H. destruct (H [] (Forall_nil _) (Forall_nil _)) as (records & _ & E).
  discriminate E.
Qed.

End Persistence.

(** ** Printing with one decimal and reading it back *)

Section One_decimal.

Local Open Scope Z_scope.

Lemma div_nearest_even_close (num den : Z) :
  0 <= num -> 0 < den ->
  0 <= Fmt.div_nearest_even num den /\
  2 * Z.abs (Fmt.div_nearest_even num den * den - num) <= den.
Proof.
  intros Hn Hd. unfold Fmt.div_nearest_even.
  pose proof (Z.div_mod num den ltac:(lia)) as E.
  pose proof (Z.mod_pos_bound num den Hd) as B.
  pose proof (Z.div_pos num den Hn Hd) as P.
  destruct (Z.compare_spec (2 * (num mod den)) den) as [C|C|C];
    [destruct (Z.even (num / den))| |]; split; nia.
Qed.

Lemma Qpow2_neg (p : positive) : (2 ^ Zneg p == 1 # (2 ^ p)%positive)%Q.
Proof.
  change (2 ^ Zneg p)%Q with (/ (inject_Z 2) ^ Zpos p)%Q.
  rewrite <- Zpower_Qpower by lia.
  rewrite <- Pos2Z.inj_pow. reflexivity.
Qed.

Lemma tenths_close (m : positive) (e : Z) :
  0 <= Fmt.tenths m e /\
  (Qabs (inject_Z (Fmt.tenths m e) / 10 - inject_Z (Zpos m) * 2 ^ e) <= 1 # 20)%Q.
Proof.
  unfold Fmt.tenths. destruct (0 <=? e) eqn:He.
  - apply Z.leb_le in He. split; [pose proof (Z.pow_nonneg 2 e); nia|].
    assert (Q0 : (inject_Z (Zpos m * 2 ^ e * 10) / 10 - inject_Z (Zpos m) * 2 ^ e == 0)%Q).
    { rewrite !inject_Z_mult, Zpower_Qpower by lia.
      change (inject_Z 2) with 2%Q. change (inject_Z 10) with 10%Q. field. }
    rewrite Q0. discriminate.
  - apply Z.leb_gt in He. destruct e as [|p|p]; try lia.
    change (- Zneg p) with (Zpos p).
    rewrite <- (Pos2Z.inj_pow 2 p).
    destruct (div_nearest_even_close (Zpos m * 10) (Zpos (2 ^ p)) ltac:(lia) ltac:(lia))
      as [N C].
    split; [exact N|].
    rewrite Qpow2_neg.
    set (n := Fmt.div_nearest_even (Zpos m * 10) (Zpos (2 ^ p))) in *.
    apply Qabs_Qle_condition. split.
    + unfold Qle. cbn. lia.
    + unfold Qle. cbn. lia.
Qed.

Lemma parse_digits_dec (n : N) : parse_digits (Fmt.dec n) = Some n.
Proof.
  unfold parse_digits. destruct (dec_nonempty n) as (c & rest & E).
  rewrite E, <- E. unfold Fmt.dec.
  rewrite NilEmpty.usu. cbn [option_map].
  now rewrite DecimalN.Unsigned.of_to.
Qed.

Lemma dec_one_digit (d : Z) :
  0 <= d < 10 -> String.length (Fmt.dec (Z.to_N d)) = 1%nat.
Proof.
  intros H.
  assert (C : d = 0 \/ d = 1 \/ d = 2 \/ d = 3 \/ d = 4 \/
              d = 5 \/ d = 6 \/ d = 7 \/ d = 8 \/ d = 9) by lia.
  repeat destruct C as [C|C]; subst d; reflexivity.
Qed.

Lemma digits_free_of_point (n : N) : free_of "." (Fmt.dec n) = true.
Proof.
  unfold free_of. apply (forall_chars_weaken is_digit); [|apply dec_digits].
  intros c Hc. apply negb_true_iff.
  destruct (Ascii.eqb_spec c "."); [subst; discriminate Hc|reflexivity].
Qed.

Lemma parse_decimal_print (a b : N) :
  parse_decimal (Fmt.dec a ++ "." ++ Fmt.dec b) =
  Some (inject_Z (Z.of_N a)
        + inject_Z (Z.of_N b) / inject_Z (10 ^ Z.of_nat (String.length (Fmt.dec b))))%Q.
Proof.
  unfold parse_decimal.
  change ("." ++ Fmt.dec b)%string with (String "." (Fmt.dec b)).
  rewrite (split_on_cons _ _ _ (digits_free_of_point a)).
  rewrite (split_on_free _ _ (digits_free_of_point b)).
  rewrite !parse_digits_dec. reflexivity.
Qed.

Lemma parse_number_unsigned (a : N) (rest : string) :
  parse_number (Fmt.dec a ++ rest) = parse_decimal (Fmt.dec a ++ rest).
Proof.
  destruct (dec_nonempty a) as (c & r & E).
  pose proof (dec_digits a) as D. rewrite E in D |- *. cbn in D |- *.
  apply andb_true_iff in D. destruct D as [Dc _].
  destruct c as [[|] [|] [|] [|] [|] [|] [|] [|]]; try reflexivity; discriminate Dc.
Qed.

(** What is read back from the text of a finite value is that value rounded
    to one decimal place. *)
Lemma parse_number_f1 (x : spec_float) :
  IEEE.is_finite x = true ->
  exists q, parse_number (Fmt.f1 x) = Some q /\ rounded_to_tenth (IEEE.to_Q x) q.
Proof.
  destruct x as [s|s| |s m e]; try discriminate; intros _.
  - destruct s; eexists; (split; [reflexivity|]);
      (split; [exists 0; reflexivity|vm_compute; discriminate]).
  - destruct (tenths_close m e) as [N C].
    set (n := Fmt.tenths m e) in *.
    pose proof (Z.div_mod n 10 ltac:(lia)) as E.
    pose proof (Z.mod_pos_bound n 10 ltac:(lia)) as B.
    pose proof (Z.div_pos n 10 N ltac:(lia)) as P.
    assert (V : (inject_Z (Z.of_N (Z.to_N (n / 10)))
                 + inject_Z (Z.of_N (Z.to_N (n mod 10)))
                   / inject_Z (10 ^ Z.of_nat (String.length (Fmt.dec (Z.to_N (n mod 10)))))
                 == inject_Z n / 10)%Q).
    { rewrite (dec_one_digit _ B), !Z2N.id by lia.
      change (inject_Z (10 ^ Z.of_nat 1)) with 10%Q.
      rewrite E at 3. rewrite inject_Z_plus, inject_Z_mult.
      change (inject_Z 10) with 10%Q. field. }
    unfold Fmt.f1. fold n. destruct s; cbn [Fmt.sign].
    + match goal with
      | |- context [parse_number (?a ++ ?t)%string] =>
          change (parse_number (a ++ t)%string)
            with (option_map Qopp (parse_decimal t))
      end.
      rewrite parse_decimal_print. cbn [option_map].
      eexists; split; [reflexivity|]. split.
      * exists (- n). rewrite V, inject_Z_opp. field.
      * rewrite V. unfold IEEE.to_Q. cbn [cond_Zopp].
        change (- Zpos m) with (Z.opp (Zpos m)). rewrite inject_Z_opp.
        setoid_replace (- (inject_Z n / 10) - - inject_Z (Zpos m) * 2 ^ e)%Q
          with (- (inject_Z n / 10 - inject_Z (Zpos m) * 2 ^ e))%Q by ring.
        rewrite Qabs_opp. exact C.
    + change ("" ++ ?t)%string with t.
      rewrite parse_number_unsigned, parse_decimal_print.
      eexists; split; [reflexivity|]. split.
      * exists n. exact V.
      * rewrite V. exact C.
Qed.

End One_decimal.

(** ** The record round trip *)

Section Round_trip.

Lemma is_finite_double_of_float (x : spec_float) :
  finite_float x -> IEEE.is_finite (IEEE.double_of_float x) = true.
Proof.
  intros [Hf Hfin]. destruct x as [s|s| |s m e]; try discriminate Hfin; try reflexivity.
  rewrite (double_of_float_finite s m e Hf). reflexivity.
Qed.

Lemma rounded_to_tenth_compat (x y q : Q) :
  (x == y)%Q -> rounded_to_tenth x q -> rounded_to_tenth y q.
Proof. intros E [H1 H2]. split; [exact H1|]. now rewrite <- E. Qed.

(** A printed field reads back as the field rounded to one decimal. *)
Lemma field_round_trip (x : IEEE.float) :
  finite_float x ->
  exists q, parse_number (Fmt.f1 (IEEE.double_of_float x)) = Some q /\
            rounded_to_tenth (IEEE.to_Q x) q.
Proof.
  intros H.
  destruct (parse_number_f1 _ (is_finite_double_of_float x H)) as (q & P & R).
  exists q. split; [exact P|].
  exact (rounded_to_tenth_compat _ _ _ (to_Q_double_of_float x (proj1 H)) R).
Qed.

Lemma f1_free_of_comma (x : spec_float) : free_of "," (Fmt.f1 x) = true.
Proof. apply field_chars_free; [reflexivity|apply f1_field_chars]. Qed.

Lemma parse_record_csv_record (ts : string) (s : State) :
  forall_chars is_field_char ts = true ->
  finite_reading s ->
  exists rd : Reading,
    parse_record (csv_record ts s) = Some rd /\
    r_timestamp rd = ts /\
    rounded_to_tenth (IEEE.to_Q (airTemp s)) (r_air_temp rd) /\
    rounded_to_tenth (IEEE.to_Q (humidity s)) (r_humidity rd) /\
    rounded_to_tenth (IEEE.to_Q (pressure s)) (r_pressure rd) /\
    rounded_to_tenth (IEEE.to_Q (waterTemp s)) (r_water_temp rd) /\
    rounded_to_tenth (IEEE.to_Q (waterLevel s)) (r_water_level rd).
Proof.
  intros Hts (Ha & Hh & Hp & Hwt & Hwl).
  destruct (field_round_trip _ Ha) as (qa & Pa & Ra).
  destruct (field_round_trip _ Hh) as (qh & Ph & Rh).
  destruct (field_round_trip _ Hp) as (qp & Pp & Rp).
  destruct (field_round_trip _ Hwt) as (qwt & Pwt & Rwt).
  destruct (field_round_trip _ Hwl) as (qwl & Pwl & Rwl).
  exists (mk_Reading ts qa qh qp qwt qwl).
  split; [|exact (conj eq_refl (conj Ra (conj Rh (conj Rp (conj Rwt Rwl)))))].
  unfold parse_record, csv_record.
  repeat match goal with
         | |- context [("," ++ ?x)%string] =>
             change ("," ++ x)%string with (String "," x)
         end.
  rewrite (split_on_cons "," ts _ (field_chars_free "," ts eq_refl Hts)).
  rewrite !(split_on_cons "," (Fmt.f1 _) _ (f1_free_of_comma _)).
  rewrite (split_on_free "," (Fmt.f1 _) (f1_free_of_comma _)).
  rewrite Pa, Ph, Pp, Pwt, Pwl. reflexivity.
Qed.

(** C9. A record written by [writeCSV] from finite sensor values, read back
    under the column format timestamp, air_temp, humidity, pressure,
    water_temp, water_level, gives back the timestamp and each of the five
    values rounded to one decimal place. *)
Theorem record_round_trip (env : Env) (s : State)
        (Hfinite : finite_reading s)
        (Hclock : clock_fits env)
        (Hcard : SD_open_append env = true) :
  let timestamp := timestamp_text env (getLocalTime env (time_calls s)) in
  exists (s' : State) (line : string) (rd : Reading),
    writeCSV env s = Returned tt s' /\
    data_csv s' = Some (match data_csv s with Some c => c | None => "" end
                        ++ line ++ Fmt.LF) /\
    line = csv_record timestamp s /\
    parse_record line = Some rd /\
    r_timestamp rd = timestamp /\
    rounded_to_tenth (IEEE.to_Q (airTemp s)) (r_air_temp rd) /\
    rounded_to_tenth (IEEE.to_Q (humidity s)) (r_humidity rd) /\
    rounded_to_tenth (IEEE.to_Q (pressure s)) (r_pressure rd) /\
    rounded_to_tenth (IEEE.to_Q (waterTemp s)) (r_water_temp rd) /\
    rounded_to_tenth (IEEE.to_Q (waterLevel s)) (r_water_level rd).
Proof.
  intros timestamp.
  destruct (writeCSV_run env s) as (s' & E & C & _).
  destruct (parse_record_csv_record timestamp s
              (timestamp_text_field_chars env _ Hclock) Hfinite)
    as (rd & P & R).
  exists s', (csv_record timestamp s), rd.
  split; [exact E|]. split; [rewrite C, Hcard; reflexivity|].
  split; [reflexivity|]. split; [exact P|exact R].
Qed.

Lemma record_round_trip_witness :
  finite_reading (measurement (sample_env (Some (sample_time 14)))) /\
  exists rd : Reading,
    parse_record (csv_record "2026-08-15T14:00:00+09:00"
                             (measurement (sample_env (Some (sample_time 14))))) = Some rd /\
    r_timestamp rd = "2026-08-15T14:00:00+09:00".
Proof.
  assert (F : finite_reading (measurement (sample_env (Some (sample_time 14)))))
    by (repeat split; vm_compute; reflexivity).
  split; [exact F|].
  destruct (record_round_trip (sample_env (Some (sample_time 14)))
                              (measurement (sample_env (Some (sample_time 14))))
                              F
                              (sample_env_clock_fits (Some (sample_time 14)) eq_refl)
                              eq_refl)
    as (s' & line & rd & _ & _ & L & P & T & _).
  exists rd. subst line. split; [exact P|exact T].
Defined.

End Round_trip.

(** * Further properties of the sketch *)

(** ** Power controller *)

Section More_goToSleep.

Local Open Scope Z_scope.



End More_goToSleep.

(** ** Scheduler *)

Section More_scheduler.

Local Open Scope Z_scope.

(** X2. [calcSleepInterval] returns the night interval exactly when the
    clock answers with an hour that is at least 22 or below 5; this includes
    hours outside 0..23 (24 and above, negative ones), and excludes a
    missing clock.  The decision reads only the clock, [airTemp] and
    [humidity]: states that agree on these get the same interval, whatever
    the pressure, the water readings and the card are. *)
Theorem night_iff_clock_hour (env : Env) (s : State) :
  exists v : Z,
    calcSleepInterval env s = Returned v (set_time_calls (S (time_calls s)) s) /\
    (v = INTERVAL_NIGHT <->
     exists t : tm, getLocalTime env (time_calls s) = Some t /\
                    (22 <= tm_hour t \/ tm_hour t < 5)) /\
    (forall s2 : State,
        time_calls s2 = time_calls s -> airTemp s2 = airTemp s ->
        humidity s2 = humidity s ->
        calcSleepInterval env s2 = Returned v (set_time_calls (S (time_calls s2)) s2)).
Proof.
  unfold calcSleepInterval, bind, call_getLocalTime, gets, ret. cbv zeta.
  destruct (getLocalTime env (time_calls s)) as [t|] eqn:Hc.
  - destruct ((tm_hour t >=? 22) || (tm_hour t <? 5)) eqn:Hn.
    + exists INTERVAL_NIGHT. split; [reflexivity|]. split.
      * split; [intros _|reflexivity]. exists t. split; [reflexivity|].
        rewrite Z.geb_leb in Hn. apply orb_true_iff in Hn.
        destruct Hn as [Hn|Hn]; [left; apply Z.leb_le, Hn|right; apply Z.ltb_lt, Hn].
      * intros s2 Ht Ha Hh. rewrite Ht, Hc, Hn. reflexivity.
    + rewrite Z.geb_leb in Hn. apply orb_false_iff in Hn. destruct Hn as [H1 H2].
      apply Z.leb_gt in H1. apply Z.ltb_ge in H2.
      cbv beta. cbn [airTemp humidity set_time_calls].
      match goal with |- context [if ?c then _ else _] => destruct c eqn:Hr end;
        eexists; (split; [reflexivity|]); (split;
          [split; [discriminate|intros (t' & Et & Hh); injection Et as <-; lia]|]);
        intros s2 Ht Ha Hh; rewrite Ht, Hc;
        replace ((tm_hour t >=? 22) || (tm_hour t <? 5)) with false
          by (symmetry; rewrite Z.geb_leb; apply orb_false_iff;
              split; [apply Z.leb_gt|apply Z.ltb_ge]; lia);
        cbv beta; cbn [airTemp humidity set_time_calls]; rewrite Ha, Hh, Hr; reflexivity.
  - change ((12 >=? 22) || (12 <? 5)) with false. cbv iota beta.
    cbn [airTemp humidity set_time_calls].
    match goal with |- context [if ?c then _ else _] => destruct c eqn:Hr end;
      eexists; (split; [reflexivity|]); (split;
        [split; [discriminate|intros (t' & Et & _); discriminate Et]|]);
      intros s2 Ht Ha Hh; rewrite Ht, Hc;
      change ((12 >=? 22) || (12 <? 5)) with false; cbv iota beta;
      cbn [airTemp humidity set_time_calls]; rewrite Ha, Hh, Hr; reflexivity.
Qed.

End More_scheduler.

(** ** Sensor acquisition and persistence, one call at a time *)

Section More_calls.

(** X3. [readSensors] changes nothing but the five sensor globals and the
    serial output: the card, the wake timer and the call counters keep
    their values.  A water temperature that compares equal to the driver's
    disconnected value is never left in [waterTemp] (unless that value is
    -999 itself), while a NaN from the driver is stored as it is. *)
Theorem readSensors_footprint (env : Env) (s : State) :
  exists s' : State,
    readSensors env s = Returned tt s' /\
    data_csv s' = data_csv s /\ wake_timer s' = wake_timer s /\
    time_calls s' = time_calls s /\ wifi_polls s' = wifi_polls s /\
    (IEEE.eq (waterTemp s') (IEEE.float_of_int (DEVICE_DISCONNECTED_C env)) = true ->
     IEEE.eq (IEEE.float_of_int (-999))
             (IEEE.float_of_int (DEVICE_DISCONNECTED_C env)) = true) /\
    (IEEE.is_nan (ds18b20_getTempCByIndex env) = true ->
     IEEE.is_nan (waterTemp s') = true).
Proof.
  unfold readSensors, bind, modify, gets, ret, Serial_print.
  cbn [waterTemp set_waterTemp].
  destruct (IEEE.eq (ds18b20_getTempCByIndex env)
                    (IEEE.float_of_int (DEVICE_DISCONNECTED_C env))) eqn:E;
    (eexists; split; [reflexivity|]; cbn;
     repeat (split; [reflexivity|]); split).
  - intros H. exact H.
  - intros N. destruct (ds18b20_getTempCByIndex env); try discriminate N.
    discriminate E.
  - intros H. rewrite E in H. discriminate H.
  - intros N. exact N.
Qed.

(** X4. When the file cannot be opened for append, [writeCSV] still asks the
    clock once, reports the failure on the serial port and returns: the card,
    the sensor globals and the wake timer are unchanged. *)
Theorem writeCSV_open_failure (env : Env) (s : State)
        (Hopen : SD_open_append env = false) :
  writeCSV env s =
  Returned tt (set_serial (serial s ++ "ERROR: Cannot open CSV file" ++ Fmt.CR ++ Fmt.LF)
                          (set_time_calls (S (time_calls s)) s)).
Proof.
  unfold writeCSV.
  rewrite (bind_run _ _ _ _ _ (getTimestamp_run env s)).
  unfold bind, SD_open_FILE_APPEND, ret. rewrite Hopen. reflexivity.
Qed.

Lemma writeCSV_open_failure_witness :
  SD_open_append
    (mk_Env false (-127) true S754_nan S754_nan S754_nan S754_nan 0
            true true false (fun _ => None) (fun _ => false) "") = false /\
  data_csv (final_state
              (writeCSV
                 (mk_Env false (-127) true S754_nan S754_nan S754_nan S754_nan 0
                         true true false (fun _ => None) (fun _ => false) "")
                 (boot (Some "kept")))) = Some "kept".
Proof.
  split; [reflexivity|].
  rewrite (writeCSV_open_failure
             (mk_Env false (-127) true S754_nan S754_nan S754_nan S754_nan 0
                     true true false (fun _ => None) (fun _ => false) "")
             (boot (Some "kept")) eq_refl).
  reflexivity.
Defined.

(** X5. When the SD card does not initialise, [setup] does nothing but
    report and sleep: no sensor is read (the globals keep their values), the
    clock is not asked, the WiFi is not polled, the card is not touched, and
    the timer is armed for [INTERVAL_NORMAL]. *)
Theorem setup_without_card (env : Env) (s : State)
        (Hsd : SD_begin env = false) :
  setup env s =
  Asleep
    (set_serial
       (serial s ++ "=== tanbo-adviser sensor unit ===" ++ Fmt.CR ++ Fmt.LF
        ++ (if bme_begin env then "" else "ERROR: BME280 not found!" ++ Fmt.CR ++ Fmt.LF)
        ++ "ERROR: SD card init failed!" ++ Fmt.CR ++ Fmt.LF
        ++ "Entering deep sleep..." ++ Fmt.CR ++ Fmt.LF)
       (set_wake_timer (Some (INTERVAL_NORMAL * 1000000)%Z) s)).
Proof.
  unfold setup, bind, Serial_println, Serial_print, modify, ret.
  rewrite Hsd. cbn [negb].
  destruct (bme_begin env); cbn [negb]; rewrite goToSleep_run;
    destruct s; cbn; rewrite ?append_assoc; reflexivity.
Qed.

Lemma setup_without_card_witness :
  SD_begin (mk_Env false (-127) false S754_nan S754_nan S754_nan S754_nan 0
                   false true true (fun _ => None) (fun _ => false) "") = false /\
  wake_timer
    (final_state
       (setup (mk_Env false (-127) false S754_nan S754_nan S754_nan S754_nan 0
                      false true true (fun _ => None) (fun _ => false) "")
              (boot None))) = Some 1800000000%Z.
Proof.
  split; [reflexivity|].
  rewrite (setup_without_card
             (mk_Env false (-127) false S754_nan S754_nan S754_nan S754_nan 0
                     false true true (fun _ => None) (fun _ => false) "")
             (boot None) eq_refl).
  reflexivity.
Defined.

End More_calls.

(** ** Time synchronisation *)

Section More_syncTime.

Variable env : Env.

Lemma set_wifi_polls_twice (a b : nat) (s : State) :
  set_wifi_polls a (set_wifi_polls b s) = set_wifi_polls a s.
Proof. destruct s; reflexivity. Qed.

(** The wait loop stops at the first poll that sees the connection. *)
Lemma syncTime_wait_connected (n j : nat) (s : State) :
  (j <= n)%nat ->
  first_true_at (WiFi_connected env) (wifi_polls s) j ->
  syncTime_wait env n s = Returned tt (set_wifi_polls (wifi_polls s + j + 1) s).
Proof.
  revert j s. induction n as [|n IH]; intros j s Hj [Hbefore Hat].
  - assert (j = 0)%nat by lia. subst j.
    cbn [syncTime_wait]. unfold bind, WiFi_status_is_connected, ret.
    rewrite Nat.add_0_r in Hat. rewrite Hat.
    f_equal. f_equal. lia.
  - cbn [syncTime_wait]. unfold bind, WiFi_status_is_connected, ret.
    destruct j as [|j].
    + rewrite Nat.add_0_r in Hat. rewrite Hat. f_equal. f_equal. lia.
    + pose proof (Hbefore 0%nat ltac:(lia)) as H0. rewrite Nat.add_0_r in H0.
      rewrite H0.
      rewrite (IH j (set_wifi_polls (S (wifi_polls s)) s)).
      * rewrite set_wifi_polls_twice. f_equal. f_equal.
        cbn [wifi_polls set_wifi_polls]. lia.
      * lia.
      * cbn [wifi_polls set_wifi_polls]. split.
        -- intros i Hi. specialize (Hbefore (S i) ltac:(lia)).
           replace (S (wifi_polls s) + i)%nat with (wifi_polls s + S i)%nat by lia.
           exact Hbefore.
        -- replace (S (wifi_polls s) + j)%nat with (wifi_polls s + S j)%nat by lia.
           exact Hat.
Qed.

(** Without a connection the loop gives up after [n + 1] polls. *)
Lemma syncTime_wait_timeout (n : nat) (s : State) :
  (forall i : nat, (i <= n)%nat -> WiFi_connected env (wifi_polls s + i) = false) ->
  syncTime_wait env n s = Returned tt (set_wifi_polls (wifi_polls s + n + 1) s).
Proof.
  revert s. induction n as [|n IH]; intros s H;
    cbn [syncTime_wait]; unfold bind, WiFi_status_is_connected, ret;
    pose proof (H 0%nat ltac:(lia)) as H0; rewrite Nat.add_0_r in H0; rewrite H0.
  - f_equal. f_equal. lia.
  - rewrite (IH (set_wifi_polls (S (wifi_polls s)) s)).
    + rewrite set_wifi_polls_twice. f_equal. f_equal.
      cbn [wifi_polls set_wifi_polls]. lia.
    + intros i Hi. cbn [wifi_polls set_wifi_polls].
      replace (S (wifi_polls s) + i)%nat with (wifi_polls s + S i)%nat by lia.
      apply H. lia.
Qed.

Lemma syncTime_wait_bounded (n : nat) (s : State) :
  exists p : nat,
    syncTime_wait env n s = Returned tt (set_wifi_polls p s) /\
    (wifi_polls s + 1 <= p <= wifi_polls s + n + 1)%nat.
Proof.
  revert s. induction n as [|n IH]; intros s;
    cbn [syncTime_wait]; unfold bind, WiFi_status_is_connected, ret;
    destruct (WiFi_connected env (wifi_polls s)).
  - exists (S (wifi_polls s)). split; [reflexivity|lia].
  - exists (S (wifi_polls s)). split; [reflexivity|lia].
  - exists (S (wifi_polls s)). split; [reflexivity|lia].
  - destruct (IH (set_wifi_polls (S (wifi_polls s)) s)) as (p & E & B).
    exists p. rewrite E, set_wifi_polls_twice. split; [reflexivity|].
    cbn [wifi_polls set_wifi_polls] in B. lia.
Qed.

(** X6. [syncTime] always returns, after between 2 and 22 polls of the WiFi
    status and at most one call of [getLocalTime]; it never touches the
    card, the sensor globals or the wake timer. *)
Theorem syncTime_bounded (s : State) :
  exists s' : State,
    syncTime env s = Returned tt s' /\
    (wifi_polls s + 2 <= wifi_polls s' <= wifi_polls s + 22)%nat /\
    (time_calls s <= time_calls s' <= time_calls s + 1)%nat /\
    data_csv s' = data_csv s /\ wake_timer s' = wake_timer s /\
    same_reading s s'.
Proof.
  unfold syncTime.
  destruct (syncTime_wait_bounded 20 s) as (p & E & B).
  rewrite (bind_run _ _ _ _ _ E).
  unfold bind, WiFi_status_is_connected, call_getLocalTime, ret, Serial_println,
    Serial_print, modify.
  destruct s as [a h pr wt wl card se wk tc wp]; cbn in B |- *.
  destruct (WiFi_connected env p); cbn.
  - destruct (getLocalTime env tc) as [t|];
      (eexists; split; [reflexivity|]);
      cbn; (split; [lia|]); (split; [lia|]);
      repeat split; reflexivity.
  - eexists; split; [reflexivity|].
    cbn. split; [lia|]. split; [lia|]. repeat split; reflexivity.
Qed.

(** X7. Outcomes of [syncTime].  If the WiFi is not connected at any of the
    22 polls, the loop gives up after 20 retries, the failure is reported and
    the clock is not asked.  If the connection first shows at poll [j] with
    [j <= 20] and is still there at the next poll, [syncTime] makes [j + 2]
    polls and asks the clock exactly once. *)
Theorem syncTime_outcomes (s : State) :
  ((forall i : nat, (i <= 21)%nat -> WiFi_connected env (wifi_polls s + i) = false) ->
   syncTime env s =
   Returned tt
     (set_serial (serial s ++ "WiFi connection failed, skipping NTP sync"
                  ++ Fmt.CR ++ Fmt.LF)
                 (set_wifi_polls (wifi_polls s + 22) s))) /\
  (forall j : nat,
      (j <= 20)%nat ->
      first_true_at (WiFi_connected env) (wifi_polls s) j ->
      WiFi_connected env (wifi_polls s + j + 1) = true ->
      exists s' : State,
        syncTime env s = Returned tt s' /\
        wifi_polls s' = (wifi_polls s + j + 2)%nat /\
        time_calls s' = S (time_calls s)).
Proof.
  split.
  - intros H. unfold syncTime.
    rewrite (bind_run _ _ _ _ _ (syncTime_wait_timeout 20 s ltac:(intros; apply H; lia))).
    unfold bind, WiFi_status_is_connected, ret, Serial_println, Serial_print, modify.
    cbn [wifi_polls set_wifi_polls].
    replace (wifi_polls s + 20 + 1)%nat with (wifi_polls s + 21)%nat by lia.
    rewrite (H 21%nat ltac:(lia)).
    destruct s as [a h pr wt wl card se wk tc wp]; cbn.
    replace (S (wp + 21))%nat with (wp + 22)%nat by lia. reflexivity.
  - intros j Hj Hfirst Hnext. unfold syncTime.
    rewrite (bind_run _ _ _ _ _ (syncTime_wait_connected 20 j s Hj Hfirst)).
    unfold bind, WiFi_status_is_connected, call_getLocalTime, ret, Serial_print, modify.
    destruct s as [a h pr wt wl card se wk tc wp]; cbn in Hnext |- *.
    rewrite Hnext. cbn.
    destruct (getLocalTime env tc) as [t|];
      (eexists; split; [reflexivity|]); cbn; split; try reflexivity; lia.
Qed.

End More_syncTime.

Lemma syncTime_outcomes_witness :
  (forall i : nat, (i <= 21)%nat ->
                   WiFi_connected (sample_env None) (wifi_polls (boot None) + i) = false) /\
  wifi_polls (final_state (syncTime (sample_env None) (boot None))) = 22%nat.
Proof.
  assert (H : forall i : nat, (i <= 21)%nat ->
                WiFi_connected (sample_env None) (wifi_polls (boot None) + i) = false)
    by (intros i _; reflexivity).
  split; [exact H|].
  rewrite (proj1 (syncTime_outcomes (sample_env None) (boot None)) H).
  reflexivity.
Defined.

(** ** The file under arbitrary card failures *)

Section More_persistence.

Lemma Forall_filter_keep {A : Type} (P : A -> Prop) (f : A -> bool) (l : list A) :
  Forall P l -> Forall P (filter f l).
Proof.
  intros H. apply Forall_forall. intros x Hx.
  rewrite Forall_forall in H. apply H. exact (incl_filter f l x Hx).
Qed.

(** One cycle on an existing file: the old contents stay, and a record
    follows exactly when the card initialises and the file opens. *)
Lemma cycle_on_existing (env : Env) (c : string) :
  (cycle_writes env = true /\
   exists r, record_of env r /\ cycle (Some c) env = Some (c ++ r ++ Fmt.LF)) \/
  (cycle_writes env = false /\ cycle (Some c) env = Some c).
Proof.
  unfold cycle, cycle_writes.
  destruct (setup_run env (boot (Some c))) as (s' & v & E & _ & _ & Hfail & Hok).
  rewrite E. cbn [final_state]. change (data_csv (boot (Some c))) with (Some c) in *.
  destruct (SD_begin env).
  - destruct (Hok eq_refl) as (k & s5 & C & _).
    rewrite C. unfold record_appended, header_ensured.
    destruct (SD_open_append env).
    + left. split; [reflexivity|].
      exists (csv_record (timestamp_text env (getLocalTime env k)) (measurement env)).
      split; [now exists k|reflexivity].
    + right. split; reflexivity.
  - right. split; [reflexivity|]. exact (proj2 (Hfail eq_refl)).
Qed.

(** Any sequence of cycles on an existing file. *)
Lemma run_cycles_on_existing (envs : list Env) (c : string) :
  exists records : list string,
    Forall2 record_of (filter cycle_writes envs) records /\
    run_cycles envs (Some c) = Some (c ++ join_lines records).
Proof.
  revert c. induction envs as [|env envs IH]; intros c.
  - exists []. split; [constructor|]. cbn. now rewrite append_nil_r.
  - unfold run_cycles. cbn [fold_left filter].
    destruct (cycle_on_existing env c) as [(W & r & Hr & E)|(W & E)]; rewrite W, E.
    + destruct (IH (c ++ r ++ Fmt.LF)) as (records & F & R).
      exists (r :: records). split; [now constructor|].
      unfold run_cycles in R. rewrite R. cbn [join_lines].
      now rewrite !append_assoc.
    + destruct (IH c) as (records & F & R).
      exists records. split; [exact F|exact R].
Qed.

(** X8. Whatever fails in whichever cycle, an existing file is only ever
    appended to: after any sequence of cycles its old contents are still
    there, followed by exactly one record for each cycle in which the card
    initialised and the file opened, in the order of the cycles.  A failed
    cycle adds nothing and disturbs nothing. *)
Theorem records_only_appended (envs : list Env) (c : string) :
  exists records : list string,
    Forall2 record_of (filter cycle_writes envs) records /\
    List.length records = List.length (filter cycle_writes envs) /\
    run_cycles envs (Some c) = Some (c ++ join_lines records).
Proof.
  destruct (run_cycles_on_existing envs c) as (records & F & R).
  exists records. split; [exact F|]. split; [|exact R].
  symmetry. exact (Forall2_length F).
Qed.

Lemma dead_cycles_leave_no_file (dead : list Env) :
  Forall cycle_dead dead -> run_cycles dead None = None.
Proof.
  induction 1 as [|env dead Hd _ IH]; [reflexivity|].
  unfold run_cycles in *. cbn [fold_left].
  replace (cycle None env) with (@None string); [exact IH|].
  unfold cycle.
  destruct (setup_run env (boot None)) as (s' & v & E & _ & _ & Hfail & Hok).
  rewrite E. cbn [final_state]. change (data_csv (boot None)) with (@None string) in *.
  destruct Hd as [Hsd|[Hw Ha]].
  - symmetry. exact (proj2 (Hfail Hsd)).
  - destruct (SD_begin env).
    + destruct (Hok eq_refl) as (k & s5 & C & _). rewrite C.
      unfold record_appended, header_ensured. rewrite Hw, Ha. reflexivity.
    + symmetry. exact (proj2 (Hfail eq_refl)).
Qed.

(** The cycle that creates the file. *)
Lemma cycle_creates (env : Env) :
  SD_begin env = true ->
  exists k : nat,
    cycle None env =
    record_appended env k (header_ensured env None).
Proof.
  intros Hsd. unfold cycle.
  destruct (setup_run env (boot None)) as (s' & v & E & _ & _ & _ & Hok).
  destruct (Hok Hsd) as (k & s5 & C & _).
  exists k. rewrite E. cbn [final_state]. exact C.
Qed.

Lemma join_lines_app (a b : list string) :
  join_lines (a ++ b) = join_lines a ++ join_lines b.
Proof.
  induction a as [|l a IH]; [reflexivity|].
  cbn [join_lines app]. now rewrite IH, !append_assoc.
Qed.

Lemma creating_cycle_with_header (env0 : Env) :
  SD_begin env0 = true -> SD_open_write env0 = true ->
  exists first : list string,
    Forall2 record_of (filter cycle_writes [env0]) first /\
    cycle None env0 = Some ((CSV_HEADER ++ Fmt.CR ++ Fmt.LF) ++ join_lines first).
Proof.
  intros Hsd Hw. destruct (cycle_creates env0 Hsd) as (k & E). rewrite E.
  unfold record_appended, header_ensured. rewrite Hw.
  cbn [filter]. unfold cycle_writes. rewrite Hsd. cbn [andb].
  destruct (SD_open_append env0).
  - exists [csv_record (timestamp_text env0 (getLocalTime env0 k)) (measurement env0)].
    split; [constructor; [now exists k|constructor]|].
    cbn [join_lines]. unfold csv_line. now rewrite append_nil_r.
  - exists []. split; [constructor|]. cbn [join_lines]. now rewrite append_nil_r.
Qed.

Lemma run_cycles_app (a b : list Env) (card : option string) :
  run_cycles (a ++ b) card = run_cycles b (run_cycles a card).
Proof. unfold run_cycles. apply fold_left_app. Qed.

(** X9. The header under failures.  After any number of cycles that could
    not create the file, the first cycle that opens it for writing puts the
    header on top; whatever fails afterwards, the file then consists of the
    header line followed by one record per cycle that got its record
    through, and the header occurs only there. *)
Theorem header_survives_failures (dead : list Env) (env0 : Env) (envs : list Env)
        (Hdead : Forall cycle_dead dead)
        (Hsd : SD_begin env0 = true)
        (Hwrite : SD_open_write env0 = true)
        (Hclock : Forall clock_fits (env0 :: envs)) :
  exists records : list string,
    Forall2 record_of (filter cycle_writes (env0 :: envs)) records /\
    run_cycles (dead ++ env0 :: envs) None =
      Some (join_lines ((CSV_HEADER ++ Fmt.CR) :: records)) /\
    store_lines (run_cycles (dead ++ env0 :: envs) None) = CSV_HEADER :: records /\
    ~ In CSV_HEADER records.
Proof.
  destruct (creating_cycle_with_header env0 Hsd Hwrite) as (first & Ff & Ef).
  destruct (run_cycles_on_existing envs ((CSV_HEADER ++ Fmt.CR ++ Fmt.LF) ++ join_lines first))
    as (rest & Fr & Er).
  assert (F : Forall2 record_of (filter cycle_writes (env0 :: envs)) (first ++ rest)).
  { change (env0 :: envs) with ([env0] ++ envs)%list. rewrite filter_app.
    apply Forall2_app; assumption. }
  assert (E : run_cycles (dead ++ env0 :: envs) None =
              Some (join_lines ((CSV_HEADER ++ Fmt.CR) :: first ++ rest))).
  { rewrite run_cycles_app, (dead_cycles_leave_no_file dead Hdead).
    change (run_cycles (env0 :: envs) None) with (run_cycles envs (cycle None env0)).
    rewrite Ef, Er. cbn [join_lines]. now rewrite join_lines_app, !append_assoc. }
  destruct (records_are_lines _ _ (Forall_filter_keep _ _ _ Hclock) F) as (Fl & Cl & Nl).
  exists (first ++ rest)%list.
  split; [exact F|]. split; [exact E|]. split; [|exact Nl].
  rewrite E. cbn [store_lines].
  rewrite text_lines_join by (constructor; [reflexivity|exact Fl]).
  cbn [map]. rewrite Cl. reflexivity.
Qed.

Lemma header_survives_failures_witness :
  Forall cycle_dead [unplugged_env_no_card] /\
  exists records : list string,
    store_lines (run_cycles ([unplugged_env_no_card] ++ sample_env None :: [unplugged_env_no_card])
                            None) = CSV_HEADER :: records.
Proof.
  assert (D : Forall cycle_dead [unplugged_env_no_card])
    by (repeat constructor).
  split; [exact D|].
  destruct (header_survives_failures [unplugged_env_no_card] (sample_env None)
                                     [unplugged_env_no_card] D eq_refl eq_refl)
    as (records & _ & _ & S & _).
  - constructor; [apply sample_env_clock_fits; exact I|].
    constructor; [|constructor]. intros k t E. discriminate E.
  - exists records. exact S.
Defined.

(** X10. A header that could not be written is never written later.  If
    the cycle that creates the file cannot open it for writing but can open
    it for append, the file starts with that cycle's record, and no later
    cycle adds the header, whatever the state of the card: the header line
    never appears in the file. *)
Theorem missed_header_is_never_written (dead : list Env) (env0 : Env) (envs : list Env)
        (Hdead : Forall cycle_dead dead)
        (Hsd : SD_begin env0 = true)
        (Hwrite : SD_open_write env0 = false)
        (Happend : SD_open_append env0 = true)
        (Hclock : Forall clock_fits (env0 :: envs)) :
  exists (r0 : string) (records : list string),
    record_of env0 r0 /\
    Forall2 record_of (filter cycle_writes envs) records /\
    run_cycles (dead ++ env0 :: envs) None = Some (join_lines (r0 :: records)) /\
    store_lines (run_cycles (dead ++ env0 :: envs) None) = r0 :: records /\
    ~ In CSV_HEADER (store_lines (run_cycles (dead ++ env0 :: envs) None)).
Proof.
  destruct (cycle_creates env0 Hsd) as (k & Ek).
  unfold record_appended, header_ensured in Ek. rewrite Hwrite, Happend in Ek.
  set (r0 := csv_record (timestamp_text env0 (getLocalTime env0 k)) (measurement env0)) in *.
  destruct (run_cycles_on_existing envs (r0 ++ Fmt.LF)) as (rest & Fr & Er).
  assert (F : Forall2 record_of (filter cycle_writes (env0 :: envs)) (r0 :: rest)).
  { cbn [filter]. unfold cycle_writes at 1. rewrite Hsd, Happend. cbn [andb].
    constructor; [now exists k|exact Fr]. }
  assert (E : run_cycles (dead ++ env0 :: envs) None = Some (join_lines (r0 :: rest))).
  { rewrite run_cycles_app, (dead_cycles_leave_no_file dead Hdead).
    change (run_cycles (env0 :: envs) None) with (run_cycles envs (cycle None env0)).
    rewrite Ek. unfold csv_line. fold r0. cbn [append].
    rewrite Er. cbn [join_lines]. now rewrite !append_assoc. }
  destruct (records_are_lines _ _ (Forall_filter_keep _ _ _ Hclock) F) as (Fl & Cl & Nl).
  assert (S : store_lines (run_cycles (dead ++ env0 :: envs) None) = r0 :: rest).
  { rewrite E. cbn [store_lines]. rewrite (text_lines_join _ Fl). exact Cl. }
  exists r0, rest.
  split; [now exists k|]. split; [exact Fr|]. split; [exact E|].
  split; [exact S|]. rewrite S. exact Nl.
Qed.

Lemma missed_header_is_never_written_witness :
  SD_open_write headerless_env = false /\
  ~ In CSV_HEADER
       (store_lines (run_cycles ([] ++ headerless_env :: [sample_env None]) None)).
Proof.
  split; [reflexivity|].
  destruct (missed_header_is_never_written [] headerless_env [sample_env None]
                                           (Forall_nil _) eq_refl eq_refl eq_refl)
    as (r0 & records & _ & _ & _ & _ & N).
  - constructor; [intros k t E; discriminate E|].
    constructor; [apply sample_env_clock_fits; exact I|constructor].
  - exact N.
Defined.

End More_persistence.

(** ** The shape of a record *)

Section More_records.

Lemma csv_record_fields (ts : string) (s : State) :
  forall_chars is_field_char ts = true ->
  split_on "," (csv_record ts s) =
  [ts;
   Fmt.f1 (IEEE.double_of_float (airTemp s));
   Fmt.f1 (IEEE.double_of_float (humidity s));
   Fmt.f1 (IEEE.double_of_float (pressure s));
   Fmt.f1 (IEEE.double_of_float (waterTemp s));
   Fmt.f1 (IEEE.double_of_float (waterLevel s))].
Proof.
  intros Hts. unfold csv_record.
  repeat match goal with
         | |- context [("," ++ ?x)%string] =>
             change ("," ++ x)%string with (String "," x)
         end.
  rewrite (split_on_cons "," ts _ (field_chars_free "," ts eq_refl Hts)).
  rewrite !(split_on_cons "," (Fmt.f1 _) _ (f1_free_of_comma _)).
  rewrite (split_on_free "," (Fmt.f1 _) (f1_free_of_comma _)).
  reflexivity.
Qed.

(** X11. Whatever the sensor globals hold, NaN and infinities included, the
    record [writeCSV] formats has exactly six comma-separated fields, the
    timestamp first, and contains neither a line feed nor a carriage
    return: one record is always one line of six columns. *)
Theorem record_is_one_line_of_six_fields (env : Env) (k : nat) (s : State)
        (Hclock : clock_fits env) :
  let ts := timestamp_text env (getLocalTime env k) in
  List.length (split_on "," (csv_record ts s)) = 6%nat /\
  hd "" (split_on "," (csv_record ts s)) = ts /\
  free_of (ascii_of_nat 10) (csv_record ts s) = true /\
  free_of (ascii_of_nat 13) (csv_record ts s) = true.
Proof.
  intros ts.
  pose proof (timestamp_text_field_chars env k Hclock) as Hts. fold ts in Hts.
  rewrite (csv_record_fields ts s Hts).
  split; [reflexivity|]. split; [reflexivity|].
  assert (G : forall sep : ascii,
             is_field_char sep = false -> Ascii.eqb sep "," = false ->
             free_of sep (csv_record ts s) = true).
  { intros sep Hsep Hcomma. unfold csv_record, free_of.
    rewrite !forall_chars_app.
    fold (free_of sep ts). rewrite (field_chars_free sep _ Hsep Hts).
    repeat match goal with
           | |- context [forall_chars _ (Fmt.f1 ?x)] =>
               change (forall_chars (fun c => negb (Ascii.eqb c sep)) (Fmt.f1 x))
                 with (free_of sep (Fmt.f1 x));
               rewrite (field_chars_free sep _ Hsep (f1_field_chars x))
           end.
    cbn [forall_chars]. rewrite (Ascii.eqb_sym _ sep), Hcomma. reflexivity. }
  split; apply G; reflexivity.
Qed.

Lemma record_is_one_line_of_six_fields_witness :
  clock_fits (sample_env None) /\
  List.length (split_on "," (csv_record FALLBACK_TIMESTAMP
                                        (sample_state S754_nan (S754_infinity true)))) = 6%nat.
Proof.
  assert (C : clock_fits (sample_env None)) by (apply sample_env_clock_fits; exact I).
  split; [exact C|].
  exact (proj1 (record_is_one_line_of_six_fields
                  (sample_env None) O
                  (sample_state S754_nan (S754_infinity true)) C)).
Defined.

Lemma field_parses_only_if_finite (x : spec_float) (q : Q) :
  parse_number (Fmt.f1 (IEEE.double_of_float x)) = Some q -> IEEE.is_finite x = true.
Proof.
  destruct x as [s|[|]| |s m e]; try reflexivity; intros H; vm_compute in H; discriminate H.
Qed.

(** X12. A record reads back as numbers exactly when all five values are
    finite: a NaN or an infinity in any sensor global is written as text
    that is not a number, so the whole record fails to parse under the
    column format instead of yielding a wrong value. *)
Theorem record_parses_iff_finite (ts : string) (s : State)
        (Hts : forall_chars is_field_char ts = true)
        (Hvalid : IEEE.is_float (airTemp s) = true /\ IEEE.is_float (humidity s) = true /\
                  IEEE.is_float (pressure s) = true /\ IEEE.is_float (waterTemp s) = true /\
                  IEEE.is_float (waterLevel s) = true) :
  (exists rd : Reading, parse_record (csv_record ts s) = Some rd) <->
  (IEEE.is_finite (airTemp s) = true /\ IEEE.is_finite (humidity s) = true /\
   IEEE.is_finite (pressure s) = true /\ IEEE.is_finite (waterTemp s) = true /\
   IEEE.is_finite (waterLevel s) = true).
Proof.
  destruct Hvalid as (V1 & V2 & V3 & V4 & V5). split.
  - intros [rd P]. unfold parse_record in P.
    rewrite (csv_record_fields ts s Hts) in P.
    destruct (parse_number (Fmt.f1 (IEEE.double_of_float (airTemp s)))) eqn:P1;
      [|discriminate P].
    destruct (parse_number (Fmt.f1 (IEEE.double_of_float (humidity s)))) eqn:P2;
      [|discriminate P].
    destruct (parse_number (Fmt.f1 (IEEE.double_of_float (pressure s)))) eqn:P3;
      [|discriminate P].
    destruct (parse_number (Fmt.f1 (IEEE.double_of_float (waterTemp s)))) eqn:P4;
      [|discriminate P].
    destruct (parse_number (Fmt.f1 (IEEE.double_of_float (waterLevel s)))) eqn:P5;
      [|discriminate P].
    repeat split; eapply field_parses_only_if_finite; eassumption.
  - intros (F1 & F2 & F3 & F4 & F5).
    destruct (parse_record_csv_record ts s Hts) as (rd & P & _).
    + repeat split; assumption.
    + exists rd. exact P.
Qed.

Lemma record_parses_iff_finite_witness :
  forall_chars is_field_char FALLBACK_TIMESTAMP = true /\
  ~ exists rd : Reading,
      parse_record (csv_record FALLBACK_TIMESTAMP
                               (sample_state S754_nan (IEEE.float_of_int 90))) = Some rd.
Proof.
  split; [reflexivity|].
  intros P.
  apply (record_parses_iff_finite FALLBACK_TIMESTAMP
           (sample_state S754_nan (IEEE.float_of_int 90)) eq_refl) in P.
  - destruct P as [F _]. discriminate F.
  - repeat split; reflexivity.
Defined.

End More_records.

(** ** Timestamps *)

Section More_timestamps.

Local Open Scope Z_scope.

Lemma parse_d0_two_digits (z : Z) :
  0 <= z <= 99 -> parse_digits (Fmt.d0 2 z) = Some (Z.to_N z).
Proof.
  intros H.
  assert (C : forallb (fun n => match parse_digits (Fmt.d0 2 (Z.of_nat n)) with
                                | Some v => N.eqb v (N.of_nat n)
                                | None => false
                                end) (seq 0 100) = true) by (vm_compute; reflexivity).
  rewrite forallb_forall in C.
  specialize (C (Z.to_nat z) ltac:(apply in_seq; lia)).
  rewrite Z2Nat.id in C by lia.
  destruct (parse_digits (Fmt.d0 2 z)) as [v|]; [|discriminate C].
  apply N.eqb_eq in C. f_equal. lia.
Qed.

Lemma parse_d_nonneg (z : Z) : 0 <= z -> parse_digits (Fmt.d z) = Some (Z.to_N z).
Proof.
  intros H. unfold Fmt.d.
  replace (z <? 0) with false by (symmetry; apply Z.ltb_ge; lia).
  rewrite parse_digits_dec. f_equal. lia.
Qed.

(** Reading a text laid out as a timestamp. *)
Lemma parse_timestamp_layout (Y M D H Mi S : string) :
  String.length Y = 4%nat -> String.length M = 2%nat -> String.length D = 2%nat ->
  String.length H = 2%nat -> String.length Mi = 2%nat -> String.length S = 2%nat ->
  parse_timestamp (Y ++ "-" ++ M ++ "-" ++ D ++ "T" ++ H ++ ":" ++ Mi ++ ":" ++ S
                     ++ "+09:00") =
  match parse_digits Y, parse_digits M, parse_digits D,
        parse_digits H, parse_digits Mi, parse_digits S with
  | Some y, Some mo, Some d, Some h, Some mi, Some sec =>
      Some {| tm_sec := Z.of_N sec; tm_min := Z.of_N mi; tm_hour := Z.of_N h;
              tm_mday := Z.of_N d; tm_mon := Z.of_N mo - 1;
              tm_year := Z.of_N y - 1900 |}
  | _, _, _, _, _, _ => None
  end.
Proof.
  intros LY LM LD LH LMi LS.
  destruct Y as [|y1 [|y2 [|y3 [|y4 [|]]]]]; try discriminate LY.
  destruct M as [|m1 [|m2 [|]]]; try discriminate LM.
  destruct D as [|d1 [|d2 [|]]]; try discriminate LD.
  destruct H as [|h1 [|h2 [|]]]; try discriminate LH.
  destruct Mi as [|i1 [|i2 [|]]]; try discriminate LMi.
  destruct S as [|s1 [|s2 [|]]]; try discriminate LS.
  reflexivity.
Qed.

Lemma parse_timestamp_iso8601 (t : tm) :
  tm_plausible t -> parse_timestamp (iso8601 t) = Some t.
Proof.
  intros Hcal. pose proof (iso8601_length t Hcal) as L.
  destruct Hcal as (Hy & Hm & Hd & Hh & Hmi & Hs). unfold iso8601.
  rewrite !wrap32_small by lia.
  rewrite parse_timestamp_layout
    by (first [apply d_four_digits | apply d0_two_digits]; lia).
  rewrite parse_d_nonneg, !parse_d0_two_digits by lia.
  rewrite !Z2N.id by lia.
  destruct t; cbn in *. f_equal. f_equal; lia.
Qed.

(** X13. A timestamp made from a calendar time (years 1900..9999) has the
    fixed 25-character layout YYYY-MM-DDThh:mm:ss+09:00, fits the buffer of
    [getTimestamp], and reads back to the very time it was made from. *)
Theorem timestamp_round_trip (env : Env) (s : State) (t : tm)
        (Hclock : getLocalTime env (time_calls s) = Some t)
        (Hcal : tm_plausible t) :
  exists ts : string,
    getTimestamp env s = Returned ts (set_time_calls (S (time_calls s)) s) /\
    String.length ts = 25%nat /\
    parse_timestamp ts = Some t.
Proof.
  exists (iso8601 t).
  pose proof (iso8601_length t Hcal) as L.
  split; [|split; [exact L|]].
  - rewrite getTimestamp_run, Hclock. unfold timestamp_text, strftime.
    rewrite L. reflexivity.
  - apply parse_timestamp_iso8601, Hcal.
Qed.

Lemma timestamp_round_trip_witness :
  tm_plausible (sample_time 14) /\
  parse_timestamp "2026-08-15T14:00:00+09:00" = Some (sample_time 14).
Proof.
  assert (P : tm_plausible (sample_time 14)) by (unfold tm_plausible; cbn; lia).
  split; [exact P|].
  destruct (timestamp_round_trip (sample_env (Some (sample_time 14))) (boot None)
                                 (sample_time 14) eq_refl P) as (ts & E & _ & R).
  injection E as <-. exact R.
Defined.

(** X17. The fallback text is itself a well-formed timestamp: it reads back
    as 1 January 1970, 00:00:00.  With a clock that delivers calendar times,
    [getTimestamp] returns it exactly when the clock fails or answers that
    very instant, so a record stamped with it is told apart from every
    other reading of the clock. *)
Theorem fallback_timestamp_meaning (env : Env) (s : State)
        (Hcal : forall t : tm, getLocalTime env (time_calls s) = Some t -> tm_plausible t) :
  parse_timestamp FALLBACK_TIMESTAMP = Some epoch_start /\
  (getTimestamp env s =
     Returned FALLBACK_TIMESTAMP (set_time_calls (S (time_calls s)) s) <->
   getLocalTime env (time_calls s) = None \/
   getLocalTime env (time_calls s) = Some epoch_start).
Proof.
  split; [reflexivity|].
  rewrite getTimestamp_run.
  destruct (getLocalTime env (time_calls s)) as [t|] eqn:Hc.
  - specialize (Hcal t eq_refl).
    assert (T : timestamp_text env (Some t) = iso8601 t).
    { unfold timestamp_text, strftime. rewrite (iso8601_length t Hcal). reflexivity. }
    rewrite T. split.
    + intros E. right. injection E as E.
      pose proof (parse_timestamp_iso8601 t Hcal) as P.
      rewrite E in P. change (parse_timestamp FALLBACK_TIMESTAMP) with (Some epoch_start) in P.
      symmetry. exact P.
    + intros [E|E]; [discriminate E|]. injection E as ->. reflexivity.
  - split; [intros _; left; reflexivity|intros _; reflexivity].
Qed.

Lemma fallback_timestamp_meaning_witness :
  getTimestamp (sample_env (Some epoch_start)) (boot None) =
  Returned FALLBACK_TIMESTAMP (set_time_calls 1 (boot None)).
Proof.
  apply (fallback_timestamp_meaning (sample_env (Some epoch_start)) (boot None)).
  - intros t E. injection E as <-. unfold tm_plausible. cbn. lia.
  - right. reflexivity.
Defined.

End More_timestamps.

(** ** The calibration curve *)

Section More_calibration.

Local Open Scope Z_scope.

Lemma level_steps_checked : forallb level_step_ok (map Z.of_nat (seq 0 4095)) = true.
Proof. vm_compute. reflexivity. Qed.

Lemma level_step (n : Z) : 0 <= n <= 4094 -> level_step_ok n = true.
Proof.
  intros H. pose proof level_steps_checked as C. rewrite forallb_forall in C.
  apply C. apply in_map_iff. exists (Z.to_nat n). split; [lia|]. apply in_seq. lia.
Qed.

Lemma level_zero (n : Z) : 0 <= n <= 620 -> (level_Q n == 0)%Q.
Proof.
  intros H. destruct (Z.eq_dec n 620) as [->|N].
  - pose proof (level_step 619 ltac:(lia)) as S. unfold level_step_ok in S.
    change (619 <? 620) with true in S. cbv iota in S.
    apply andb_true_iff in S. destruct S as [_ S]. apply Qeq_bool_eq in S. exact S.
  - pose proof (level_step n ltac:(lia)) as S. unfold level_step_ok in S.
    replace (n <? 620) with true in S by (symmetry; apply Z.ltb_lt; lia).
    apply andb_true_iff in S. destruct S as [S _]. apply Qeq_bool_eq in S. exact S.
Qed.

Lemma level_grows (k : nat) :
  forall a : Z, 620 <= a -> a + Z.of_nat (S k) <= 4095 ->
    (level_Q a < level_Q (a + Z.of_nat (S k)))%Q.
Proof.
  assert (one : forall a : Z, 620 <= a <= 4094 -> (level_Q a < level_Q (a + 1))%Q).
  { intros a H. pose proof (level_step a ltac:(lia)) as S. unfold level_step_ok in S.
    replace (a <? 620) with false in S by (symmetry; apply Z.ltb_ge; lia).
    apply negb_true_iff in S. apply Qnot_le_lt. intros L.
    apply Qle_bool_iff in L. congruence. }
  induction k as [|k IH]; intros a Ha Hb.
  - apply one. lia.
  - apply Qlt_trans with (level_Q (a + Z.of_nat (S k))).
    + apply IH; lia.
    + replace (a + Z.of_nat (S (S k))) with (a + Z.of_nat (S k) + 1) by lia.
      apply one. lia.
Qed.

Lemma level_increasing (a b : Z) :
  620 <= a -> a < b -> b <= 4095 -> (level_Q a < level_Q b)%Q.
Proof.
  intros Ha Hab Hb.
  replace b with (a + Z.of_nat (S (Z.to_nat (b - a - 1)))) by lia.
  apply level_grows; lia.
Qed.

(** X14. Over the counts of the 12-bit converter the water level never
    decreases with the count; it is zero up to count 620 and only there,
    grows strictly from count 620 on, and reaches the full 20 cm at count
    4095 only. *)
Theorem adcToWaterLevel_monotone (a b : Z)
        (Ha : 0 <= a) (Hab : a <= b) (Hb : b <= 4095) :
  (level_Q a <= level_Q b)%Q /\
  (620 <= a -> a < b -> (level_Q a < level_Q b)%Q) /\
  ((level_Q a == 0)%Q <-> a <= 620) /\
  ((level_Q b == 20)%Q <-> b = 4095).
Proof.
  assert (pos : forall n : Z, 620 < n <= 4095 -> (0 < level_Q n)%Q).
  { intros n H. rewrite <- (level_zero 620 ltac:(lia)). apply level_increasing; lia. }
  assert (top : (level_Q 4095 == 20)%Q) by (vm_compute; reflexivity).
  split; [|split; [|split]].
  - destruct (Z_le_gt_dec b 620) as [B|B].
    + rewrite (level_zero a), (level_zero b) by lia. apply Qle_refl.
    + destruct (Z_le_gt_dec a 620) as [A|A].
      * rewrite (level_zero a) by lia. apply Qlt_le_weak, pos. lia.
      * destruct (Z.eq_dec a b) as [->|N]; [apply Qle_refl|].
        apply Qlt_le_weak, level_increasing; lia.
  - intros A L. apply level_increasing; lia.
  - split.
    + intros E. destruct (Z_le_gt_dec a 620) as [A|A]; [exact A|].
      pose proof (pos a ltac:(lia)) as P. rewrite E in P.
      exfalso. exact (Qlt_irrefl _ P).
    + intros A. apply level_zero. lia.
  - split.
    + intros E. destruct (Z.eq_dec b 4095) as [B|B]; [exact B|]. exfalso.
      destruct (Z_le_gt_dec b 620) as [B'|B'].
      * rewrite (level_zero b) in E by lia. discriminate E.
      * pose proof (level_increasing b 4095 ltac:(lia) ltac:(lia) ltac:(lia)) as L.
        rewrite E, top in L. exact (Qlt_irrefl _ L).
    + intros ->. exact top.
Qed.

Lemma adcToWaterLevel_monotone_witness :
  (level_Q 1000 <= level_Q 2000)%Q /\ (level_Q 1000 < level_Q 2000)%Q.
Proof.
  destruct (adcToWaterLevel_monotone 1000 2000 ltac:(lia) ltac:(lia) ltac:(lia))
    as (L & S & _).
  split; [exact L|]. apply S; lia.
Defined.

End More_calibration.

(** ** The water level at any count *)

Section Any_count.

Local Open Scope Z_scope.

Lemma SFcompare_antisym (x y : spec_float) :
  SFcompare y x = option_map CompOpp (SFcompare x y).
Proof.
  destruct x as [sx|sx| |sx mx ex], y as [sy|sy| |sy my ey]; try reflexivity;
    cbn [SFcompare option_map]; try (destruct sx; reflexivity);
    try (destruct sy; reflexivity); try (destruct sx, sy; reflexivity).
  f_equal. fold (Pos.compare mx my). fold (Pos.compare my mx).
  rewrite (Z.compare_antisym ex ey), (Pos.compare_antisym mx my).
  destruct sx, sy; try reflexivity;
    destruct (ex ?= ey); cbn [CompOpp]; try reflexivity.
Qed.

Lemma not_lt_le (x y : spec_float) :
  IEEE.is_nan x = false -> IEEE.is_nan y = false ->
  IEEE.lt x y = false -> IEEE.le y x = true.
Proof.
  unfold IEEE.lt, IEEE.le, SFltb, SFleb. intros Hx Hy. rewrite (SFcompare_antisym x y).
  destruct (SFcompare x y) as [[| |]|] eqn:E; cbn; try congruence.
  destruct x, y; try discriminate; cbn in E; discriminate.
Qed.

Lemma binary_round_not_nan prec emax s m e :
  IEEE.is_nan (binary_round prec emax s m e) = false.
Proof.
  unfold binary_round. destruct (shl_align _ _ _) as [mz ez].
  apply binary_round_aux_not_nan. lia.
Qed.

Lemma binary_normalize_not_nan prec emax m e sz :
  IEEE.is_nan (binary_normalize prec emax m e sz) = false.
Proof.
  unfold binary_normalize. destruct m; [reflexivity| |]; apply binary_round_not_nan.
Qed.

Lemma SFmul_not_nan prec emax x s m e :
  IEEE.is_nan x = false -> IEEE.is_nan (SFmul prec emax x (S754_finite s m e)) = false.
Proof.
  destruct x as [sx|sx| |sx mx ex]; try discriminate; intros _; cbn [SFmul]; try reflexivity.
  apply binary_round_aux_not_nan. lia.
Qed.

Lemma SFdiv_not_nan prec emax x s m e :
  IEEE.is_nan x = false -> IEEE.is_nan (SFdiv prec emax x (S754_finite s m e)) = false.
Proof.
  destruct x as [sx|sx| |sx mx ex]; try discriminate; intros _; cbn [SFdiv]; try reflexivity.
  unfold SFdiv_core_binary.
  set (e' := Z.min _ _). set (m' := match ex - e - e' with 0 => _ | Zpos _ => _ | Zneg _ => _ end).
  assert (M : 0 <= m').
  { subst m'. destruct (ex - e - e'); try lia. apply Z.shiftl_nonneg. lia. }
  pose proof (Z.div_pos m' (Zpos m) M ltac:(lia)) as D.
  unfold Z.div in D. destruct (Z.div_eucl m' (Zpos m)) as [q r]. cbn [fst] in D.
  apply binary_round_aux_not_nan. exact D.
Qed.

Lemma SFsub_not_nan prec emax x s m e :
  IEEE.is_nan x = false -> IEEE.is_nan (SFsub prec emax x (S754_finite s m e)) = false.
Proof.
  destruct x as [sx|sx| |sx mx ex]; try discriminate; intros _; cbn [SFsub]; try reflexivity.
  apply binary_normalize_not_nan.
Qed.

(** The level before clamping is never a NaN. *)
Lemma adcToWaterLevel_level_not_nan (rawAdc : Z) :
  IEEE.is_nan
    (IEEE.float_of_double
      (IEEE.ddiv
         (IEEE.dmul (IEEE.dsub (IEEE.double_of_float
            (IEEE.float_of_double
              (IEEE.ddiv (IEEE.dmul (IEEE.double_of_int rawAdc) (IEEE.dlit 33 1))
                 (IEEE.dlit 40950 1)))) (IEEE.dlit 5 1))
                    (IEEE.dlit 200 1))
         (IEEE.dsub (IEEE.dlit 33 1) (IEEE.dlit 5 1)))) = false.
Proof.
  assert (F : forall x, IEEE.is_nan x = false -> IEEE.is_nan (IEEE.float_of_double x) = false).
  { intros [s|s| |s m e]; try discriminate; intros _; try reflexivity.
    apply binary_round_not_nan. }
  assert (D : forall x, IEEE.is_nan x = false -> IEEE.is_nan (IEEE.double_of_float x) = false).
  { intros [s|s| |s m e]; try discriminate; intros _; try reflexivity.
    apply binary_round_not_nan. }
  assert (K33 : exists s m e, IEEE.dlit 33 1 = S754_finite s m e)
    by (vm_compute; do 3 eexists; reflexivity).
  assert (K4095 : exists s m e, IEEE.dlit 40950 1 = S754_finite s m e)
    by (vm_compute; do 3 eexists; reflexivity).
  assert (K05 : exists s m e, IEEE.dlit 5 1 = S754_finite s m e)
    by (vm_compute; do 3 eexists; reflexivity).
  assert (K20 : exists s m e, IEEE.dlit 200 1 = S754_finite s m e)
    by (vm_compute; do 3 eexists; reflexivity).
  assert (K28 : exists s m e, IEEE.dsub (IEEE.dlit 33 1) (IEEE.dlit 5 1) = S754_finite s m e)
    by (vm_compute; do 3 eexists; reflexivity).
  destruct K28 as (? & ? & ? & ->), K33 as (? & ? & ? & ->), K4095 as (? & ? & ? & ->),
           K05 as (? & ? & ? & ->), K20 as (? & ? & ? & ->).
  apply F, SFdiv_not_nan, SFmul_not_nan, SFsub_not_nan, D, F, SFdiv_not_nan, SFmul_not_nan.
  apply binary_normalize_not_nan.
Qed.

(** X15. For every [int] handed to [adcToWaterLevel], also outside the range
    of the converter, the result is a finite number with 0 <= result <= 20 in
    the comparison of the target: the two clamps leave no way out, and no
    NaN arises on the way. *)
Theorem adcToWaterLevel_any_count (rawAdc : Z) :
  IEEE.is_finite (adcToWaterLevel rawAdc) = true /\
  IEEE.le (IEEE.float_of_int 0) (adcToWaterLevel rawAdc) = true /\
  IEEE.le (adcToWaterLevel rawAdc) (IEEE.float_of_int 20) = true.
Proof.
  assert (R : IEEE.le (IEEE.float_of_int 0) (adcToWaterLevel rawAdc) = true /\
              IEEE.le (adcToWaterLevel rawAdc) (IEEE.float_of_int 20) = true).
  { pose proof (adcToWaterLevel_level_not_nan rawAdc) as N.
    unfold adcToWaterLevel. cbv zeta.
    match type of N with IEEE.is_nan ?l = false => set (level := l) in * end.
    destruct (IEEE.lt level (IEEE.float_of_int 0)) eqn:Lo.
    - vm_compute. split; reflexivity.
    - destruct (IEEE.gt level (IEEE.float_of_int 20)) eqn:Hi.
      + vm_compute. split; reflexivity.
      + split.
        * apply not_lt_le; [exact N|reflexivity|exact Lo].
        * apply not_lt_le; [reflexivity|exact N|exact Hi]. }
  split; [|exact R]. destruct R as [R0 R20].
  destruct (adcToWaterLevel rawAdc) as [s|[|]| |s m e]; try reflexivity;
    try discriminate R0; try discriminate R20.
Qed.

End Any_count.

(** ** The clock and the radio in one cycle *)

Section More_cycle.

Variable env : Env.

Lemma sync_step_counters (s : State) :
  exists s2 : State,
    (if WIFI_SSID_defined env then syncTime env else ret tt) s = Returned tt s2 /\
    data_csv s2 = data_csv s /\
    (time_calls s <= time_calls s2 <= time_calls s + 1)%nat /\
    (wifi_polls s <= wifi_polls s2 <= wifi_polls s + 22)%nat /\
    (WIFI_SSID_defined env = false ->
     time_calls s2 = time_calls s /\ wifi_polls s2 = wifi_polls s).
Proof.
  destruct (WIFI_SSID_defined env).
  - unfold syncTime.
    destruct (syncTime_wait_bounded env 20 s) as (p & E & B).
    rewrite (bind_run _ _ _ _ _ E).
    unfold bind, WiFi_status_is_connected, call_getLocalTime, ret, Serial_println,
      Serial_print, modify.
    destruct s as [a h pr wt wl card se wk tc wp]; cbn in B |- *.
    destruct (WiFi_connected env p); cbn.
    + destruct (getLocalTime env tc) as [t|];
        (eexists; split; [reflexivity|]);
        cbn; (split; [reflexivity|]); (split; [lia|]); (split; [lia|discriminate]).
    + eexists; split; [reflexivity|].
      cbn. split; [reflexivity|]. split; [lia|]. split; [lia|discriminate].
  - exists s. split; [reflexivity|]. split; [reflexivity|].
    split; [lia|]. split; [lia|]. intros _. split; reflexivity.
Qed.

Lemma ensureHeader_polls (s s' : State) :
  ensureHeader env s = Returned tt s' -> wifi_polls s' = wifi_polls s.
Proof.
  unfold ensureHeader, bind, SD_exists_data_csv, gets,
    SD_open_FILE_WRITE, File_println, File_print, modify, ret, bind.
  destruct (data_csv s) as [c|]; cbn [negb].
  - intros E. injection E as <-. reflexivity.
  - destruct (SD_open_write env); intros E; injection E as <-; reflexivity.
Qed.

Lemma readSensors_polls (s s' : State) :
  readSensors env s = Returned tt s' -> wifi_polls s' = wifi_polls s.
Proof.
  unfold readSensors, bind, modify, gets, ret, Serial_print.
  cbn [waterTemp set_waterTemp].
  destruct (IEEE.eq _ _); intros E; injection E as <-; reflexivity.
Qed.

Lemma writeCSV_polls (s s' : State) :
  writeCSV env s = Returned tt s' -> wifi_polls s' = wifi_polls s.
Proof.
  unfold writeCSV.
  rewrite (bind_run _ _ _ _ _ (getTimestamp_run env s)).
  unfold bind, SD_open_FILE_APPEND, modify, gets, ret, File_print, Serial_println,
    Serial_print.
  destruct (SD_open_append env); cbn [negb].
  - destruct s as [a h pr wt wl [c|] se wk tc wp]; cbn;
      intros E; injection E as <-; reflexivity.
  - intros E; injection E as <-; reflexivity.
Qed.

(** X16. With the card present, a cycle asks the clock exactly twice after
    the optional time synchronisation: reading number [k] stamps the record
    and the next reading, number [k + 1], decides the sleep interval, on the
    sensor values just measured.  The synchronisation accounts for at most
    one clock call and at most 22 polls of the WiFi status; without
    [WIFI_SSID] the radio is never polled and [k] is the first reading of the
    cycle. *)
Theorem cycle_reads_the_clock_twice (s : State) (Hsd : SD_begin env = true) :
  exists (k : nat) (s5 s' : State) (v : Z),
    setup env s = Asleep s' /\
    (time_calls s <= k <= time_calls s + 1)%nat /\
    (wifi_polls s <= wifi_polls s' <= wifi_polls s + 22)%nat /\
    (WIFI_SSID_defined env = false ->
     k = time_calls s /\ wifi_polls s' = wifi_polls s) /\
    data_csv s' = record_appended env k (header_ensured env (data_csv s)) /\
    time_calls s5 = S k /\ same_reading (measurement env) s5 /\
    calcSleepInterval env s5 = Returned v (set_time_calls (S (S k)) s5) /\
    wake_timer s' = Some (v * 1000000)%Z /\
    time_calls s' = S (S k).
Proof.
  unfold setup.
  rewrite (bind_run _ _ _ _ _ (Serial_println_run _ s)).
  set (s0 := set_serial _ s).
  assert (B : exists s1, (if negb (bme_begin env)
                          then Serial_println "ERROR: BME280 not found!"
                          else ret tt) s0 = Returned tt s1 /\
                         data_csv s1 = data_csv s /\ time_calls s1 = time_calls s /\
                         wifi_polls s1 = wifi_polls s).
  { destruct (bme_begin env); cbn [negb]; eexists; (split; [reflexivity|]);
      repeat split; reflexivity. }
  destruct B as (s1 & E1 & C1 & T1 & P1).
  rewrite (bind_run _ _ _ _ _ E1), Hsd. cbn [negb].
  destruct (sync_step_counters s1) as (s2 & E2 & C2 & T2 & P2 & N2).
  rewrite (bind_run _ _ _ _ _ E2).
  destruct (ensureHeader_run env s2) as (s3 & E3 & C3 & T3).
  pose proof (ensureHeader_polls _ _ E3) as P3.
  rewrite (bind_run _ _ _ _ _ E3).
  destruct (readSensors_run env s3) as (s4 & E4 & C4 & T4 & _).
  pose proof (same_reading_measurement env s3 s4 E4) as R4.
  pose proof (readSensors_polls _ _ E4) as P4.
  rewrite (bind_run _ _ _ _ _ E4).
  destruct (writeCSV_run env s4) as (s5 & E5 & C5 & T5 & R5).
  pose proof (writeCSV_polls _ _ E5) as P5.
  rewrite (bind_run _ _ _ _ _ E5).
  destruct (calcSleepInterval_run env s5) as (v & E6 & Hv).
  rewrite (bind_run _ _ _ _ _ E6).
  rewrite (bind_run _ _ _ _ _ (Serial_print_run _ _)).
  rewrite goToSleep_run.
  destruct (wake_timer_of_interval v Hv) as [Hw _].
  assert (K : time_calls s4 = time_calls s2) by congruence.
  exists (time_calls s2), s5. eexists. exists v.
  split; [reflexivity|].
  cbn [time_calls wifi_polls data_csv wake_timer set_serial set_wake_timer
       set_time_calls].
  split; [lia|]. split; [lia|].
  split; [intros W; destruct (N2 W); lia|].
  split; [|split; [congruence|split; [|split; [|split]]]].
  - rewrite C5, C4, C3, C2, C1, K. unfold record_appended.
    destruct (SD_open_append env); [|reflexivity].
    unfold csv_line. rewrite (csv_record_same_reading _ _ _ R4). reflexivity.
  - destruct R4 as (a1 & a2 & a3 & a4 & a5).
    destruct R5 as (b1 & b2 & b3 & b4 & b5).
    unfold same_reading. repeat split; congruence.
  - rewrite E6. congruence.
  - rewrite Hw. reflexivity.
  - congruence.
Qed.

End More_cycle.

Lemma cycle_reads_the_clock_twice_witness :
  exists s' : State,
    setup (sample_env (Some (sample_time 14))) (boot None) = Asleep s' /\
    time_calls s' = 2%nat /\ wifi_polls s' = 0%nat.
Proof.
  destruct (cycle_reads_the_clock_twice (sample_env (Some (sample_time 14))) (boot None)
                                        eq_refl)
    as (k & s5 & s' & v & E & _ & _ & W & _ & _ & _ & _ & _ & T).
  destruct (W eq_refl) as [K P]. exists s'.
  split; [exact E|]. split; [rewrite T, K; reflexivity|exact P].
Defined.

(** ** What a cycle takes from the state it starts in *)

Section Cold_boot.

Variable env : Env.

Lemma in_step_bind {A B : Type} (P Q R Zz : State -> State -> Prop)
      (c : M A) (k : A -> M B) :
  in_step P c Q Zz -> (forall a : A, in_step Q (k a) R Zz) ->
  in_step P (bind c k) R Zz.
Proof.
  intros Hc Hk s1 s2 HP. specialize (Hc s1 s2 HP). unfold bind.
  destruct (c s1) as [a1 t1|t1], (c s2) as [a2 t2|t2]; try contradiction.
  - destruct Hc as [<- HQ]. apply Hk, HQ.
  - exact Hc.
Qed.

Lemma in_step_ret {A : Type} (P Zz : State -> State -> Prop) (a : A) :
  in_step P (ret a) P Zz.
Proof. intros s1 s2 HP. split; [reflexivity|exact HP]. Qed.

Lemma in_step_serial (g : bool) (Zz : State -> State -> Prop) (t : string) :
  in_step (same_start g) (Serial_print t) (same_start g) Zz.
Proof. intros s1 s2 HP. split; [reflexivity|exact HP]. Qed.

Lemma in_step_poll (g : bool) (Zz : State -> State -> Prop) :
  in_step (same_start g) (WiFi_status_is_connected env) (same_start g) Zz.
Proof.
  intros s1 s2 (C & T & W & G). unfold WiFi_status_is_connected. rewrite W.
  split; [reflexivity|].
  split; [exact C|split; [exact T|split; [reflexivity|exact G]]].
Qed.

Lemma in_step_clock (g : bool) (Zz : State -> State -> Prop) :
  in_step (same_start g) (call_getLocalTime env) (same_start g) Zz.
Proof.
  intros s1 s2 (C & T & W & G). unfold call_getLocalTime. rewrite T.
  split; [reflexivity|].
  split; [exact C|split; [reflexivity|split; [exact W|exact G]]].
Qed.

Lemma in_step_syncTime_wait (g : bool) (Zz : State -> State -> Prop) (n : nat) :
  in_step (same_start g) (syncTime_wait env n) (same_start g) Zz.
Proof.
  induction n as [|n IH]; cbn [syncTime_wait];
    (eapply in_step_bind; [apply in_step_poll|]); intros [|];
    try apply in_step_ret. exact IH.
Qed.

Lemma in_step_syncTime (g : bool) (Zz : State -> State -> Prop) :
  in_step (same_start g) (syncTime env) (same_start g) Zz.
Proof.
  unfold syncTime.
  eapply in_step_bind; [apply in_step_syncTime_wait|]. intros _.
  eapply in_step_bind; [apply in_step_poll|]. intros [|].
  - eapply in_step_bind; [apply in_step_clock|]. intros [t|].
    + apply in_step_serial.
    + apply in_step_ret.
  - apply in_step_serial.
Qed.

Lemma in_step_ensureHeader (g : bool) (Zz : State -> State -> Prop) :
  in_step (same_start g) (ensureHeader env) (same_start g) Zz.
Proof.
  intros s1 s2 (C & T & W & G).
  destruct (ensureHeader_run env s1) as (t1 & E1 & C1 & T1).
  destruct (ensureHeader_run env s2) as (t2 & E2 & C2 & T2).
  pose proof (ensureHeader_polls env _ _ E1) as W1.
  pose proof (ensureHeader_polls env _ _ E2) as W2.
  rewrite E1, E2. split; [reflexivity|].
  split; [congruence|]. split; [congruence|]. split; [congruence|].
  intros Hg. specialize (G Hg). revert E1 E2.
  unfold ensureHeader, bind, SD_exists_data_csv, gets,
    SD_open_FILE_WRITE, File_println, File_print, modify, ret, bind.
  rewrite C.
  destruct (data_csv s2) as [c|]; cbn [negb].
  - intros E1 E2. injection E1 as <-. injection E2 as <-. exact G.
  - destruct (SD_open_write env); intros E1 E2; injection E1 as <-; injection E2 as <-;
      exact G.
Qed.

Lemma in_step_readSensors (g : bool) (Zz : State -> State -> Prop) :
  in_step (same_start g) (readSensors env) (same_start true) Zz.
Proof.
  intros s1 s2 (C & T & W & _).
  destruct (readSensors_run env s1) as (t1 & E1 & C1 & T1 & a1 & b1 & c1 & d1 & e1).
  destruct (readSensors_run env s2) as (t2 & E2 & C2 & T2 & a2 & b2 & c2 & d2 & e2).
  pose proof (readSensors_polls env _ _ E1) as W1.
  pose proof (readSensors_polls env _ _ E2) as W2.
  rewrite E1, E2. split; [reflexivity|].
  split; [congruence|]. split; [congruence|]. split; [congruence|].
  intros _. unfold same_reading. repeat split; congruence.
Qed.

Lemma in_step_writeCSV (Zz : State -> State -> Prop) :
  in_step (same_start true) (writeCSV env) (same_start true) Zz.
Proof.
  intros s1 s2 (C & T & W & G). specialize (G eq_refl).
  destruct (writeCSV_run env s1) as (t1 & E1 & C1 & T1 & R1).
  destruct (writeCSV_run env s2) as (t2 & E2 & C2 & T2 & R2).
  pose proof (writeCSV_polls env _ _ E1) as W1.
  pose proof (writeCSV_polls env _ _ E2) as W2.
  rewrite E1, E2. split; [reflexivity|].
  split; [|split; [congruence|split; [congruence|]]].
  - rewrite C1, C2, C, T. unfold csv_line.
    rewrite (csv_record_same_reading _ _ _ G). reflexivity.
  - intros _. destruct G as (g1 & g2 & g3 & g4 & g5).
    destruct R1 as (p1 & p2 & p3 & p4 & p5). destruct R2 as (q1 & q2 & q3 & q4 & q5).
    unfold same_reading. repeat split; congruence.
Qed.

Lemma in_step_calcSleepInterval (Zz : State -> State -> Prop) :
  in_step (same_start true) (calcSleepInterval env) (same_start true) Zz.
Proof.
  intros s1 s2 (C & T & W & G). destruct (G eq_refl) as (g1 & g2 & g3 & g4 & g5).
  unfold calcSleepInterval, bind, call_getLocalTime, gets, ret. cbv zeta.
  rewrite T.
  assert (K : same_start true (set_time_calls (S (time_calls s2)) s1)
                         (set_time_calls (S (time_calls s2)) s2)).
  { split; [exact C|]. split; [reflexivity|]. split; [exact W|]. exact G. }
  match goal with |- context [if ?c then _ else _] => destruct c end.
  - split; [reflexivity|exact K].
  - cbv beta. cbn [airTemp humidity set_time_calls]. rewrite g1, g2.
    match goal with |- context [if ?c then _ else _] => destruct c end;
      (split; [reflexivity|exact K]).
Qed.

Lemma in_step_goToSleep (g : bool) (Q : State -> State -> Prop) (seconds : Z) :
  in_step (same_start g) (goToSleep seconds) Q same_sleep.
Proof.
  intros s1 s2 (C & T & W & _). rewrite !goToSleep_run.
  repeat split; cbn; assumption.
Qed.

(** X18. A cycle takes nothing from the sensor globals, the serial output or
    the wake timer it starts with: two runs of [setup] that start with the
    same card and the same count of clock calls and WiFi polls both end in
    deep sleep, with the same card, the same wake timer and the same counts.
    Every sensor global is written by [readSensors] before it is read. *)
Theorem setup_ignores_what_boot_resets (s1 s2 : State)
        (Hcard : data_csv s1 = data_csv s2)
        (Hclock : time_calls s1 = time_calls s2)
        (Hwifi : wifi_polls s1 = wifi_polls s2) :
  exists t1 t2 : State,
    setup env s1 = Asleep t1 /\ setup env s2 = Asleep t2 /\
    data_csv t1 = data_csv t2 /\ wake_timer t1 = wake_timer t2 /\
    time_calls t1 = time_calls t2 /\ wifi_polls t1 = wifi_polls t2.
Proof.
  assert (S : in_step (same_start false) (setup env) (fun _ _ => False) same_sleep).
  { unfold setup.
    eapply in_step_bind; [apply in_step_serial|]. intros _.
    eapply in_step_bind.
    { destruct (negb (bme_begin env)); [apply in_step_serial|apply in_step_ret]. }
    intros _.
    destruct (negb (SD_begin env)).
    - eapply in_step_bind; [apply in_step_serial|]. intros _.
      apply (in_step_bind _ (fun _ _ => False)); [apply in_step_goToSleep|]. intros _.
      intros ? ? [].
    - eapply in_step_bind.
      { destruct (WIFI_SSID_defined env); [apply in_step_syncTime|apply in_step_ret]. }
      intros _.
      eapply in_step_bind; [apply in_step_ensureHeader|]. intros _.
      eapply in_step_bind; [apply in_step_readSensors|]. intros _.
      eapply in_step_bind; [apply in_step_writeCSV|]. intros _.
      eapply in_step_bind; [apply in_step_calcSleepInterval|]. intros v.
      eapply in_step_bind; [apply in_step_serial|]. intros _.
      apply in_step_goToSleep. }
  specialize (S s1 s2 (conj Hcard (conj Hclock (conj Hwifi (fun H => False_ind _ (Bool.diff_false_true H)))))).
  destruct (setup env s1) as [a1 t1|t1], (setup env s2) as [a2 t2|t2]; try contradiction.
  - destruct S as [_ []].
  - exists t1, t2. destruct S as (a & b & c & d). repeat split; assumption.
Qed.

End Cold_boot.

Lemma setup_ignores_what_boot_resets_witness :
  exists t1 t2 : State,
    setup (sample_env (Some (sample_time 14))) (boot None) = Asleep t1 /\
    setup (sample_env (Some (sample_time 14)))
          (set_airTemp (IEEE.float_of_int 30) (set_serial "stale" (boot None))) = Asleep t2 /\
    data_csv t1 = data_csv t2 /\ wake_timer t1 = wake_timer t2.
Proof.
  destruct (setup_ignores_what_boot_resets
              (sample_env (Some (sample_time 14))) (boot None)
              (set_airTemp (IEEE.float_of_int 30) (set_serial "stale" (boot None)))
              eq_refl eq_refl eq_refl) as (t1 & t2 & E1 & E2 & C & W & _).
  exists t1, t2. repeat split; assumption.
Defined.
